(** * IIIT-NR attendance backend: QR tokens, scan path, sessions, manual
      reconciliation, join codes, courses, enrollments and profiles.

    A shallow embedding of the Express/Firestore server found in
    [src/FacultyApp/src/services/api.ts] (the backend half of that file):
    the utility functions [calculateDistance], [cleanObject],
    [generateQRPayload], [verifyQRSignature], the middleware [verifyToken],
    and the route handlers [/api/student/scan-qr],
    [/api/faculty/session/:sessionId/stop],
    [/api/faculty/session/:sessionId/manual-attendance],
    [/api/faculty/generate-qr], [/api/faculty/session/:sessionId/attendance],
    [/api/faculty/course/:courseId/students], [/api/student/join-course],
    [/api/faculty/enroll-student], [DELETE /api/faculty/courses/:courseId],
    [/api/student/profile], [/api/faculty/profile] and the join-code loop of
    [/api/faculty/classes/full].

    Conventions of the embedding.
    - JavaScript strings are [string]s (sequences of bytes); [Buffer.from (s)]
      is the byte sequence of [s] itself.
    - Millisecond timestamps ([Date.now ()], [expiresAt]) are integers of [Z].
    - A JSON number of a request or of a token (coordinates, radius,
      accuracy) is the rational of [Q] that its literal denotes; where the
      code computes with it, it is the double nearest to that rational.
    - [calculateDistance] computes in IEEE 754 doubles ([number]), with the
      arithmetic of the standard.  [Math.sin], [Math.cos] and [Math.atan2],
      whose values the language leaves to the implementation, are the
      operations of a class [Math]; a statement that needs more of them than
      being functions says what it needs.
    - The Firestore database is an explicit state that every handler
      receives and returns; a handler's HTTP response is a typed result. *)

From Stdlib Require Import ZArith QArith Qround SpecFloat Lia.
From Stdlib Require Import String Ascii List DecimalString DecimalZ DecimalPos.
From stdpp Require Import base option list gmap strings sorting.

Local Open Scope Z_scope.

(** ** Base64, as produced by [Buffer.prototype.toString ('base64')] *)

Module Base64.
Definition alphabet : list ascii :=
  list_ascii_of_string
    "ABCDEFGHIJKLMNOPQRSTUVWXYZabcdefghijklmnopqrstuvwxyz0123456789+/".

Definition pad : ascii := "="%char.

(** The bits of a byte, [bit 7] being the most significant one. *)
Definition bit (i : nat) (a : ascii) : bool :=
  match a with
  | Ascii b0 b1 b2 b3 b4 b5 b6 b7 =>
      match i with
      | 0%nat => b0 | 1%nat => b1 | 2%nat => b2 | 3%nat => b3
      | 4%nat => b4 | 5%nat => b5 | 6%nat => b6 | _ => b7
      end
  end.

(** A group of six bits, most significant first, as an index below 64. *)
Definition sextet (b5 b4 b3 b2 b1 b0 : bool) : nat :=
  (32 * Nat.b2n b5 + 16 * Nat.b2n b4 + 8 * Nat.b2n b3
   + 4 * Nat.b2n b2 + 2 * Nat.b2n b1 + Nat.b2n b0)%nat.

Definition digit (n : nat) : ascii := nth n alphabet pad.

Definition enc (b5 b4 b3 b2 b1 b0 : bool) : ascii :=
  digit (sextet b5 b4 b3 b2 b1 b0).

Fixpoint encode (s : string) : string :=
  match s with
  | EmptyString => EmptyString
  | String a EmptyString =>
      String (enc (bit 7 a) (bit 6 a) (bit 5 a) (bit 4 a) (bit 3 a) (bit 2 a))
     (String (enc (bit 1 a) (bit 0 a) false false false false)
     (String pad (String pad EmptyString)))
  | String a (String b EmptyString) =>
      String (enc (bit 7 a) (bit 6 a) (bit 5 a) (bit 4 a) (bit 3 a) (bit 2 a))
     (String (enc (bit 1 a) (bit 0 a) (bit 7 b) (bit 6 b) (bit 5 b) (bit 4 b))
     (String (enc (bit 3 b) (bit 2 b) (bit 1 b) (bit 0 b) false false)
     (String pad EmptyString)))
  | String a (String b (String c rest)) =>
      String (enc (bit 7 a) (bit 6 a) (bit 5 a) (bit 4 a) (bit 3 a) (bit 2 a))
     (String (enc (bit 1 a) (bit 0 a) (bit 7 b) (bit 6 b) (bit 5 b) (bit 4 b))
     (String (enc (bit 3 b) (bit 2 b) (bit 1 b) (bit 0 b) (bit 7 c) (bit 6 c))
     (String (enc (bit 5 c) (bit 4 c) (bit 3 c) (bit 2 c) (bit 1 c) (bit 0 c))
     (encode rest))))
  end.

(** Position of a character in the alphabet (64 when it is not there). *)
Fixpoint position (c : ascii) (l : list ascii) : nat :=
  match l with
  | [] => 0%nat
  | x :: r => if Ascii.eqb x c then 0%nat else S (position c r)
  end.

Definition index (c : ascii) : nat := position c alphabet.

Definition unsextet (n : nat) : bool * bool * bool * bool * bool * bool :=
  (Nat.testbit n 5, Nat.testbit n 4, Nat.testbit n 3,
   Nat.testbit n 2, Nat.testbit n 1, Nat.testbit n 0).

End Base64.

(** ** Template literals: how a number is printed inside a string *)

(** [`${n}`] for an integer [n] (of magnitude below 10^21, which covers every
    millisecond timestamp): the decimal digits, with a leading minus sign
    for a negative number. *)
Definition number_to_string (n : Z) : string :=
  NilZero.string_of_int (Z.to_int n).

(** ** JavaScript numbers *)

(** A Number is an IEEE 754 double: a signed zero, a signed infinity, NaN, or
    a finite [(-1)^s * m * 2^e].  Its arithmetic is that of the standard for
    53 bits of precision: the result is rounded to the nearest double, a tie
    going to the even one. *)
Definition number : Type := spec_float.

Module Number.

Definition zero : number := S754_zero false.

Definition add : number -> number -> number := SFadd 53 1024.

Definition sub : number -> number -> number := SFsub 53 1024.

Definition mul : number -> number -> number := SFmul 53 1024.

Definition div : number -> number -> number := SFdiv 53 1024.

Definition sqrt : number -> number := SFsqrt 53 1024.

Definition opp : number -> number := SFopp.

Definition abs : number -> number := SFabs.

(** [x <= y], [x < y] and [x == y]: false when an operand is NaN. *)
Definition leb : number -> number -> bool := SFleb.

Definition ltb : number -> number -> bool := SFltb.

Definition eqb : number -> number -> bool := SFeqb.

Definition is_finite (x : number) : bool :=
  match x with
  | S754_zero _ | S754_finite _ _ _ => true
  | _ => false
  end.

(** The Number of an integer literal. *)
Definition of_Z (n : Z) : number := binary_normalize 53 1024 n 0 false.

(** The Number nearest to [(-1)^s * n / d]. *)
Definition of_ratio (s : bool) (n d : positive) : number :=
  let '(mz, ez, lz) := SFdiv_core_binary 53 1024 (Zpos n) 0 (Zpos d) 0 in
  binary_round_aux 53 1024 s mz ez lz.

(** The Number that a JSON literal denotes: the double nearest to its
    rational value, an infinity when that is out of range. *)
Definition of_Q (q : Q) : number :=
  match Qnum q with
  | Z0 => zero
  | Zpos n => of_ratio false n (Qden q)
  | Zneg n => of_ratio true n (Qden q)
  end.

End Number.

Declare Scope number_scope.
Delimit Scope number_scope with number.
Infix "+" := Number.add : number_scope.
Infix "-" := Number.sub : number_scope.
Infix "*" := Number.mul : number_scope.
Infix "/" := Number.div : number_scope.

(** [Math.PI] *)
Definition Math_PI : number := S754_finite false 7074237752028440 (-51).

(** [Math.sqrt], which every engine rounds correctly. *)
Definition Math_sqrt : number -> number := Number.sqrt.

(** The functions of [Math] whose values the language leaves to the
    implementation, but for the arguments it lists. *)
Class Math := {
  Math_sin : number -> number;
  Math_cos : number -> number;
  Math_atan2 : number -> number -> number
}.

(** [Math.round] as JSON prints it: the integer nearest to a finite number,
    a tie going upwards; [None], which is [null], for NaN and the
    infinities. *)
Definition Math_round (x : number) : option Z :=
  match x with
  | S754_zero _ => Some 0
  | S754_finite s m e =>
      let n := if s then Zneg m else Zpos m in
      match e with
      | Zneg p => Some ((2 * n + 2 ^ Zpos p) / 2 ^ (Zpos p + 1))
      | _ => Some (n * 2 ^ e)
      end
  | _ => None
  end.

(** ** JavaScript helpers *)

(** Truthiness of an optional JSON number: [undefined], [null] and a literal
    whose Number is a zero are falsy. *)
Definition truthy (x : option Q) : bool :=
  match x with
  | Some q => negb (Number.eqb (Number.of_Q q) Number.zero)
  | None => false
  end.

(** [x || null] on an optional number. *)
Definition or_null (x : option Q) : option Q :=
  if truthy x then x else None.

(** [new Set (l)]: the distinct elements of [l] in the order of their first
    insertion; [Array.from] of the set is that list. *)
Definition Set_add (acc : list string) (x : string) : list string :=
  if bool_decide (x ∈ acc) then acc else acc ++ [x].

Definition new_Set (l : list string) : list string := foldl Set_add [] l.

Definition Set_has (s : list string) (x : string) : bool := bool_decide (x ∈ s).

(** [s.charAt (k)]: the empty string when [k] is out of range. *)
Definition charAt (s : string) (k : Z) : string :=
  if k <? 0 then EmptyString
  else match String.get (Z.to_nat k) s with
       | Some c => String c EmptyString
       | None => EmptyString
       end.

(** ** Utility functions of the server *)

(** Haversine distance in meters, as the code computes it: every operation
    is the one of doubles, in the order of the source. *)
Definition calculateDistance `{Math} (lat1 lon1 lat2 lon2 : number) : number :=
  (let R_earth := Number.of_Z 6371000 in
   let phi1 := lat1 * Math_PI / Number.of_Z 180 in
   let phi2 := lat2 * Math_PI / Number.of_Z 180 in
   let dphi := (lat2 - lat1) * Math_PI / Number.of_Z 180 in
   let dlambda := (lon2 - lon1) * Math_PI / Number.of_Z 180 in
   let a := Math_sin (dphi / Number.of_Z 2) * Math_sin (dphi / Number.of_Z 2) +
            Math_cos phi1 * Math_cos phi2 *
            Math_sin (dlambda / Number.of_Z 2) *
            Math_sin (dlambda / Number.of_Z 2) in
   let c := Number.of_Z 2 *
            Math_atan2 (Math_sqrt a) (Math_sqrt (Number.of_Z 1 - a)) in
   R_earth * c)%number.

(** *** The QR token *)

Record Location := mkLocation {
  loc_latitude : Q;
  loc_longitude : Q;
  loc_radius : option Q
}.

Record QRPayload := mkQRPayload {
  qr_sessionId : string;
  qr_courseId : string;
  qr_facultyId : string;
  qr_timestamp : Z;
  qr_expiresAt : Z;
  qr_location : option Location;
  qr_signature : string
}.

Section Token.

(** [process.env.QR_SECRET] *)
Variable QR_SECRET : option string.

(** [process.env.QR_SECRET || 'fallback-secret'] *)
Definition secret : string :=
  match QR_SECRET with
  | Some s => if String.eqb s EmptyString then "fallback-secret"%string else s
  | None => "fallback-secret"%string
  end.

(** [Buffer.from (`${sessionId}-${timestamp}-${secret}`).toString ('base64')] *)
Definition sign (sessionId : string) (timestamp : Z) : string :=
  Base64.encode
    (sessionId +:+ "-" +:+ number_to_string timestamp +:+ "-" +:+ secret).

(** [generateQRPayload]; [now] is the value of [Date.now ()], and an omitted
    [expiresIn] takes the default of 300000 ms. *)
Definition generateQRPayload (now : Z) (sessionId courseId facultyId : string)
    (location : option Location) (expiresIn : option Z) : QRPayload :=
  let timestamp := now in
  let expiresAt := timestamp + default 300000 expiresIn in
  {| qr_sessionId := sessionId;
     qr_courseId := courseId;
     qr_facultyId := facultyId;
     qr_timestamp := timestamp;
     qr_expiresAt := expiresAt;
     qr_location := location;
     qr_signature := sign sessionId timestamp |}.

Definition verifyQRSignature (payload : QRPayload) : bool :=
  let expectedSignature := sign (qr_sessionId payload) (qr_timestamp payload) in
  String.eqb (qr_signature payload) expectedSignature.

End Token.

(** What a client that alters a token before presenting it can change. *)
Definition set_qr_sessionId (payload : QRPayload) (sessionId : string)
    : QRPayload :=
  {| qr_sessionId := sessionId; qr_courseId := qr_courseId payload;
     qr_facultyId := qr_facultyId payload;
     qr_timestamp := qr_timestamp payload;
     qr_expiresAt := qr_expiresAt payload;
     qr_location := qr_location payload;
     qr_signature := qr_signature payload |}.

Definition set_qr_timestamp (payload : QRPayload) (timestamp : Z) : QRPayload :=
  {| qr_sessionId := qr_sessionId payload; qr_courseId := qr_courseId payload;
     qr_facultyId := qr_facultyId payload;
     qr_timestamp := timestamp;
     qr_expiresAt := qr_expiresAt payload;
     qr_location := qr_location payload;
     qr_signature := qr_signature payload |}.

Definition set_qr_unsigned_fields (payload : QRPayload)
    (courseId facultyId : string) (expiresAt : Z) (location : option Location)
    : QRPayload :=
  {| qr_sessionId := qr_sessionId payload; qr_courseId := courseId;
     qr_facultyId := facultyId;
     qr_timestamp := qr_timestamp payload;
     qr_expiresAt := expiresAt;
     qr_location := location;
     qr_signature := qr_signature payload |}.

(** ** The database *)

Inductive Status := present | absent.

Inductive Marker := student | faculty.

Definition Status_eqb (a b : Status) : bool :=
  match a, b with
  | present, present | absent, absent => true
  | _, _ => false
  end.

(** A document of the [attendance] collection.  Fields that a writer does not
    set are [None] (or [false] for the [manual] flag). *)
Record Attendance := mkAttendance {
  att_sessionId : string;
  att_courseId : string;
  att_studentId : string;
  att_status : Status;
  att_markedAt : Z;
  att_markedBy : Marker;
  att_locationVerified : bool;
  att_studentLatitude : option Q;
  att_studentLongitude : option Q;
  att_distanceFromClass : option Z;
  att_accuracy : option Q;
  att_qrTimestamp : option Z;
  att_deviceId : option string;
  att_manual : bool;
  att_updatedAt : option Z
}.

Record Session := mkSession {
  ses_courseId : string;
  ses_courseName : string;
  ses_facultyId : string;
  ses_presentCount : Z;
  ses_isActive : bool;
  ses_endedAt : option Z
}.

Record Enrollment := mkEnrollment {
  enr_studentId : string;
  enr_courseId : string;
  enr_isActive : bool
}.

Record Course := mkCourse {
  crs_facultyId : string;
  crs_joinCode : option string;
  crs_isActive : bool
}.

(** The collections the handlers below touch.  [sessions], [activeQRs] and
    [students] are keyed by document id ([students] keeps the [name] field
    only).  An [attendance] document's id is its position in the list: [add]
    appends, no handler deletes a document, and a query returns its matches
    in the order of the list. *)
Record Db := mkDb {
  sessions : gmap string Session;
  activeQRs : gmap string QRPayload;
  attendance : list Attendance;
  enrollments : list Enrollment;
  courses : list Course;
  students : gmap string string
}.

Definition set_sessions (db : Db) (s : gmap string Session) : Db :=
  {| sessions := s; activeQRs := activeQRs db; attendance := attendance db;
     enrollments := enrollments db; courses := courses db;
     students := students db |}.

Definition set_activeQRs (db : Db) (q : gmap string QRPayload) : Db :=
  {| sessions := sessions db; activeQRs := q; attendance := attendance db;
     enrollments := enrollments db; courses := courses db;
     students := students db |}.

Definition set_attendance (db : Db) (a : list Attendance) : Db :=
  {| sessions := sessions db; activeQRs := activeQRs db; attendance := a;
     enrollments := enrollments db; courses := courses db;
     students := students db |}.

(** [presentCount: FieldValue.increment (n)] *)
Definition increment_presentCount (n : Z) (s : Session) : Session :=
  {| ses_courseId := ses_courseId s; ses_courseName := ses_courseName s;
     ses_facultyId := ses_facultyId s;
     ses_presentCount := ses_presentCount s + n;
     ses_isActive := ses_isActive s; ses_endedAt := ses_endedAt s |}.

(** ** Responses *)

(** The error responses of the handlers below, by status code and text:
    - [InvalidFormat]: 400, Invalid QR code format;
    - [InvalidSignature]: 400, Invalid QR signature;
    - [Expired]: 400, QR code has expired;
    - [NotFound]: 404, Session not found;
    - [Forbidden]: 403, You are not enrolled in this course, or Not
      authorized for this session;
    - [AlreadyMarked]: 400, Attendance already marked for this session;
    - [OutOfRange]: 400, You are too far from class location, with the
      fields [distance] (an integer, or [null]) and [maxDistance] of the
      body;
    - [InternalError]: 500, the answer of a handler's [catch] clause. *)
Inductive Error :=
| InvalidFormat
| InvalidSignature
| Expired
| NotFound
| Forbidden
| AlreadyMarked
| OutOfRange (distance : option Z) (maxDistance : Q)
| InternalError.

Inductive result (A : Type) :=
| Success (a : A)
| Failure (e : Error).

Arguments Success {A} a.
Arguments Failure {A} e.

(** ** Firestore queries *)

(** [snapshot.empty] *)
Definition snapshot_empty {A : Type} (docs : list A) : bool :=
  match docs with
  | [] => true
  | _ :: _ => false
  end.

(** [enrollments.where (studentId).where (courseId).where (isActive, true)
     .limit (1)] *)
Definition active_enrollments (db : Db) (studentId courseId : string)
    : list Enrollment :=
  take 1 (List.filter
    (fun e => String.eqb (enr_studentId e) studentId
              && String.eqb (enr_courseId e) courseId
              && enr_isActive e)
    (enrollments db)).

(** [attendance.where (sessionId).where (studentId).limit (1)] *)
Definition attendance_of (db : Db) (sessionId studentId : string)
    : list Attendance :=
  take 1 (List.filter
    (fun a => String.eqb (att_sessionId a) sessionId
              && String.eqb (att_studentId a) studentId)
    (attendance db)).

(** [attendance.where (sessionId)]: the documents with their ids. *)
Definition session_attendance (db : Db) (sessionId : string)
    : list (nat * Attendance) :=
  List.filter (fun d => String.eqb (att_sessionId (snd d)) sessionId)
    (imap (fun i a => (i, a)) (attendance db)).

(** [courses.where (joinCode).limit (1)] *)
Definition courses_with_joinCode (db : Db) (joinCode : string) : list Course :=
  take 1 (List.filter
    (fun c => match crs_joinCode c with
              | Some j => String.eqb j joinCode
              | None => false
              end)
    (courses db)).

(** ** POST /api/student/scan-qr *)

(** The body and headers of the request.  [req_qrData] is the outcome of
    [JSON.parse (qrData)]: [None] when it throws. *)
Record ScanRequest := mkScanRequest {
  req_qrData : option QRPayload;
  req_latitude : option Q;
  req_longitude : option Q;
  req_accuracy : option Q;
  req_deviceId : option string
}.

Record ScanSuccess := mkScanSuccess {
  scan_id : nat;
  scan_attendance : Attendance;
  scan_studentName : string;
  scan_courseName : string;
  scan_distance : option Z
}.

(** [payload.location.radius || 50] *)
Definition maxDistance_of (loc : Location) : Q :=
  match loc_radius loc with
  | Some r => if truthy (Some r) then r else 50%Q
  | None => 50%Q
  end.

(** The block "Verify geolocation if required": either the early return, or
    the values of [locationVerified] and [distanceFromClass] after it.  The
    comparison is the one of doubles: it fails when the distance is NaN. *)
Definition verify_geolocation `{Math} (payload : QRPayload)
    (latitude longitude : option Q) : Error + bool * number :=
  match qr_location payload, latitude, longitude with
  | Some loc, Some lat, Some lon =>
      if truthy latitude && truthy longitude then
        let distanceFromClass :=
          calculateDistance (Number.of_Q lat) (Number.of_Q lon)
            (Number.of_Q (loc_latitude loc))
            (Number.of_Q (loc_longitude loc)) in
        let maxDistance := maxDistance_of loc in
        if Number.leb distanceFromClass (Number.of_Q maxDistance)
        then inr (true, distanceFromClass)
        else inl (OutOfRange (Math_round distanceFromClass) maxDistance)
      else inr (true, Number.zero)
  | _, _, _ => inr (true, Number.zero)
  end.

(** [x || fallback] on an optional string. *)
Definition or_string (x : option string) (fallback : string) : string :=
  match x with
  | Some s => if String.eqb s EmptyString then fallback else s
  | None => fallback
  end.

(** The block "Mark attendance": the document written, the increment of the
    session's counter, and the response. *)
Definition attendanceData_of (payload : QRPayload) (userId : string)
    (req : ScanRequest) (now : Z) (locationVerified : bool)
    (distanceFromClass : number) : Attendance :=
  {| att_sessionId := qr_sessionId payload;
     att_courseId := qr_courseId payload;
     att_studentId := userId;
     att_status := present;
     att_markedAt := now;
     att_markedBy := student;
     att_locationVerified := locationVerified;
     att_studentLatitude := or_null (req_latitude req);
     att_studentLongitude := or_null (req_longitude req);
     att_distanceFromClass := Math_round distanceFromClass;
     att_accuracy := or_null (req_accuracy req);
     att_qrTimestamp := Some (qr_timestamp payload);
     att_deviceId := Some (or_string (req_deviceId req) "unknown");
     att_manual := false;
     att_updatedAt := None |}.

Definition mark_attendance (db : Db) (payload : QRPayload) (session : Session)
    (userId : string) (req : ScanRequest) (now : Z) (locationVerified : bool)
    (distanceFromClass : number) : result ScanSuccess * Db :=
  let attendanceData :=
    attendanceData_of payload userId req now locationVerified
      distanceFromClass in
  let attendanceRef := length (attendance db) in
  let db1 := set_attendance db (attendance db ++ [attendanceData]) in
  let db2 := set_sessions db1
    (alter (increment_presentCount 1) (qr_sessionId payload) (sessions db1)) in
  let studentName := default "Unknown"%string (students db2 !! userId) in
  (Success {| scan_id := attendanceRef;
              scan_attendance := attendanceData;
              scan_studentName := studentName;
              scan_courseName :=
                or_string (Some (ses_courseName session)) "Unknown Course";
              scan_distance := Math_round distanceFromClass |},
   db2).

(** The handler; [userId] is the authenticated student and [now] the time of
    the request. *)
Definition scan_qr `{Math} (QR_SECRET : option string) (db : Db)
    (userId : string) (req : ScanRequest) (now : Z)
    : result ScanSuccess * Db :=
  match req_qrData req with
  | None => (Failure InvalidFormat, db)
  | Some payload =>
  if negb (verifyQRSignature QR_SECRET payload)
  then (Failure InvalidSignature, db) else
  if now >? qr_expiresAt payload
  then (Failure Expired, db) else
  match sessions db !! qr_sessionId payload with
  | None => (Failure NotFound, db)
  | Some session =>
  if snapshot_empty (active_enrollments db userId (qr_courseId payload))
  then (Failure Forbidden, db) else
  if negb (snapshot_empty (attendance_of db (qr_sessionId payload) userId))
  then (Failure AlreadyMarked, db) else
  match verify_geolocation payload (req_latitude req) (req_longitude req) with
  | inl tooFar => (Failure tooFar, db)
  | inr (locationVerified, distanceFromClass) =>
      mark_attendance db payload session userId req now locationVerified
        distanceFromClass
  end
  end
  end.

(** ** POST /api/faculty/session/:sessionId/stop *)

(** [userId] is the authenticated caller ([req.user.uid]); the handler does not
    read it.  [update] of a document that does not exist rejects, which the
    handler's [catch] turns into the 500 response. *)
Definition stop_session (db : Db) (userId sessionId : string) (now : Z)
    : result unit * Db :=
  match sessions db !! sessionId with
  | None => (Failure InternalError, db)
  | Some s =>
      let stopped :=
        {| ses_courseId := ses_courseId s; ses_courseName := ses_courseName s;
           ses_facultyId := ses_facultyId s;
           ses_presentCount := ses_presentCount s;
           ses_isActive := false; ses_endedAt := Some now |} in
      let db1 := set_sessions db (<[sessionId := stopped]> (sessions db)) in
      let db2 := set_activeQRs db1 (delete sessionId (activeQRs db1)) in
      (Success tt, db2)
  end.

(** ** POST /api/faculty/session/:sessionId/manual-attendance *)

Record ManualSuccess := mkManualSuccess {
  added : nat;
  removed : nat
}.

(** The document a manual addition writes. *)
Definition manual_record (sessionId : string) (session : Session)
    (studentId : string) (now : Z) : Attendance :=
  {| att_sessionId := sessionId;
     att_courseId := ses_courseId session;
     att_studentId := studentId;
     att_status := present;
     att_markedAt := now;
     att_markedBy := faculty;
     att_locationVerified := false;
     att_studentLatitude := None;
     att_studentLongitude := None;
     att_distanceFromClass := None;
     att_accuracy := None;
     att_qrTimestamp := None;
     att_deviceId := None;
     att_manual := true;
     att_updatedAt := None |}.

(** The fields a manual removal updates. *)
Definition mark_absent (now : Z) (a : Attendance) : Attendance :=
  {| att_sessionId := att_sessionId a;
     att_courseId := att_courseId a;
     att_studentId := att_studentId a;
     att_status := absent;
     att_markedAt := att_markedAt a;
     att_markedBy := faculty;
     att_locationVerified := att_locationVerified a;
     att_studentLatitude := att_studentLatitude a;
     att_studentLongitude := att_studentLongitude a;
     att_distanceFromClass := att_distanceFromClass a;
     att_accuracy := att_accuracy a;
     att_qrTimestamp := att_qrTimestamp a;
     att_deviceId := att_deviceId a;
     att_manual := true;
     att_updatedAt := Some now |}.

Definition is_present_of (studentId : string) (d : nat * Attendance) : bool :=
  String.eqb (att_studentId (snd d)) studentId
  && Status_eqb (att_status (snd d)) present.

(** One step of the removal loop: [find] in the snapshot taken at the start
    of the request, then [update] of the document found. *)
Definition remove_one (currentSnapshot : list (nat * Attendance)) (now : Z)
    (docs : list Attendance) (studentId : string) : list Attendance :=
  match List.find (is_present_of studentId) currentSnapshot with
  | Some existing => alter (mark_absent now) (fst existing) docs
  | None => docs
  end.

(** [presentStudentIds] is already known to be an array (the handler answers
    400 otherwise). *)
Definition manual_attendance (db : Db) (userId sessionId : string)
    (presentStudentIds : list string) (now : Z) : result ManualSuccess * Db :=
  match sessions db !! sessionId with
  | None => (Failure NotFound, db)
  | Some session =>
  if negb (String.eqb (ses_facultyId session) userId)
  then (Failure Forbidden, db) else
  let currentSnapshot := session_attendance db sessionId in
  let currentPresentIds :=
    new_Set (map (fun d => att_studentId (snd d))
      (List.filter (fun d => Status_eqb (att_status (snd d)) present)
         currentSnapshot)) in
  let newPresentSet := new_Set presentStudentIds in
  let toAdd :=
    List.filter (fun id => negb (Set_has currentPresentIds id))
      presentStudentIds in
  let toRemove :=
    List.filter (fun id => negb (Set_has newPresentSet id))
      currentPresentIds in
  let docs1 :=
    foldl (fun docs studentId =>
             docs ++ [manual_record sessionId session studentId now])
      (attendance db) toAdd in
  let docs2 := foldl (remove_one currentSnapshot now) docs1 toRemove in
  let db1 := set_attendance db docs2 in
  let delta := Z.of_nat (length toAdd) - Z.of_nat (length toRemove) in
  let db2 :=
    if negb (delta =? 0)
    then set_sessions db1
           (alter (increment_presentCount delta) sessionId (sessions db1))
    else db1 in
  (Success {| added := length toAdd; removed := length toRemove |}, db2)
  end.

(** ** Join codes of POST /api/faculty/classes/full *)

Section JoinCode.

(** [random n] is the value of the [n]-th call of [Math.random ()] since the
    request started. *)
Variable random : nat -> Q.

Definition chars : string := "ABCDEFGHJKLMNPQRSTUVWXYZ23456789".

(** The [for] loop of [generateJoinCode] with [i] iterations left, [n] calls
    of [Math.random ()] made so far and [code] built so far. *)
Fixpoint generateJoinCode_loop (i n : nat) (code : string) : string :=
  match i with
  | O => code
  | S i' =>
      generateJoinCode_loop i' (S n)
        (code +:+ charAt chars
           (Qfloor (random n * inject_Z (Z.of_nat (String.length chars)))))
  end.

Definition generateJoinCode (n : nat) : string :=
  generateJoinCode_loop 6 n EmptyString.

(** "Ensure uniqueness": generate, query, and generate again while the query
    finds a course.  [fuel] bounds the number of codes generated; [None] is
    the loop still running when it is spent. *)
Fixpoint unique_joinCode (fuel : nat) (db : Db) (n : nat) : option string :=
  match fuel with
  | O => None
  | S fuel' =>
      let joinCode := generateJoinCode n in
      let existing := courses_with_joinCode db joinCode in
      if snapshot_empty existing then Some joinCode
      else unique_joinCode fuel' db (n + 6)
  end.

End JoinCode.

(** ** Responses of the other handlers *)

(** A handler's answer: the JSON body of a 200 response, or the status code
    and [error] text of a refusal. *)
Inductive reply (A : Type) :=
| Json (body : A)
| Refused (status : Z) (error : string).

Arguments Json {A} body.
Arguments Refused {A} status error.

(** ** Course documents *)

(** A document of the [courses] collection, with the fields that the
    handlers below read or write.  These handlers address a course by its
    document id, so they take the collection as a map from ids.  [courses]
    of [Db] is the view of the same collection that the join-code loop
    queries, [courses_of] below: a handler that removes a document, or
    writes one of the fields of [Course], writes the view too. *)
Record CourseDoc := mkCourseDoc {
  cd_code : string;
  cd_name : string;
  cd_facultyId : string;
  cd_joinCode : option string;
  cd_isActive : bool;
  cd_enrolledCount : option Z
}.

(** ** POST /api/faculty/generate-qr *)

(** [req.body.location] *)
Record LocationBody := mkLocationBody {
  lb_latitude : option Q;
  lb_longitude : option Q;
  lb_radius : option Q
}.

(** [req.body]; a field that the request does not carry is [None], and no
    field is [null].  [validitySeconds] and [expiresIn] are whole numbers of
    seconds. *)
Record QrBody := mkQrBody {
  qb_courseId : option string;
  qb_roomNumber : option string;
  qb_location : option LocationBody;
  qb_latitude : option Q;
  qb_longitude : option Q;
  qb_radius : option Q;
  qb_geofenceRadius : option Q;
  qb_validitySeconds : option Z;
  qb_expiresIn : option Z
}.

(** [x ?? y] *)
Definition nullish {A : Type} (x y : option A) : option A :=
  match x with
  | Some _ => x
  | None => y
  end.

(** [req.body.location || {}] *)
Definition qb_location_or_empty (body : QrBody) : LocationBody :=
  default {| lb_latitude := None; lb_longitude := None; lb_radius := None |}
    (qb_location body).

(** [req.body.latitude ?? location.latitude] *)
Definition qr_latitude (body : QrBody) : option Q :=
  nullish (qb_latitude body) (lb_latitude (qb_location_or_empty body)).

(** [req.body.longitude ?? location.longitude] *)
Definition qr_longitude (body : QrBody) : option Q :=
  nullish (qb_longitude body) (lb_longitude (qb_location_or_empty body)).

(** [req.body.radius ?? req.body.geofenceRadius ?? (location.radius ?? 50)] *)
Definition qr_radius (body : QrBody) : Q :=
  default (default (default 50%Q (lb_radius (qb_location_or_empty body)))
             (qb_geofenceRadius body))
    (qb_radius body).

(** [req.body.validitySeconds ??
     (req.body.expiresIn ? Number (req.body.expiresIn) : 300)] *)
Definition qr_validitySeconds (body : QrBody) : Z :=
  match qb_validitySeconds body with
  | Some v => v
  | None =>
      match qb_expiresIn body with
      | Some e => if e =? 0 then 300 else e
      | None => 300
      end
  end.

Record QrIssued := mkQrIssued {
  qi_sessionId : string;
  qi_qrPayload : QRPayload;
  qi_expiresIn : Z;
  qi_session : Session
}.

(** The handler.  [userId] is the authenticated caller, [now] the time of the
    request and [sessionRef] the id that the store gives to the session
    document it adds.  [qi_qrPayload] stands for both [qrPayload] and its
    JSON text [qrData] of the response.  Of the session document, the
    fields kept are those of [Session], which are the ones a handler reads
    afterwards. *)
Definition generate_qr (QR_SECRET : option string)
    (courseDocs : gmap string CourseDoc) (db : Db) (userId : string)
    (body : QrBody) (now : Z) (sessionRef : string) : reply QrIssued * Db :=
  let latitude := qr_latitude body in
  let longitude := qr_longitude body in
  let radius := qr_radius body in
  let validitySeconds := qr_validitySeconds body in
  let facultyId := userId in
  match qb_courseId body with
  | None => (Refused 400 "courseId is required", db)
  | Some courseId =>
  if String.eqb courseId EmptyString
  then (Refused 400 "courseId is required", db) else
  match latitude, longitude with
  | Some lat, Some lon =>
  match courseDocs !! courseId with
  | None => (Refused 404 "Course not found", db)
  | Some course =>
  if negb (String.eqb (cd_facultyId course) facultyId)
  then (Refused 403
          "You are not authorized to create sessions for this course", db)
  else
  let sessionData :=
    {| ses_courseId := courseId; ses_courseName := cd_name course;
       ses_facultyId := facultyId; ses_presentCount := 0;
       ses_isActive := true; ses_endedAt := None |} in
  let sessionId := sessionRef in
  let db1 := set_sessions db (<[sessionId := sessionData]> (sessions db)) in
  let qrPayload :=
    generateQRPayload QR_SECRET now sessionId courseId facultyId
      (Some {| loc_latitude := lat; loc_longitude := lon;
               loc_radius := Some radius |})
      (Some (validitySeconds * 1000)) in
  let db2 := set_activeQRs db1 (<[sessionId := qrPayload]> (activeQRs db1)) in
  (Json {| qi_sessionId := sessionId; qi_qrPayload := qrPayload;
           qi_expiresIn := validitySeconds; qi_session := sessionData |},
   db2)
  end
  | _, _ =>
      (Refused 400 "location.latitude and location.longitude are required",
       db)
  end
  end.

(** Every attendance document belongs to a session that exists. *)
Definition attendance_refers (db : Db) : Prop :=
  forall a, a ∈ attendance db -> is_Some (sessions db !! att_sessionId a).

(** ** Courses and enrollments *)

Definition set_enrollments (db : Db) (e : list Enrollment) : Db :=
  {| sessions := sessions db; activeQRs := activeQRs db;
     attendance := attendance db; enrollments := e; courses := courses db;
     students := students db |}.

Definition set_courses (db : Db) (c : list Course) : Db :=
  {| sessions := sessions db; activeQRs := activeQRs db;
     attendance := attendance db; enrollments := enrollments db;
     courses := c; students := students db |}.

(** [enrolledCount: FieldValue.increment (n)]; a field that is missing counts
    as 0. *)
Definition increment_enrolledCount (n : Z) (c : CourseDoc) : CourseDoc :=
  {| cd_code := cd_code c; cd_name := cd_name c;
     cd_facultyId := cd_facultyId c; cd_joinCode := cd_joinCode c;
     cd_isActive := cd_isActive c;
     cd_enrolledCount := Some (default 0 (cd_enrolledCount c) + n) |}.

(** The truth value of an optional string: [undefined] and the empty string
    are falsy. *)
Definition truthy_string (x : option string) : bool :=
  match x with
  | Some s => negb (String.eqb s EmptyString)
  | None => false
  end.

(** [x || y] on optional strings. *)
Definition or_else (x y : option string) : option string :=
  if truthy_string x then x else y.

(** The documents of the [courses] collection in the order a query returns
    them, which is that of their ids. *)
Definition course_docs (courseDocs : gmap string CourseDoc)
    : list (string * CourseDoc) :=
  merge_sort (fun d1 d2 => String.leb (fst d1) (fst d2))
    (map_to_list courseDocs).

(** The collection as the join-code loop queries it: the documents, in that
    order, without their ids. *)
Definition course_of (d : CourseDoc) : Course :=
  {| crs_facultyId := cd_facultyId d; crs_joinCode := cd_joinCode d;
     crs_isActive := cd_isActive d |}.

Definition courses_of (courseDocs : gmap string CourseDoc) : list Course :=
  map (fun d => course_of (snd d)) (course_docs courseDocs).

(** [courses.where ('joinCode', '==', joinCode).limit (1)] *)
Definition courseDocs_with_joinCode (courseDocs : gmap string CourseDoc)
    (joinCode : string) : list (string * CourseDoc) :=
  take 1 (List.filter
    (fun d => match cd_joinCode (snd d) with
              | Some j => String.eqb j joinCode
              | None => false
              end)
    (course_docs courseDocs)).

(** [enrollments.where (studentId).where (courseId).limit (1)] *)
Definition enrollments_of (db : Db) (studentId courseId : string)
    : list Enrollment :=
  take 1 (List.filter
    (fun e => String.eqb (enr_studentId e) studentId
              && String.eqb (enr_courseId e) courseId)
    (enrollments db)).

(** *** POST /api/student/join-course *)

Record Joined := mkJoined {
  jo_enrollmentId : string;
  jo_courseId : string;
  jo_course : CourseDoc
}.

Section JoinCourse.

(** [String.prototype.toUpperCase]. *)
Variable toUpperCase : string -> string.

(** [userId] is the authenticated student, [joinCode] the field of the body
    and [enrRef] the id that the store gives to the enrollment it adds.  The
    course of the response is the document as it was read, before the
    increment. *)
Definition join_course (courseDocs : gmap string CourseDoc) (db : Db)
    (userId : string) (joinCode : option string) (enrRef : string)
    : reply Joined * gmap string CourseDoc * Db :=
  match joinCode with
  | None => (Refused 400 "joinCode is required", courseDocs, db)
  | Some joinCode =>
  if String.eqb joinCode EmptyString
  then (Refused 400 "joinCode is required", courseDocs, db) else
  match courseDocs_with_joinCode courseDocs (toUpperCase joinCode) with
  | [] => (Refused 404 "Invalid join code", courseDocs, db)
  | courseDoc :: _ =>
  let courseId := fst courseDoc in
  let existing := enrollments_of db userId courseId in
  if negb (snapshot_empty existing)
  then (Refused 400 "Already enrolled in this course", courseDocs, db) else
  let enrollmentData :=
    {| enr_studentId := userId; enr_courseId := courseId;
       enr_isActive := true |} in
  let db1 := set_enrollments db (enrollments db ++ [enrollmentData]) in
  let courseDocs1 := alter (increment_enrolledCount 1) courseId courseDocs in
  (Json {| jo_enrollmentId := enrRef; jo_courseId := courseId;
           jo_course := snd courseDoc |},
   courseDocs1, db1)
  end
  end.

End JoinCourse.

(** *** POST /api/faculty/enroll-student *)

Record EnrollBody := mkEnrollBody {
  eb_courseId : option string;
  eb_studentEmail : option string;
  eb_studentId : option string;
  eb_email : option string
}.

(** [students_by_email email] is the outcome of the query
    [students.where ('email', '==', email).limit (1)]: the ids of the
    documents it returns.  [userId] is the authenticated caller; the handler
    does not read it, nor the [courses] collection. *)
Definition enroll_student (students_by_email : string -> list string)
    (db : Db) (userId : string) (body : EnrollBody) : reply unit * Db :=
  let studentEmail :=
    or_else (or_else (eb_studentEmail body) (eb_studentId body))
      (eb_email body) in
  if negb (truthy_string (eb_courseId body))
     || negb (truthy_string studentEmail)
  then (Refused 400 "courseId and student email are required", db) else
  let courseId := default EmptyString (eb_courseId body) in
  match students_by_email (default EmptyString studentEmail) with
  | [] => (Refused 404 "Student not found", db)
  | studentId :: _ =>
  let existingEnrollment := enrollments_of db studentId courseId in
  if negb (snapshot_empty existingEnrollment)
  then (Refused 400 "Student already enrolled", db) else
  let enrollmentData :=
    {| enr_studentId := studentId; enr_courseId := courseId;
       enr_isActive := true |} in
  (Json tt, set_enrollments db (enrollments db ++ [enrollmentData]))
  end.

(** *** DELETE /api/faculty/courses/:courseId *)

(** [userId] is the authenticated caller.  The enrollments of the course are
    deleted in one batch.  The document leaves the collection, so also the
    view of it that [courses] of [Db] is. *)
Definition delete_course (courseDocs : gmap string CourseDoc) (db : Db)
    (userId courseId : string) : reply unit * gmap string CourseDoc * Db :=
  let facultyId := userId in
  if String.eqb courseId EmptyString
  then (Refused 400 "courseId is required", courseDocs, db) else
  match courseDocs !! courseId with
  | None => (Refused 404 "Course not found", courseDocs, db)
  | Some courseData =>
  if negb (String.eqb (cd_facultyId courseData) facultyId)
  then (Refused 403 "Not authorized to delete this course", courseDocs, db)
  else
  let courseDocs1 := delete courseId courseDocs in
  let db1 := set_courses db (courses_of courseDocs1) in
  let db2 :=
    set_enrollments db1
      (List.filter (fun e => negb (String.eqb (enr_courseId e) courseId))
         (enrollments db1)) in
  (Json tt, courseDocs1, db2)
  end.

(** Vocabulary for statements about enrollments. *)

(** At most one enrollment document per (student, course) pair. *)
Definition one_enrollment_each (db : Db) : Prop :=
  forall i j a b,
    enrollments db !! i = Some a -> enrollments db !! j = Some b ->
    enr_studentId a = enr_studentId b -> enr_courseId a = enr_courseId b ->
    i = j.

(** No two course documents carry the join code. *)
Definition joinCode_unique (courseDocs : gmap string CourseDoc)
    (joinCode : string) : Prop :=
  forall i j c d,
    courseDocs !! i = Some c -> courseDocs !! j = Some d ->
    cd_joinCode c = Some joinCode -> cd_joinCode d = Some joinCode -> i = j.

(** What identifies an enrollment. *)
Definition enrollment_key (e : Enrollment) : string * string :=
  (enr_studentId e, enr_courseId e).

(** ** GET /api/faculty/session/:sessionId/attendance *)

(** An entry of [attendees].  Its [rollNo] is left out, [students] keeping
    the names only. *)
Record Attendee := mkAttendee {
  at_id : nat;
  at_studentId : string;
  at_studentName : string;
  at_status : Status;
  at_markedAt : Z;
  at_distance : option Z
}.

Record Roster := mkRoster {
  ro_session : Session;
  ro_attendees : list Attendee;
  ro_presentCount : nat;
  ro_totalAttendees : nat
}.

(** [orderBy ('markedAt', 'desc')]; documents marked at the same time come
    in the order the sort leaves them. *)
Definition orderBy_markedAt_desc (docs : list (nat * Attendance))
    : list (nat * Attendance) :=
  merge_sort
    (fun d1 d2 => att_markedAt (snd d2) <=? att_markedAt (snd d1)) docs.

Definition attendee_of (db : Db) (doc : nat * Attendance) : Attendee :=
  let data := snd doc in
  {| at_id := fst doc;
     at_studentId := att_studentId data;
     at_studentName := or_string (students db !! att_studentId data) "Unknown";
     at_status := att_status data;
     at_markedAt := att_markedAt data;
     at_distance := att_distanceFromClass data |}.

Definition session_roster (db : Db) (sessionId : string) : reply Roster :=
  match sessions db !! sessionId with
  | None => Refused 404 "Session not found"
  | Some session =>
      let attendanceSnapshot :=
        orderBy_markedAt_desc (session_attendance db sessionId) in
      let attendees := map (attendee_of db) attendanceSnapshot in
      Json {| ro_session := session;
              ro_attendees := attendees;
              ro_presentCount :=
                length (List.filter
                          (fun a => Status_eqb (at_status a) present)
                          attendees);
              ro_totalAttendees := length attendees |}
  end.

(** ** GET /api/faculty/course/:courseId/students *)

(** An entry of [students]; [rollNo] is left out as above. *)
Record EnrolledStudent := mkEnrolledStudent {
  es_id : string;
  es_name : string;
  es_present : bool
}.

(** [userId] is the authenticated caller and [sessionId] the optional query
    parameter. *)
Definition course_students (courseDocs : gmap string CourseDoc) (db : Db)
    (userId courseId : string) (sessionId : option string)
    : reply (list EnrolledStudent) :=
  match courseDocs !! courseId with
  | None => Refused 404 "Course not found"
  | Some course =>
  if negb (String.eqb (cd_facultyId course) userId)
  then Refused 403 "Not authorized for this course" else
  let enrollmentsSnapshot :=
    List.filter
      (fun e => String.eqb (enr_courseId e) courseId && enr_isActive e)
      (enrollments db) in
  let studentIds := map enr_studentId enrollmentsSnapshot in
  let students :=
    omap (fun sid => match students db !! sid with
                     | Some name => Some (sid, name)
                     | None => None
                     end) studentIds in
  let presentSet :=
    match sessionId with
    | Some sessionId =>
        if String.eqb sessionId EmptyString then new_Set [] else
        new_Set (map att_studentId
          (List.filter
             (fun a => String.eqb (att_sessionId a) sessionId
                       && Status_eqb (att_status a) present)
             (attendance db)))
    | None => new_Set []
    end in
  Json (map (fun s => {| es_id := fst s;
                         es_name := or_string (Some (snd s)) "Unknown";
                         es_present := Set_has presentSet (fst s) |})
          students)
  end.

(** ** The [verifyToken] middleware *)

(** [s.split (sep)] for a separator that is not empty.  [split_go] reads [s]
    with [skip] characters of a separator just found still to pass over and
    [cur] the piece read so far. *)
Fixpoint split_go (sep : string) (skip : nat) (cur s : string) : list string :=
  match s with
  | EmptyString => [cur]
  | String c s' =>
      match skip with
      | S k => split_go sep k cur s'
      | O =>
          if String.prefix sep s
          then cur :: split_go sep (String.length sep - 1) EmptyString s'
          else split_go sep 0 (cur +:+ String c EmptyString) s'
      end
  end.

Definition split (sep s : string) : list string :=
  split_go sep 0 EmptyString s.

(** [req.user]: the fields of the decoded token that the handlers read. *)
Record DecodedToken := mkDecodedToken {
  uid : string;
  email : option string
}.

(** [verifyIdToken token] is the outcome of [auth.verifyIdToken (token)]:
    the decoded token, or the [errorInfo.code] of the error it throws, if
    the error has one.  [authorization] is the header of the request.  [Json]
    stands for the call of [next ()] with the decoded token as [req.user]. *)
Definition verifyToken (verifyIdToken : string -> DecodedToken + option string)
    (authorization : option string) : reply DecodedToken :=
  let token :=
    match authorization with
    | Some header => split "Bearer " header !! 1%nat
    | None => None
    end in
  if negb (truthy_string token)
  then Refused 401 "No token provided" else
  match verifyIdToken (default EmptyString token) with
  | inl decodedToken => Json decodedToken
  | inr code =>
      match code with
      | Some "auth/id-token-expired"%string =>
          Refused 401
            "Token expired. Please login again to get a fresh token."
      | _ => Refused 401 "Invalid token"
      end
  end.

(** [s.includes (sep)] *)
Fixpoint includes (sep s : string) : bool :=
  String.prefix sep s
  || match s with
     | EmptyString => false
     | String _ s' => includes sep s'
     end.

(** ** POST /api/student/profile and POST /api/faculty/profile *)














(** The string contains the character [-], which the signed text uses to
    separate its three parts. *)
Fixpoint has_dash (s : string) : bool :=
  match s with
  | EmptyString => false
  | String c r => Ascii.eqb c "-" || has_dash r
  end.

(** Vocabulary for statements about the manual reconciliation. *)

(** Some document of the session marks the student present. *)
Definition present_in (docs : list Attendance) (sessionId studentId : string)
    : Prop :=
  exists i a, docs !! i = Some a /\ att_sessionId a = sessionId
              /\ att_studentId a = studentId /\ att_status a = present.

(** The invariant of the data model: at most one [present] document per
    (session, student) pair. *)
Definition one_present_each (docs : list Attendance) (sessionId : string)
    : Prop :=
  forall i j a b,
    docs !! i = Some a -> docs !! j = Some b ->
    att_sessionId a = sessionId -> att_sessionId b = sessionId ->
    att_studentId a = att_studentId b ->
    att_status a = present -> att_status b = present -> i = j.

(** The names the manual handler gives to its intermediate values. *)
Definition currentPresentIds_of (db : Db) (sessionId : string) : list string :=
  new_Set (map (fun d => att_studentId (snd d))
    (List.filter (fun d => Status_eqb (att_status (snd d)) present)
       (session_attendance db sessionId))).

Definition toAdd_of (db : Db) (sessionId : string) (ids : list string)
    : list string :=
  List.filter (fun id => negb (Set_has (currentPresentIds_of db sessionId) id))
    ids.

Definition toRemove_of (db : Db) (sessionId : string) (ids : list string)
    : list string :=
  List.filter (fun id => negb (Set_has (new_Set ids) id))
    (currentPresentIds_of db sessionId).

(** The indices that the removal loop updates. *)
Definition removal_hits (currentSnapshot : list (nat * Attendance))
    (toRemove : list string) (j : nat) : bool :=
  existsb (fun x => match List.find (is_present_of x) currentSnapshot with
                    | Some existing => Nat.eqb (fst existing) j
                    | None => false
                    end) toRemove.

(** The documents of the collection after the two loops of the handler. *)
Definition reconciled_docs (db : Db) (sessionId : string) (session : Session)
    (ids : list string) (now : Z) : list Attendance :=
  foldl (remove_one (session_attendance db sessionId) now)
    (foldl (fun docs studentId =>
              docs ++ [manual_record sessionId session studentId now])
       (attendance db) (toAdd_of db sessionId ids))
    (toRemove_of db sessionId ids).

(** Vocabulary for statements about the counters. *)

(** The number of [present] documents of a session. *)
Definition count_present (docs : list Attendance) (sessionId : string) : nat :=
  length (List.filter
    (fun a => String.eqb (att_sessionId a) sessionId
              && Status_eqb (att_status a) present) docs).

(** Every session's counter is the number of its [present] documents. *)
Definition counters_ok (db : Db) : Prop :=
  forall sessionId session,
    sessions db !! sessionId = Some session ->
    ses_presentCount session
    = Z.of_nat (count_present (attendance db) sessionId).

(** Vocabulary for statements about join codes. *)

(** Some course document carries the join code. *)
Definition joinCode_taken (db : Db) (joinCode : string) : Prop :=
  exists c, c ∈ courses db /\ crs_joinCode c = Some joinCode.

(** Every character of the string is one of [chars]. *)
Definition over_chars (s : string) : Prop :=
  Forall (fun c => c ∈ list_ascii_of_string chars) (list_ascii_of_string s).

(** Vocabulary for statements about numbers. *)

(** A zero, or a finite number of magnitude below [2 ^ B]. *)
Definition below (B : Z) (x : number) : Prop :=
  match x with
  | S754_zero _ => True
  | S754_finite _ m e => Zdigits2 (Zpos m) + e <= B
  | _ => False
  end.

(** A double of absolute value at most 1. *)
Definition in_unit_range (x : number) : bool :=
  valid_binary 53 1024 x && Number.leb (Number.abs x) (Number.of_Z 1).

(** The angle that [calculateDistance] takes for a coordinate in degrees. *)
Definition radians (x : number) : number :=
  (x * Math_PI / Number.of_Z 180)%number.

(** What some statements ask of the platform's [Math]. *)

(** [Math.sin (+0)] is [+0], as the language requires. *)
Definition sin_keeps_zero `{Math} : Prop :=
  Math_sin Number.zero = Number.zero.

(** [Math.sin (-x)] is [-Math.sin (x)], as in the library that V8 runs. *)
Definition sin_is_odd `{Math} : Prop :=
  forall x, Math_sin (Number.opp x) = Number.opp (Math_sin x).

(** [Math.cos] of a finite number lies between -1 and 1. *)
Definition cos_in_unit_range `{Math} : Prop :=
  forall x, Number.is_finite x = true -> in_unit_range (Math_cos x) = true.

(** [Math.atan2 (+0, 1)] is [+0], as the language requires. *)
Definition atan2_keeps_zero `{Math} : Prop :=
  Math_atan2 Number.zero (Number.of_Z 1) = Number.zero.

(** ** A [Math] for the examples

    Sine, cosine and arc tangent by their series, after a reduction of the
    argument; accurate to about twelve digits on the angles of the
    examples. *)

Module ExampleMath.
Local Open Scope number_scope.

Definition one : number := Number.of_Z 1.

(** [c0 + x2 * (c1 + x2 * (c2 + ...))] *)
Fixpoint horner (coefficients : list number) (x2 : number) : number :=
  match coefficients with
  | [] => Number.zero
  | [c] => c
  | c :: cs => c + x2 * horner cs x2
  end.

Fixpoint fact (n : nat) : Z :=
  match n with
  | O => 1
  | S k => Z.of_nat n * fact k
  end.

(** 1, -1/3!, 1/5!, ... *)
Definition sin_coefficients : list number :=
  List.map
    (fun k => Number.of_Q ((if Nat.even k then 1 else -1)
                           # Z.to_pos (fact (2 * k + 1))))
    (List.seq 0 12).

(** 1, -1/2!, 1/4!, ... *)
Definition cos_coefficients : list number :=
  List.map
    (fun k => Number.of_Q ((if Nat.even k then 1 else -1)
                           # Z.to_pos (fact (2 * k))))
    (List.seq 0 12).

(** 1, -1/3, 1/5, ... *)
Definition atan_coefficients : list number :=
  List.map
    (fun k => Number.of_Q ((if Nat.even k then 1 else -1)
                           # Z.to_pos (Z.of_nat (2 * k + 1))))
    (List.seq 0 16).

(** The number of half turns nearest to [x / pi], for a finite [x >= 0]. *)
Definition half_turns (x : number) : Z :=
  match Math_round (x / Math_PI) with
  | Some k => k
  | None => 0
  end.

(** [pi - Math.PI], to double precision. *)
Definition PI_low : number := Number.of_Q (12246467991473532 # (10 ^ 32)).

Definition reduce (x : number) : Z * number :=
  let k := half_turns x in
  (k, x - Number.of_Z k * Math_PI - Number.of_Z k * PI_low).

Definition sin_pos (x : number) : number :=
  let '(k, r) := reduce x in
  let s := r * horner sin_coefficients (r * r) in
  if Z.even k then s else Number.opp s.

Definition sign (x : number) : bool :=
  match x with
  | S754_zero s | S754_infinity s | S754_finite s _ _ => s
  | S754_nan => false
  end.

Definition sin (x : number) : number :=
  match x with
  | S754_nan | S754_infinity _ => S754_nan
  | S754_zero _ => x
  | S754_finite s _ _ =>
      if s then Number.opp (sin_pos (Number.abs x)) else sin_pos x
  end.

Definition cos (x : number) : number :=
  match x with
  | S754_nan | S754_infinity _ => S754_nan
  | _ =>
      let '(k, r) := reduce (Number.abs x) in
      let c := horner cos_coefficients (r * r) in
      let c := if Z.even k then c else Number.opp c in
      if in_unit_range c then c else if sign c then Number.opp one else one
  end.

(** The series of the arc tangent, for a small [z]. *)
Definition atan_small (z : number) : number :=
  z * horner atan_coefficients (z * z).

(** The tangent of half the angle whose tangent is [z]. *)
Definition halve_angle (z : number) : number :=
  z / (one + Math_sqrt (one + z * z)).

Definition atan_unit (z : number) : number :=
  Number.of_Z 4 * atan_small (halve_angle (halve_angle z)).

Definition PI_2 : number := Math_PI / Number.of_Z 2.

Definition atan_pos (z : number) : number :=
  if Number.leb z one then atan_unit z else PI_2 - atan_unit (one / z).

Definition atan (z : number) : number :=
  match z with
  | S754_nan => S754_nan
  | S754_zero _ => z
  | S754_infinity s => if s then Number.opp PI_2 else PI_2
  | S754_finite s _ _ =>
      if s then Number.opp (atan_pos (Number.abs z)) else atan_pos z
  end.

Definition with_sign (s : bool) (x : number) : number :=
  if s then Number.opp x else x.

Definition atan2 (y x : number) : number :=
  match y, x with
  | S754_nan, _ | _, S754_nan => S754_nan
  | S754_zero sy, (S754_zero sx | S754_finite sx _ _ | S754_infinity sx) =>
      if sx then with_sign sy Math_PI else y
  | S754_infinity sy, S754_infinity sx =>
      with_sign sy
        (if sx then Number.of_Z 3 * Math_PI / Number.of_Z 4
         else Math_PI / Number.of_Z 4)
  | S754_infinity sy, _ => with_sign sy PI_2
  | S754_finite sy _ _, S754_zero _ => with_sign sy PI_2
  | S754_finite sy _ _, S754_infinity sx =>
      if sx then with_sign sy Math_PI else S754_zero sy
  | S754_finite sy _ _, S754_finite sx _ _ =>
      if sx then with_sign sy (Math_PI - atan (Number.abs (y / x)))
      else atan (y / x)
  end.

#[global] Instance math : Math :=
  {| Math_sin := sin; Math_cos := cos; Math_atan2 := atan2 |}.

End ExampleMath.

(** ** A running example

    The scenario of the specification's section 8: a session at (12.0000,
    77.0000) with a radius of 50 m and a validity of 300 s, and one enrolled
    student. *)

Module Scenario.

Definition QR_SECRET : option string := Some "attendance-secret"%string.

Definition issuedAt : Z := 1700000000000.

Definition geofence : Location :=
  {| loc_latitude := 12; loc_longitude := 77; loc_radius := Some 50%Q |}.

Definition token : QRPayload :=
  generateQRPayload QR_SECRET issuedAt "sess1" "course1" "fac1"
    (Some geofence) (Some 300000).

Definition session0 : Session :=
  {| ses_courseId := "course1"; ses_courseName := "Algebra";
     ses_facultyId := "fac1"; ses_presentCount := 0;
     ses_isActive := true; ses_endedAt := None |}.

Definition db0 : Db :=
  {| sessions := {[ "sess1"%string := session0 ]};
     activeQRs := {[ "sess1"%string := token ]};
     attendance := [];
     enrollments :=
       [ {| enr_studentId := "stu1"; enr_courseId := "course1";
            enr_isActive := true |} ];
     courses :=
       [ {| crs_facultyId := "fac1"; crs_joinCode := Some "ABCDEF"%string;
            crs_isActive := true |} ];
     students := {[ "stu1"%string := "Asha"%string ]} |}.

(** A scan from (12.0003, 77.0000), about 33 m away. *)
Definition scan_near : ScanRequest :=
  {| req_qrData := Some token;
     req_latitude := Some (120003 # 10000); req_longitude := Some 77%Q;
     req_accuracy := None; req_deviceId := None |}.

(** A scan from (12.0005, 77.0000), about 56 m away. *)
Definition scan_far : ScanRequest :=
  {| req_qrData := Some token;
     req_latitude := Some (120005 # 10000); req_longitude := Some 77%Q;
     req_accuracy := None; req_deviceId := None |}.

(** The same class with a radius of 0 in the token. *)
Definition geofence0 : Location :=
  {| loc_latitude := 12; loc_longitude := 77; loc_radius := Some 0%Q |}.

Definition token0 : QRPayload :=
  generateQRPayload QR_SECRET issuedAt "sess1" "course1" "fac1"
    (Some geofence0) (Some 300000).

(** The scan from (12.0005, 77.0000) with that token. *)
Definition scan_far0 : ScanRequest :=
  {| req_qrData := Some token0;
     req_latitude := Some (120005 # 10000); req_longitude := Some 77%Q;
     req_accuracy := None; req_deviceId := None |}.

(** The scan from (12.0003, 77.0000) with that token. *)
Definition scan_near0 : ScanRequest :=
  {| req_qrData := Some token0;
     req_latitude := Some (120003 # 10000); req_longitude := Some 77%Q;
     req_accuracy := None; req_deviceId := None |}.

(** A scan whose latitude, 1e400, is beyond the doubles: its Number is
    [Infinity]. *)
Definition scan_beyond : ScanRequest :=
  {| req_qrData := Some token;
     req_latitude := Some (10 ^ 400 # 1); req_longitude := Some 77%Q;
     req_accuracy := None; req_deviceId := None |}.

(** A scan that sends no coordinates. *)
Definition scan_blind : ScanRequest :=
  {| req_qrData := Some token;
     req_latitude := None; req_longitude := None;
     req_accuracy := None; req_deviceId := None |}.

(** A scan that reports the coordinates (0, 77): a point on the equator. *)
Definition scan_equator : ScanRequest :=
  {| req_qrData := Some token;
     req_latitude := Some 0%Q; req_longitude := Some 77%Q;
     req_accuracy := None; req_deviceId := None |}.

(** A source of random numbers: 0/32, 1/32, ..., 31/32, 0/32, ... *)
Definition random (n : nat) : Q := Z.of_nat (n mod 32) # 32.

End Scenario.

(** ** A second running example: the course, a new session, a join *)

Module Semester.

Definition course1 : CourseDoc :=
  {| cd_code := "MA101"; cd_name := "Algebra"; cd_facultyId := "fac1";
     cd_joinCode := Some "ABCDEF"%string; cd_isActive := true;
     cd_enrolledCount := Some 1 |}.

Definition courseDocs0 : gmap string CourseDoc :=
  {[ "course1"%string := course1 ]}.

(** A request for a token at (12, 77) that leaves the radius and the
    validity to their defaults. *)
Definition qrBody : QrBody :=
  {| qb_courseId := Some "course1"%string; qb_roomNumber := None;
     qb_location :=
       Some {| lb_latitude := Some 12%Q; lb_longitude := Some 77%Q;
               lb_radius := None |};
     qb_latitude := None; qb_longitude := None; qb_radius := None;
     qb_geofenceRadius := None; qb_validitySeconds := None;
     qb_expiresIn := None |}.

Definition startedAt : Z := 1700000400000.

Definition session2 : Session :=
  {| ses_courseId := "course1"; ses_courseName := "Algebra";
     ses_facultyId := "fac1"; ses_presentCount := 0;
     ses_isActive := true; ses_endedAt := None |}.

Definition issued : QrIssued :=
  {| qi_sessionId := "sess2";
     qi_qrPayload :=
       generateQRPayload Scenario.QR_SECRET startedAt "sess2" "course1" "fac1"
         (Some {| loc_latitude := 12; loc_longitude := 77;
                  loc_radius := Some 50%Q |})
         (Some 300000);
     qi_expiresIn := 300;
     qi_session := session2 |}.

(** The store after the token has been issued. *)
Definition db1 : Db :=
  snd (generate_qr Scenario.QR_SECRET courseDocs0 Scenario.db0 "fac1" qrBody
         startedAt "sess2").

(** A scan of the new token that sends no coordinates. *)
Definition scan2 : ScanRequest :=
  {| req_qrData := Some (qi_qrPayload issued);
     req_latitude := None; req_longitude := None;
     req_accuracy := None; req_deviceId := None |}.

(** [toUpperCase] on the letters a to z; enough for join codes. *)
Definition toUpperCase_ascii (c : ascii) : ascii :=
  let n := nat_of_ascii c in
  if (97 <=? n)%nat && (n <=? 122)%nat then ascii_of_nat (n - 32) else c.

Fixpoint toUpperCase (s : string) : string :=
  match s with
  | EmptyString => EmptyString
  | String c s => String (toUpperCase_ascii c) (toUpperCase s)
  end.

Definition joined : Joined :=
  {| jo_enrollmentId := "enr2"; jo_courseId := "course1";
     jo_course := course1 |}.

(** The course documents and the store after "stu2" has joined. *)
Definition courseDocs2 : gmap string CourseDoc :=
  snd (fst (join_course toUpperCase courseDocs0 Scenario.db0 "stu2"
              (Some "abcdef"%string) "enr2")).

Definition db2 : Db :=
  snd (join_course toUpperCase courseDocs0 Scenario.db0 "stu2"
         (Some "abcdef"%string) "enr2").

End Semester.

(** * Properties *)

(** ** Sanity checks of the encoders *)

Example base64_Man : Base64.encode "Man" = "TWFu"%string.
Proof. reflexivity. Qed.

Example base64_Ma : Base64.encode "Ma" = "TWE="%string.
Proof. reflexivity. Qed.

Example base64_M : Base64.encode "M" = "TQ=="%string.
Proof. reflexivity. Qed.

Example number_to_string_now :
  number_to_string 1700000000000 = "1700000000000"%string.
Proof. reflexivity. Qed.

Example number_to_string_negative : number_to_string (-5) = "-5"%string.
Proof. reflexivity. Qed.

(** ** Base64 is injective *)

Module Base64Facts.
Import Base64.

Ltac all_bits := intros [] [] [] [] [] [].

Lemma index_enc : forall b5 b4 b3 b2 b1 b0,
  index (enc b5 b4 b3 b2 b1 b0) = sextet b5 b4 b3 b2 b1 b0.
Proof. all_bits; reflexivity. Qed.

Lemma unsextet_sextet : forall b5 b4 b3 b2 b1 b0,
  unsextet (sextet b5 b4 b3 b2 b1 b0) = (b5, b4, b3, b2, b1, b0).
Proof. all_bits; reflexivity. Qed.

Lemma enc_not_pad : forall b5 b4 b3 b2 b1 b0, enc b5 b4 b3 b2 b1 b0 <> pad.
Proof. all_bits; discriminate. Qed.

Lemma enc_inj b5 b4 b3 b2 b1 b0 c5 c4 c3 c2 c1 c0 :
  enc b5 b4 b3 b2 b1 b0 = enc c5 c4 c3 c2 c1 c0 ->
  (b5, b4, b3, b2, b1, b0) = (c5, c4, c3, c2, c1, c0).
Proof.
  intros H. apply (f_equal index) in H. rewrite !index_enc in H.
  apply (f_equal unsextet) in H. now rewrite !unsextet_sextet in H.
Qed.

(** A byte is determined by its eight bits. *)
Lemma bits_eq (a b : ascii) :
  (forall i, (i < 8)%nat -> bit i a = bit i b) -> a = b.
Proof.
  intros H. destruct a as [a0 a1 a2 a3 a4 a5 a6 a7],
                      b as [b0 b1 b2 b3 b4 b5 b6 b7].
  pose proof (H 0%nat) as H0. pose proof (H 1%nat) as H1.
  pose proof (H 2%nat) as H2. pose proof (H 3%nat) as H3.
  pose proof (H 4%nat) as H4. pose proof (H 5%nat) as H5.
  pose proof (H 6%nat) as H6. pose proof (H 7%nat) as H7.
  simpl in *.
  rewrite H0, H1, H2, H3, H4, H5, H6, H7 by lia. reflexivity.
Qed.

(** Induction over a string three bytes at a time, as [encode] reads it. *)
Lemma string_ind3 (P : string -> Prop) :
  P EmptyString ->
  (forall a, P (String a EmptyString)) ->
  (forall a b, P (String a (String b EmptyString))) ->
  (forall a b c r, P r -> P (String a (String b (String c r)))) ->
  forall s, P s.
Proof.
  intros H0 H1 H2 H3.
  assert (A : forall s, P s /\ (forall a, P (String a s))
                        /\ (forall a b, P (String a (String b s)))).
  { induction s as [|c r (Pr & Pr1 & Pr2)].
    - split; [exact H0 | split; [exact H1 | exact H2]].
    - split; [apply Pr1 | split; [intros a; apply Pr2 |]].
      intros a b. apply H3. exact Pr. }
  intros s. apply A.
Qed.

Ltac bad_pad :=
  match goal with
  | H : pad = enc _ _ _ _ _ _ |- _ => symmetry in H; apply enc_not_pad in H; contradiction
  | H : enc _ _ _ _ _ _ = pad |- _ => apply enc_not_pad in H; contradiction
  end.

Ltac same_bits :=
  repeat match goal with
  | H : enc _ _ _ _ _ _ = enc _ _ _ _ _ _ |- _ =>
      apply enc_inj in H; injection H; clear H; intros
  end.

Ltac same_byte :=
  apply bits_eq; intros i Hi;
  do 8 (destruct i as [|i]; [assumption || (symmetry; assumption) |]); lia.

Lemma encode_nonempty a s : encode (String a s) <> EmptyString.
Proof. destruct s as [|b [|c r]]; discriminate. Qed.

Ltac chars_of H := repeat (injection H as ? H).

Theorem encode_inj : forall s t, encode s = encode t -> s = t.
Proof.
  intros s. pattern s. apply string_ind3; clear s;
    [| intros a | intros a b | intros a b c r IH]; intros t H.
  - destruct t as [|x t]; [reflexivity|].
    symmetry in H. now apply encode_nonempty in H.
  - destruct t as [|x [|y [|z t]]]; simpl in H; try discriminate;
      chars_of H; try discriminate; try bad_pad.
    same_bits. f_equal. same_byte.
  - destruct t as [|x [|y [|z t]]]; simpl in H; try discriminate;
      chars_of H; try discriminate; try bad_pad.
    same_bits. f_equal; [same_byte | f_equal; same_byte].
  - destruct t as [|x [|y [|z t]]]; simpl in H; try discriminate;
      chars_of H; try discriminate; try bad_pad.
    same_bits. f_equal; [same_byte | f_equal; [same_byte | f_equal]];
      [same_byte | now apply IH].
Qed.

End Base64Facts.

(** ** Strings and printed numbers *)

Lemma append_length (s t : string) :
  String.length (s +:+ t) = (String.length s + String.length t)%nat.
Proof. induction s as [|c s IH]; simpl; [reflexivity | now rewrite IH]. Qed.

Lemma append_inv_head (x s t : string) : x +:+ s = x +:+ t -> s = t.
Proof.
  induction x as [|c x IH]; simpl; intros H; [exact H|].
  injection H as H. now apply IH.
Qed.

Lemma append_inv_tail (x : string) : forall s t, s +:+ x = t +:+ x -> s = t.
Proof.
  induction s as [|c s IH]; intros [|d t] H; simpl in H.
  - reflexivity.
  - apply (f_equal String.length) in H.
    rewrite !append_length in H. simpl in H. lia.
  - apply (f_equal String.length) in H.
    rewrite !append_length in H. simpl in H. lia.
  - injection H as -> H. f_equal. now apply IH.
Qed.

Lemma to_int_proper (z : Z) :
  Z.to_int z <> Decimal.Pos Decimal.Nil /\ Z.to_int z <> Decimal.Neg Decimal.Nil.
Proof.
  destruct z as [|p|p]; simpl; split; try discriminate;
    intros H; injection H as H; now apply Unsigned.to_uint_nonnil in H.
Qed.

Lemma number_to_string_inj (m n : Z) :
  number_to_string m = number_to_string n -> m = n.
Proof.
  unfold number_to_string. intros H.
  apply (f_equal NilZero.int_of_string) in H.
  destruct (to_int_proper m) as [Hm1 Hm2], (to_int_proper n) as [Hn1 Hn2].
  rewrite !NilZero.isi in H by assumption.
  injection H as H. apply (f_equal Z.of_int) in H.
  now rewrite !DecimalZ.of_to in H.
Qed.

(** ** The token signature *)

Section TokenFacts.

Variable QR_SECRET : option string.

Lemma sign_inj_sessionId (sid sid' : string) (ts : Z) :
  sign QR_SECRET sid ts = sign QR_SECRET sid' ts -> sid = sid'.
Proof.
  unfold sign. intros H. apply Base64Facts.encode_inj in H.
  now apply append_inv_tail in H.
Qed.

Lemma sign_inj_timestamp (sid : string) (ts ts' : Z) :
  sign QR_SECRET sid ts = sign QR_SECRET sid ts' -> ts = ts'.
Proof.
  unfold sign. intros H. apply Base64Facts.encode_inj in H.
  apply append_inv_head in H. apply append_inv_head in H.
  apply append_inv_tail in H. now apply number_to_string_inj.
Qed.

Lemma verify_issued now sid cid fid loc expiresIn :
  verifyQRSignature QR_SECRET
    (generateQRPayload QR_SECRET now sid cid fid loc expiresIn) = true.
Proof. unfold verifyQRSignature. simpl. apply String.eqb_refl. Qed.

Lemma verify_spec (payload : QRPayload) :
  verifyQRSignature QR_SECRET payload = true <->
  qr_signature payload =
    sign QR_SECRET (qr_sessionId payload) (qr_timestamp payload).
Proof. unfold verifyQRSignature. apply String.eqb_eq. Qed.

End TokenFacts.

Lemma has_dash_append (s t : string) :
  has_dash (s +:+ t) = has_dash s || has_dash t.
Proof.
  induction s as [|c s IH]; simpl; [reflexivity|].
  now rewrite IH, orb_assoc.
Qed.

Lemma append_nil_l (t : string) : EmptyString +:+ t = t.
Proof. reflexivity. Qed.

Lemma append_cons (c : ascii) (s t : string) :
  String c s +:+ t = String c (s +:+ t).
Proof. reflexivity. Qed.

Lemma append_assoc (s t u : string) : (s +:+ t) +:+ u = s +:+ t +:+ u.
Proof.
  induction s as [|c s IH]; [reflexivity|].
  change (String c ((s +:+ t) +:+ u) = String c (s +:+ t +:+ u)).
  now rewrite IH.
Qed.

(** Two texts that agree up to and including their first dash. *)
Lemma split_at_first_dash (a : string) : forall b x y : string,
  has_dash a = false ->
  a +:+ "-" +:+ x = b +:+ "-" +:+ y ->
  (a = b /\ x = y) \/ has_dash x = true.
Proof.
  induction a as [|c a IH]; intros [|d b] x y Ha H; simpl in Ha;
    rewrite ?append_cons, ?append_nil_l in H.
  - injection H as H. now left.
  - injection H as _ H. right. subst x. rewrite has_dash_append. simpl.
    apply orb_true_r.
  - injection H as H _. subst c. discriminate.
  - injection H as -> H. apply orb_false_elim in Ha as [_ Ha].
    destruct (IH b x y Ha H) as [[-> ->]|Hx]; [now left | now right].
Qed.

Lemma string_of_uint_no_dash (d : Decimal.uint) :
  has_dash (NilEmpty.string_of_uint d) = false.
Proof. induction d; simpl; assumption || reflexivity. Qed.

Lemma number_to_string_no_dash (n : Z) :
  0 <= n -> has_dash (number_to_string n) = false.
Proof.
  intros Hn. unfold number_to_string.
  destruct n as [|p|p]; [reflexivity | | lia].
  simpl. unfold NilZero.string_of_uint.
  destruct (Pos.to_uint p); simpl; try reflexivity;
    apply string_of_uint_no_dash.
Qed.

Lemma sign_inj_no_dash (QR_SECRET : option string) (sid sid' : string)
    (ts ts' : Z) :
  has_dash sid = false -> 0 <= ts ->
  sign QR_SECRET sid ts = sign QR_SECRET sid' ts' -> sid = sid' /\ ts = ts'.
Proof.
  intros Hsid Hts H. unfold sign in H. apply Base64Facts.encode_inj in H.
  assert (E : forall a n : string,
            a +:+ "-" +:+ n +:+ "-" +:+ secret QR_SECRET
            = (a +:+ "-" +:+ n) +:+ "-" +:+ secret QR_SECRET)
    by (intros; now rewrite !append_assoc).
  rewrite !E in H. apply append_inv_tail in H.
  destruct (split_at_first_dash _ _ _ _ Hsid H) as [[-> Hn]|Hn].
  - split; [reflexivity | now apply number_to_string_inj].
  - rewrite number_to_string_no_dash in Hn by exact Hts. discriminate.
Qed.

(** C7.  Tamper-evidence of the signature: on a token issued by
    [generateQRPayload], replacing the session id by a different one, or the
    timestamp by a different one, while the signature is the one issued,
    makes [verifyQRSignature] answer [false].  When the session id has no
    dash (as the ids the store assigns) and the clock is not negative, the
    same holds for any replacement of the two fields together. *)
Theorem tampered_token_is_rejected (QR_SECRET : option string) (now : Z)
    (sid cid fid : string) (loc : option Location) (expiresIn : option Z) :
  let token := generateQRPayload QR_SECRET now sid cid fid loc expiresIn in
  (forall sid', sid' <> sid ->
     verifyQRSignature QR_SECRET (set_qr_sessionId token sid') = false) /\
  (forall ts', ts' <> now ->
     verifyQRSignature QR_SECRET (set_qr_timestamp token ts') = false) /\
  (has_dash sid = false -> 0 <= now ->
   forall sid' ts', sid' <> sid \/ ts' <> now ->
     verifyQRSignature QR_SECRET
       (set_qr_timestamp (set_qr_sessionId token sid') ts') = false).
Proof.
  intros token. split; [|split].
  - intros sid' Hne. apply not_true_is_false. intros H.
    apply verify_spec in H. simpl in H.
    apply sign_inj_sessionId in H. congruence.
  - intros ts' Hne. apply not_true_is_false. intros H.
    apply verify_spec in H. simpl in H.
    apply sign_inj_timestamp in H. congruence.
  - intros Hsid Hnow sid' ts' Hne. apply not_true_is_false. intros H.
    apply verify_spec in H. simpl in H.
    apply sign_inj_no_dash in H as [H1 H2]; [|exact Hsid|exact Hnow].
    destruct Hne; congruence.
Qed.

(** Without that condition a change of both fields at once can go
    unnoticed: the signed text does not delimit its parts. *)
Remark sign_collision_both_fields :
  sign None "a-" 5 = sign None "a" (-5).
Proof. reflexivity. Qed.

(** C9.  [verifyQRSignature] reads the session id, the timestamp and the
    signature only: payloads that agree on these three get the same answer,
    and an issued token whose course, faculty, expiry or location has been
    replaced still verifies. *)
Theorem verify_ignores_unsigned_fields (QR_SECRET : option string) :
  (forall p q : QRPayload,
     qr_sessionId p = qr_sessionId q ->
     qr_timestamp p = qr_timestamp q ->
     qr_signature p = qr_signature q ->
     verifyQRSignature QR_SECRET p = verifyQRSignature QR_SECRET q) /\
  (forall now sid cid fid loc expiresIn cid' fid' expiresAt' loc',
     verifyQRSignature QR_SECRET
       (set_qr_unsigned_fields
          (generateQRPayload QR_SECRET now sid cid fid loc expiresIn)
          cid' fid' expiresAt' loc') = true).
Proof.
  split.
  - intros p q Hs Ht Hg. unfold verifyQRSignature. now rewrite Hs, Ht, Hg.
  - intros. unfold verifyQRSignature. simpl. apply String.eqb_refl.
Qed.

(** ** The arithmetic of numbers *)

Lemma opp_involutive (x : number) : Number.opp (Number.opp x) = x.
Proof. destruct x as [s|s| |s m e]; simpl; now rewrite ?negb_involutive. Qed.

Lemma binary_round_aux_opp (s : bool) (m e : Z) (l : location) :
  binary_round_aux 53 1024 (negb s) m e l
  = Number.opp (binary_round_aux 53 1024 s m e l).
Proof.
  unfold binary_round_aux.
  destruct (shr_fexp 53 1024 m e l) as [mrs' e'].
  destruct (shr_fexp 53 1024 _ e' loc_Exact) as [mrs'' e''].
  destruct (shr_m mrs''); [reflexivity| |reflexivity].
  now destruct (Z.leb e'' _).
Qed.

Lemma binary_round_opp (s : bool) (m : positive) (e : Z) :
  binary_round 53 1024 (negb s) m e
  = Number.opp (binary_round 53 1024 s m e).
Proof.
  unfold binary_round. destruct (shl_align _ _ _) as [mz ez].
  apply binary_round_aux_opp.
Qed.

Lemma mul_opp_l (x y : number) :
  Number.mul (Number.opp x) y = Number.opp (Number.mul x y).
Proof.
  destruct x as [sx|sx| |sx mx ex], y as [sy|sy| |sy my ey]; simpl;
    try reflexivity; try now destruct sx, sy.
  unfold Number.mul, SFmul.
  rewrite <- binary_round_aux_opp. now destruct sx, sy.
Qed.

Lemma mul_comm (x y : number) : Number.mul x y = Number.mul y x.
Proof.
  destruct x as [sx|sx| |sx mx ex], y as [sy|sy| |sy my ey]; simpl;
    try reflexivity; try now destruct sx, sy.
  unfold Number.mul, SFmul.
  now rewrite Pos.mul_comm, Z.add_comm, xorb_comm.
Qed.

Lemma mul_opp_r (x y : number) :
  Number.mul x (Number.opp y) = Number.opp (Number.mul x y).
Proof. now rewrite mul_comm, mul_opp_l, mul_comm. Qed.

Lemma mul_opp_opp (x y : number) :
  Number.mul (Number.opp x) (Number.opp y) = Number.mul x y.
Proof. now rewrite mul_opp_l, mul_opp_r, opp_involutive. Qed.

Lemma div_opp_l (x y : number) :
  Number.div (Number.opp x) y = Number.opp (Number.div x y).
Proof.
  destruct x as [sx|sx| |sx mx ex], y as [sy|sy| |sy my ey]; simpl;
    try reflexivity; try now destruct sx, sy.
  unfold Number.div, SFdiv.
  destruct (SFdiv_core_binary _ _ _ _ _ _) as [[mz ez] lz].
  rewrite <- binary_round_aux_opp. now destruct sx, sy.
Qed.

Lemma binary_normalize_opp (m e : Z) :
  m <> 0 ->
  binary_normalize 53 1024 (- m) e false
  = Number.opp (binary_normalize 53 1024 m e false).
Proof.
  intros Hm. destruct m as [|p|p]; [contradiction| |]; simpl.
  - apply (binary_round_opp false).
  - now rewrite <- (binary_round_opp true).
Qed.

(** Swapping the operands of a subtraction negates it, unless both
    differences are [+0]. *)
Lemma sub_swap (x y : number) :
  Number.sub y x = Number.opp (Number.sub x y)
  \/ (Number.sub x y = Number.zero /\ Number.sub y x = Number.zero).
Proof.
  destruct x as [sx|sx| |sx mx ex], y as [sy|sy| |sy my ey];
    try (left; reflexivity);
    try (destruct sx, sy; simpl; auto; fail).
  unfold Number.sub, SFsub.
  rewrite (Z.min_comm ey ex).
    set (a := cond_Zopp sx _). set (b := cond_Zopp sy _).
    destruct (Z.eq_dec (a - b) 0) as [E|E].
    + right. replace (b - a) with 0 by lia. rewrite E. auto.
    + left. replace (b - a) with (- (a - b)) by lia.
      now apply binary_normalize_opp.
Qed.

Lemma sub_diag (x : number) :
  Number.is_finite x = true -> Number.sub x x = Number.zero.
Proof.
  destruct x as [s|s| |s m e]; try discriminate; intros _.
  - now destruct s.
  - unfold Number.sub, SFsub. now rewrite Z.sub_diag.
Qed.

Lemma digits2_pos_size (p : positive) : digits2_pos p = Pos.size p.
Proof. induction p as [p IH|p IH|]; simpl; now rewrite ?IH. Qed.

Lemma Zdigits2_log2 (p : positive) :
  Zdigits2 (Zpos p) = Z.log2 (Zpos p) + 1.
Proof.
  simpl. rewrite digits2_pos_size.
  destruct p as [p|p|]; simpl; try reflexivity; lia.
Qed.

Lemma Zdigits2_nonneg (m : Z) : 0 <= Zdigits2 m.
Proof. destruct m; simpl; lia. Qed.

Lemma Zdigits2_shiftr (m n : Z) :
  0 <= m -> 0 <= n -> Zdigits2 (Z.shiftr m n) <= Z.max 0 (Zdigits2 m - n).
Proof.
  intros Hm Hn.
  destruct (Z.eq_dec (Z.shiftr m n) 0) as [E|E]; [rewrite E; simpl; lia|].
  assert (H0 : 0 <= Z.shiftr m n) by now apply Z.shiftr_nonneg.
  assert (Hpos : 0 < m).
  { destruct (Z.eq_dec m 0) as [->|]; [|lia].
    rewrite Z.shiftr_0_l in E. contradiction. }
  destruct m as [|p|p]; try lia.
  assert (Hlog : n <= Z.log2 (Zpos p)).
  { destruct (Z.le_gt_cases n (Z.log2 (Zpos p))) as [H|H]; [exact H|].
    exfalso. apply E. apply Z.shiftr_eq_0; lia. }
  destruct (Z.shiftr (Zpos p) n) as [|q|q] eqn:Hq; try lia.
  rewrite !Zdigits2_log2, <- Hq, Z.log2_shiftr by lia. lia.
Qed.

Lemma Zdigits2_succ (m : Z) : 0 <= m -> Zdigits2 (m + 1) <= Zdigits2 m + 1.
Proof.
  intros Hm. destruct m as [|p|p]; try lia; [simpl; lia|].
  destruct (Zpos p + 1) as [|q|q] eqn:Hq; try lia.
  rewrite !Zdigits2_log2, <- Hq.
  pose proof (Z.log2_succ_le (Zpos p)). unfold Z.succ in *. lia.
Qed.

Lemma Zdigits2_mul (p q : positive) :
  Zdigits2 (Zpos (p * q)) <= Zdigits2 (Zpos p) + Zdigits2 (Zpos q).
Proof.
  rewrite !Zdigits2_log2, Pos2Z.inj_mul.
  pose proof (Z.log2_mul_above (Zpos p) (Zpos q)). lia.
Qed.

(** The mantissa of a record after one more shift, and after many. *)
Lemma shr_1_m (mrs : shr_record) :
  0 <= shr_m mrs -> shr_m (shr_1 mrs) = Z.shiftr (shr_m mrs) 1.
Proof.
  destruct mrs as [m r s]. simpl. intros Hm.
  destruct m as [|[p|p|]|p]; try lia; reflexivity.
Qed.

Lemma iter_pos_shr_1_m (p : positive) : forall mrs : shr_record,
  0 <= shr_m mrs ->
  shr_m (SpecFloat.iter_pos shr_1 p mrs) = Z.shiftr (shr_m mrs) (Zpos p).
Proof.
  induction p as [p IH|p IH|]; intros mrs Hm; simpl SpecFloat.iter_pos.
  - assert (H1 : 0 <= shr_m (shr_1 mrs))
      by (rewrite shr_1_m by exact Hm; now apply Z.shiftr_nonneg).
    assert (H2 : 0 <= shr_m (SpecFloat.iter_pos shr_1 p (shr_1 mrs)))
      by (rewrite IH by exact H1; now apply Z.shiftr_nonneg).
    rewrite IH, IH, shr_1_m by assumption.
    rewrite !Z.shiftr_shiftr by lia. f_equal. lia.
  - assert (H2 : 0 <= shr_m (SpecFloat.iter_pos shr_1 p mrs))
      by (rewrite IH by exact Hm; now apply Z.shiftr_nonneg).
    rewrite IH, IH by assumption.
    rewrite !Z.shiftr_shiftr by lia. f_equal. lia.
  - now apply shr_1_m.
Qed.

Lemma shr_record_of_loc_m (m : Z) (l : location) :
  shr_m (shr_record_of_loc m l) = m.
Proof. now destruct l as [|[]]. Qed.

(** What [shr_fexp] leaves: a mantissa that is not negative, an exponent and
    a magnitude that stay below the bound of the input. *)
Lemma shr_fexp_bound (m e : Z) (l : location) (B : Z) :
  0 <= m -> Zdigits2 m + e <= B -> e <= B -> -1074 <= B ->
  let '(mrs, e') := shr_fexp 53 1024 m e l in
  0 <= shr_m mrs /\ Zdigits2 (shr_m mrs) + e' <= B /\ e' <= B.
Proof.
  intros Hm HD He HB. unfold shr_fexp, shr.
  set (n := fexp 53 1024 (Zdigits2 m + e) - e).
  assert (Hf : fexp 53 1024 (Zdigits2 m + e)
               = Z.max (Zdigits2 m + e - 53) (-1074)) by reflexivity.
  destruct n as [|p|p] eqn:Hn; rewrite ?shr_record_of_loc_m; try lia.
  rewrite iter_pos_shr_1_m by (rewrite shr_record_of_loc_m; exact Hm).
  rewrite shr_record_of_loc_m.
  pose proof (Zdigits2_shiftr m (Zpos p) Hm ltac:(lia)) as Hd.
  pose proof (Zdigits2_nonneg m).
  split; [apply Z.shiftr_nonneg; exact Hm|]. unfold n in Hn. lia.
Qed.

Lemma round_nearest_even_bound (m : Z) (l : location) :
  0 <= m ->
  0 <= round_nearest_even m l
  /\ Zdigits2 (round_nearest_even m l) <= Zdigits2 m + 1.
Proof.
  intros Hm. pose proof (Zdigits2_succ m Hm).
  destruct l as [|[]]; simpl; try destruct (Z.even m); split; lia.
Qed.

Lemma binary_round_aux_below (s : bool) (m e : Z) (l : location) (B : Z) :
  0 <= m -> Zdigits2 m + e <= B -> e <= B -> -1074 <= B -> B + 1 <= 971 ->
  below (B + 1) (binary_round_aux 53 1024 s m e l).
Proof.
  intros Hm HD He HB Hmax. unfold binary_round_aux.
  pose proof (shr_fexp_bound m e l B Hm HD He HB) as H1.
  destruct (shr_fexp 53 1024 m e l) as [mrs' e'].
  destruct H1 as (Hm1 & HD1 & He1).
  destruct (round_nearest_even_bound (shr_m mrs') (loc_of_shr_record mrs') Hm1)
    as [Hm2 HD2].
  pose proof (shr_fexp_bound _ e' loc_Exact (B + 1) Hm2 ltac:(lia) ltac:(lia)
                ltac:(lia)) as H2.
  destruct (shr_fexp 53 1024 _ e' loc_Exact) as [mrs'' e''].
  destruct H2 as (Hm3 & HD3 & He3).
  destruct (shr_m mrs'') as [|q|q] eqn:Hq; [exact I| |lia].
  destruct (Z.leb_spec e'' (1024 - 53)); [exact HD3 | simpl; lia].
Qed.

Lemma mul_below (x y : number) (B1 B2 : Z) :
  below B1 x -> below B2 y -> -1074 <= B1 + B2 -> B1 + B2 + 1 <= 971 ->
  below (B1 + B2 + 1) (Number.mul x y).
Proof.
  destruct x as [sx|sx| |sx mx ex], y as [sy|sy| |sy my ey];
    try (simpl; tauto).
  unfold below at 1 2. intros Hx Hy HB Hmax. unfold Number.mul, SFmul.
  pose proof (Zdigits2_mul mx my) as Hd.
  pose proof (Zdigits2_nonneg (Zpos (mx * my))).
  assert (Hp : 1 <= Zdigits2 (Zpos (mx * my))).
  { rewrite Zdigits2_log2. pose proof (Z.log2_nonneg (Zpos (mx * my))). lia. }
  apply binary_round_aux_below.
  all: lia.
Qed.

Lemma below_is_finite (B : Z) (x : number) :
  below B x -> Number.is_finite x = true.
Proof. destruct x; simpl; tauto. Qed.

Lemma in_unit_range_below (x : number) :
  in_unit_range x = true -> below 1 x.
Proof.
  unfold in_unit_range. intros H. apply andb_true_iff in H as [Hv Hle].
  destruct x as [s|s| |s m e]; try exact I; try discriminate.
  unfold valid_binary, bounded, canonical_mantissa in Hv.
  apply andb_true_iff in Hv as [Hc _]. apply Z.eqb_eq in Hc.
  unfold fexp, emin in Hc.
  change (Number.of_Z 1) with (S754_finite false 4503599627370496 (-52)) in Hle.
  unfold Number.leb, SFleb, Number.abs, SFabs, SFcompare in Hle.
  unfold below. change (Zdigits2 (Zpos m)) with (Zpos (digits2_pos m)).
  destruct (Z.compare_spec e (-52)); try discriminate; lia.
Qed.

Lemma shr_fexp_nonneg (m e : Z) (l : location) :
  0 <= m -> 0 <= shr_m (fst (shr_fexp 53 1024 m e l)).
Proof.
  intros Hm. unfold shr_fexp, shr.
  destruct (fexp 53 1024 (Zdigits2 m + e) - e) as [|p|p]; simpl fst;
    rewrite ?iter_pos_shr_1_m, ?shr_record_of_loc_m;
    rewrite ?shr_record_of_loc_m; try exact Hm.
  now apply Z.shiftr_nonneg.
Qed.

(** Rounding a mantissa that is not negative gives a number that is not
    negative either, and not NaN. *)
Lemma binary_round_aux_nonneg (m e : Z) (l : location) :
  0 <= m ->
  Number.leb Number.zero (binary_round_aux 53 1024 false m e l) = true.
Proof.
  intros Hm. unfold binary_round_aux.
  pose proof (shr_fexp_nonneg m e l Hm) as H1.
  destruct (shr_fexp 53 1024 m e l) as [mrs' e']. simpl fst in H1.
  destruct (round_nearest_even_bound _ (loc_of_shr_record mrs') H1) as [H2 _].
  pose proof (shr_fexp_nonneg _ e' loc_Exact H2) as H3.
  destruct (shr_fexp 53 1024 _ e' loc_Exact) as [mrs'' e'']. simpl fst in H3.
  destruct (shr_m mrs'') as [|q|q]; [reflexivity| |lia].
  now destruct (Z.leb e'' _).
Qed.

Lemma of_Q_nonneg (q : Q) :
  (0 <= q)%Q -> Number.leb Number.zero (Number.of_Q q) = true.
Proof.
  unfold Qle, Number.of_Q. simpl. rewrite Z.mul_1_r. intros Hq.
  destruct (Qnum q) as [|n|n]; [reflexivity| |lia].
  unfold Number.of_ratio, SFdiv_core_binary.
  set (m' := match _ with Z0 => Zpos n | Zpos _ => _ | Zneg _ => 0 end).
  assert (Hm' : 0 <= m').
  { unfold m'. destruct (_ - _ - _) as [|p|p]; try lia.
    apply Z.shiftl_nonneg. lia. }
  pose proof (Z.div_pos m' (Zpos (Qden q)) Hm' ltac:(lia)) as Hdiv.
  unfold Z.div in Hdiv.
  destruct (Z.div_eucl m' (Zpos (Qden q))) as [quo r]. simpl fst in Hdiv.
  now apply binary_round_aux_nonneg.
Qed.

Lemma Math_round_0 : Math_round Number.zero = Some 0.
Proof. reflexivity. Qed.

(** Squares and zeros *)

(** Adding a zero to the rounding of a mantissa that is not negative changes
    nothing. *)
Lemma binary_round_aux_add_zero (m e : Z) (l : location) (b : bool) :
  0 <= m ->
  Number.add (binary_round_aux 53 1024 false m e l) (S754_zero b)
  = binary_round_aux 53 1024 false m e l.
Proof.
  intros Hm. unfold binary_round_aux.
  pose proof (shr_fexp_nonneg m e l Hm) as H1.
  destruct (shr_fexp 53 1024 m e l) as [mrs' e']. simpl fst in H1.
  destruct (round_nearest_even_bound _ (loc_of_shr_record mrs') H1) as [H2 _].
  pose proof (shr_fexp_nonneg _ e' loc_Exact H2) as H3.
  destruct (shr_fexp 53 1024 _ e' loc_Exact) as [mrs'' e'']. simpl fst in H3.
  destruct (shr_m mrs'') as [|q|q]; [now destruct b| |lia].
  now destruct (Z.leb e'' _).
Qed.

(** A square is never [-0]: adding a zero of either sign leaves it as it
    is. *)
Lemma square_add_zero (s : number) (b : bool) :
  (s * s + S754_zero b)%number = (s * s)%number.
Proof.
  destruct s as [[]|[]| |sg m e]; try (now destruct b).
  unfold Number.mul, SFmul.
  rewrite xorb_nilpotent. now apply binary_round_aux_add_zero.
Qed.

(** A finite number times zero times zero is a zero. *)
Lemma mul_zero_zero (C : number) (B : Z) :
  below B C ->
  exists b, (C * Number.zero * Number.zero)%number = S754_zero b.
Proof. destruct C as [s|s| |s m e]; try contradiction; eexists; reflexivity. Qed.

(** ** The distance function *)

Section Distance.
Context `{Math}.

Lemma half_angle_opp (d : number) :
  sin_is_odd ->
  Math_sin (radians (Number.opp d) / Number.of_Z 2)%number
  = Number.opp (Math_sin (radians d / Number.of_Z 2)%number).
Proof.
  intros Hodd. unfold radians.
  now rewrite mul_opp_l, !div_opp_l, Hodd.
Qed.

(** The square of the sine of half the difference does not depend on the
    order of the two coordinates. *)
Lemma half_angle_square (x y : number) :
  sin_is_odd ->
  let s := Math_sin (radians (y - x) / Number.of_Z 2)%number in
  let s' := Math_sin (radians (x - y) / Number.of_Z 2)%number in
  forall c : number,
    (c * s' * s' = c * s * s)%number /\ (s' * s' = s * s)%number.
Proof.
  intros Hodd s s' c. unfold s, s'.
  destruct (sub_swap y x) as [E|[E1 E2]].
  - rewrite E, half_angle_opp by exact Hodd. split.
    + now rewrite (mul_opp_r c), mul_opp_opp.
    + apply mul_opp_opp.
  - now rewrite E1, E2.
Qed.

Lemma calculateDistance_swap (lat1 lon1 lat2 lon2 : number) :
  sin_is_odd ->
  calculateDistance lat1 lon1 lat2 lon2 = calculateDistance lat2 lon2 lat1 lon1.
Proof.
  intros Hodd. unfold calculateDistance. cbv zeta.
  fold (radians lat1) (radians lat2) (radians (Number.sub lat2 lat1))
       (radians (Number.sub lat1 lat2)) (radians (Number.sub lon2 lon1))
       (radians (Number.sub lon1 lon2)).
  destruct (half_angle_square lat1 lat2 Hodd Number.zero) as [_ ->].
  destruct (half_angle_square lon1 lon2 Hodd
              (Math_cos (radians lat2) * Math_cos (radians lat1))%number)
    as [-> _].
  now rewrite (mul_comm (Math_cos (radians lat2))).
Qed.

Lemma radians_finite (x : number) :
  Number.is_finite (radians x) = true -> Number.is_finite x = true.
Proof. now destruct x as [s|s| |s m e]. Qed.

Lemma calculateDistance_same (lat lon : number) :
  sin_keeps_zero -> cos_in_unit_range -> atan2_keeps_zero ->
  Number.is_finite (radians lat) = true -> Number.is_finite lon = true ->
  calculateDistance lat lon lat lon = Number.zero.
Proof.
  intros Hsin Hcos Hatan Hlat Hlon. unfold calculateDistance. cbv zeta.
  rewrite !sub_diag by (exact Hlon || now apply radians_finite).
  change (Number.zero * Math_PI / Number.of_Z 180 / Number.of_Z 2)%number
    with Number.zero.
  rewrite Hsin. fold (radians lat).
  pose proof (in_unit_range_below _ (Hcos _ Hlat)) as Hc.
  pose proof (mul_below _ _ 1 1 Hc Hc ltac:(lia) ltac:(lia)) as HC.
  assert (Ha : forall C : number, below 3 C ->
            (Number.zero * Number.zero + C * Number.zero * Number.zero
             = Number.zero)%number).
  { intros [[]|s| |[] m e]; try contradiction; reflexivity. }
  rewrite (Ha _ HC).
  change (Math_sqrt Number.zero) with Number.zero.
  replace (Math_sqrt (Number.of_Z 1 - Number.zero)%number)
    with (Number.of_Z 1) by (vm_compute; reflexivity).
  unfold atan2_keeps_zero in Hatan. rewrite Hatan. reflexivity.
Qed.

(** Between two points of the same longitude the term of the longitudes
    is a zero, and the sum is the square of the sine of half the difference
    of the latitudes. *)
Lemma calculateDistance_meridian (lat1 lat2 lon : number) :
  sin_keeps_zero -> cos_in_unit_range ->
  Number.is_finite (radians lat1) = true ->
  Number.is_finite (radians lat2) = true ->
  Number.is_finite lon = true ->
  calculateDistance lat1 lon lat2 lon
  = (let s := Math_sin (radians (lat2 - lat1) / Number.of_Z 2) in
     Number.of_Z 6371000 *
     (Number.of_Z 2 *
      Math_atan2 (Math_sqrt (s * s)) (Math_sqrt (Number.of_Z 1 - s * s))))%number.
Proof.
  intros Hsin Hcos Hlat1 Hlat2 Hlon. unfold calculateDistance. cbv zeta.
  rewrite (sub_diag lon) by exact Hlon.
  change (Number.zero * Math_PI / Number.of_Z 180 / Number.of_Z 2)%number
    with Number.zero.
  rewrite Hsin. fold (radians lat1) (radians lat2) (radians (Number.sub lat2 lat1)).
  pose proof (in_unit_range_below _ (Hcos _ Hlat1)) as Hc1.
  pose proof (in_unit_range_below _ (Hcos _ Hlat2)) as Hc2.
  pose proof (mul_below _ _ 1 1 Hc1 Hc2 ltac:(lia) ltac:(lia)) as HC.
  destruct (mul_zero_zero _ _ HC) as [b ->].
  now rewrite square_add_zero.
Qed.

End Distance.

(** ** The [Math] of the examples *)

Lemma example_sin_keeps_zero : sin_keeps_zero.
Proof. reflexivity. Qed.

Lemma example_sin_is_odd : sin_is_odd.
Proof.
  intros [s|s| |[] m e]; try reflexivity.
  cbn [Math_sin ExampleMath.math]. unfold ExampleMath.sin. simpl Number.opp.
  cbn [Number.abs SFabs]. now rewrite opp_involutive.
Qed.

Lemma example_cos_in_unit_range : cos_in_unit_range.
Proof.
  intros x Hx. cbn [Math_cos ExampleMath.math]. unfold ExampleMath.cos.
  destruct x as [s|s| |s m e]; try discriminate;
    destruct (ExampleMath.reduce _) as [k r];
    match goal with
    | |- context [if in_unit_range ?c then _ else _] =>
        destruct (in_unit_range c) eqn:Hc; [exact Hc|];
        destruct (ExampleMath.sign c); vm_compute; reflexivity
    end.
Qed.

Lemma example_atan2_keeps_zero : atan2_keeps_zero.
Proof. reflexivity. Qed.

(** ** Queries *)

Lemma snapshot_empty_nil {A : Type} (docs : list A) :
  snapshot_empty docs = true <-> docs = [].
Proof. destruct docs; simpl; split; congruence. Qed.

Lemma limit_1_filter_nil {A : Type} (f : A -> bool) (docs : list A) :
  take 1 (List.filter f docs) = [] <-> forall x, x ∈ docs -> f x = false.
Proof.
  induction docs as [|d docs IH]; simpl.
  - split; [intros _ x Hx; inversion Hx | reflexivity].
  - destruct (f d) eqn:Hd; simpl.
    + split; [discriminate|]. intros H.
      specialize (H d (list_elem_of_here _ _)). congruence.
    + rewrite IH. split.
      * intros H x Hx. apply elem_of_cons in Hx as [->|Hx]; auto.
      * intros H x Hx. apply H. now apply list_elem_of_further.
Qed.

Lemma limit_1_filter_cons {A : Type} (f : A -> bool) (docs : list A) x l :
  take 1 (List.filter f docs) = x :: l -> x ∈ docs /\ f x = true.
Proof.
  induction docs as [|d docs IH]; simpl; [discriminate|].
  destruct (f d) eqn:Hd; simpl.
  - intros [= <- _]. split; [apply list_elem_of_here | exact Hd].
  - intros H. destruct (IH H) as [H1 H2].
    split; [now apply list_elem_of_further | exact H2].
Qed.

Lemma attendance_of_nil (db : Db) (sessionId studentId : string) :
  attendance_of db sessionId studentId = [] <->
  forall a, a ∈ attendance db ->
    ~ (att_sessionId a = sessionId /\ att_studentId a = studentId).
Proof.
  unfold attendance_of. rewrite limit_1_filter_nil.
  split; intros H a Ha.
  - intros [H1 H2]. specialize (H a Ha).
    apply andb_false_iff in H as [H|H]; apply String.eqb_neq in H; congruence.
  - specialize (H a Ha). apply not_true_is_false. intros E.
    apply andb_true_iff in E as [E1 E2].
    apply String.eqb_eq in E1, E2. tauto.
Qed.

Lemma truthy_false (x : option Q) :
  truthy x = false <->
  x = None
  \/ exists q, x = Some q /\ Number.eqb (Number.of_Q q) Number.zero = true.
Proof.
  destruct x as [q|]; simpl.
  - rewrite negb_false_iff. split.
    + intros H. right. now exists q.
    + intros [H|(q' & [= <-] & H)]; [discriminate | exact H].
  - split; [now left | reflexivity].
Qed.

Lemma truthy_zero (q : Q) : q == 0 -> truthy (Some q) = false.
Proof.
  unfold Qeq. simpl. rewrite Z.mul_1_r. intros Hq.
  unfold Number.of_Q. now rewrite Hq.
Qed.

(** ** The scan path *)

(** The geolocation block can only fail with [OutOfRange]. *)
Lemma verify_geolocation_error {M : Math} payload latitude longitude e :
  verify_geolocation payload latitude longitude = inl e ->
  exists distance maxDistance, e = OutOfRange distance maxDistance.
Proof.
  unfold verify_geolocation. intros H.
  repeat case_match; simplify_eq; eauto.
Qed.

Lemma verify_geolocation_skipped {M : Math} payload latitude longitude :
  truthy latitude = false \/ truthy longitude = false ->
  verify_geolocation payload latitude longitude = inr (true, Number.zero).
Proof.
  unfold verify_geolocation. intros [H|H]; repeat case_match; try reflexivity;
    simplify_eq; rewrite H in *; simpl in *;
    rewrite ?andb_false_r in *; discriminate.
Qed.

Lemma verify_geolocation_checked {M : Math} payload loc lat lon :
  qr_location payload = Some loc ->
  truthy (Some lat) = true -> truthy (Some lon) = true ->
  verify_geolocation payload (Some lat) (Some lon) =
    let d := calculateDistance (Number.of_Q lat) (Number.of_Q lon)
               (Number.of_Q (loc_latitude loc))
               (Number.of_Q (loc_longitude loc)) in
    if Number.leb d (Number.of_Q (maxDistance_of loc))
    then inr (true, d)
    else inl (OutOfRange (Math_round d) (maxDistance_of loc)).
Proof.
  intros Hloc Hlat Hlon. unfold verify_geolocation.
  now rewrite Hloc, Hlat, Hlon.
Qed.

(** C5.  A scan that is answered with an error leaves the database as it
    was: no attendance document is written and no counter is incremented. *)
Theorem scan_failure_leaves_db_unchanged {M : Math} (QR_SECRET : option string)
    (db : Db) (userId : string) (req : ScanRequest) (now : Z)
    (e : Error) (db' : Db) :
  scan_qr QR_SECRET db userId req now = (Failure e, db') -> db' = db.
Proof.
  unfold scan_qr, mark_attendance. intros H.
  repeat case_match; simplify_eq; reflexivity.
Qed.

Section PastTheChecks.

Context {M : Math}.

(** A request that passes the parse, signature, expiry, session and
    enrollment checks. *)
Variables (QR_SECRET : option string) (db : Db) (userId : string).
Variables (req : ScanRequest) (now : Z).
Variables (payload : QRPayload) (session : Session).

Hypothesis Hparse : req_qrData req = Some payload.
Hypothesis Hsigned : verifyQRSignature QR_SECRET payload = true.
Hypothesis Hlive : now <= qr_expiresAt payload.
Hypothesis Hsession : sessions db !! qr_sessionId payload = Some session.
Hypothesis Henrolled :
  active_enrollments db userId (qr_courseId payload) <> [].

Lemma scan_qr_enrolled :
  scan_qr QR_SECRET db userId req now =
  if negb (snapshot_empty (attendance_of db (qr_sessionId payload) userId))
  then (Failure AlreadyMarked, db)
  else match verify_geolocation payload (req_latitude req) (req_longitude req)
       with
       | inl tooFar => (Failure tooFar, db)
       | inr (locationVerified, distanceFromClass) =>
           mark_attendance db payload session userId req now locationVerified
             distanceFromClass
       end.
Proof.
  unfold scan_qr. rewrite Hparse, Hsigned, Hsession. simpl.
  destruct (Z.gtb_spec now (qr_expiresAt payload)) as [Hgt|_]; [lia|].
  destruct (active_enrollments db userId (qr_courseId payload)) eqn:E;
    [contradiction | reflexivity].
Qed.

(** The student has no attendance document for the session yet. *)
Hypothesis Hunmarked : attendance_of db (qr_sessionId payload) userId = [].

Lemma scan_qr_unmarked :
  scan_qr QR_SECRET db userId req now =
  match verify_geolocation payload (req_latitude req) (req_longitude req) with
  | inl tooFar => (Failure tooFar, db)
  | inr (locationVerified, distanceFromClass) =>
      mark_attendance db payload session userId req now locationVerified
        distanceFromClass
  end.
Proof. rewrite scan_qr_enrolled, Hunmarked. reflexivity. Qed.

(** C10.  When the token carries a geofence but the request has no latitude
    or no longitude, or has one that is zero, the distance is not computed:
    the scan succeeds and writes a document with [locationVerified] true and
    a distance of 0. *)
Theorem scan_without_coordinates_bypasses_geofence (loc : Location) :
  qr_location payload = Some loc ->
  truthy (req_latitude req) = false \/ truthy (req_longitude req) = false ->
  verify_geolocation payload (req_latitude req) (req_longitude req)
    = inr (true, Number.zero) /\
  exists ok db',
    scan_qr QR_SECRET db userId req now = (Success ok, db') /\
    attendance db' = attendance db ++ [scan_attendance ok] /\
    att_status (scan_attendance ok) = present /\
    att_locationVerified (scan_attendance ok) = true /\
    att_distanceFromClass (scan_attendance ok) = Some 0.
Proof.
  intros _ Hfalsy.
  pose proof (verify_geolocation_skipped payload _ _ Hfalsy) as Hskip.
  split; [exact Hskip|].
  rewrite scan_qr_unmarked, Hskip. unfold mark_attendance.
  eexists _, _. split; [reflexivity|]. simpl. auto.
Qed.

(** C3, as the code has it.  When the token carries a geofence and both
    coordinates of the request are numbers other than zero, the scan is
    decided by the comparison of doubles [distance <= maxDistance], where
    [maxDistance] is the radius of the token when that is a number other
    than zero, and 50 when the token has no radius or a radius of zero.
    When the comparison holds, so also at equality, the scan is accepted.
    When it does not, so also for a distance that is NaN, the scan is
    rejected with [OutOfRange] carrying the distance rounded to the nearest
    integer ([null] for NaN) and [maxDistance]. *)
Theorem scan_geofence_decision (loc : Location) (lat lon : Q) :
  qr_location payload = Some loc ->
  req_latitude req = Some lat -> truthy (Some lat) = true ->
  req_longitude req = Some lon -> truthy (Some lon) = true ->
  let d := calculateDistance (Number.of_Q lat) (Number.of_Q lon)
             (Number.of_Q (loc_latitude loc))
             (Number.of_Q (loc_longitude loc)) in
  let maxDistance := maxDistance_of loc in
  (forall r, loc_radius loc = Some r -> truthy (Some r) = true ->
     maxDistance = r) /\
  (forall r, loc_radius loc = Some r -> truthy (Some r) = false ->
     maxDistance = 50%Q) /\
  (loc_radius loc = None -> maxDistance = 50%Q) /\
  (Number.leb d (Number.of_Q maxDistance) = true ->
     exists ok db',
       scan_qr QR_SECRET db userId req now = (Success ok, db') /\
       attendance db' = attendance db ++ [scan_attendance ok] /\
       att_locationVerified (scan_attendance ok) = true /\
       att_distanceFromClass (scan_attendance ok) = Math_round d) /\
  (Number.eqb d (Number.of_Q maxDistance) = true ->
     Number.leb d (Number.of_Q maxDistance) = true) /\
  (Number.leb d (Number.of_Q maxDistance) = false ->
     scan_qr QR_SECRET db userId req now
     = (Failure (OutOfRange (Math_round d) maxDistance), db)) /\
  (d = S754_nan ->
     scan_qr QR_SECRET db userId req now
     = (Failure (OutOfRange None maxDistance), db)).
Proof.
  intros Hloc Hlat Hlat0 Hlon Hlon0 d maxDistance.
  pose proof (verify_geolocation_checked payload loc lat lon Hloc Hlat0 Hlon0)
    as Hgeo.
  rewrite <- Hlat, <- Hlon in Hgeo. cbv zeta in Hgeo.
  fold d maxDistance in Hgeo.
  assert (Hfar : Number.leb d (Number.of_Q maxDistance) = false ->
            scan_qr QR_SECRET db userId req now
            = (Failure (OutOfRange (Math_round d) maxDistance), db)).
  { intros Hfar. now rewrite scan_qr_unmarked, Hgeo, Hfar. }
  repeat split.
  - intros r Hr Hr0. unfold maxDistance, maxDistance_of. now rewrite Hr, Hr0.
  - intros r Hr Hr0. unfold maxDistance, maxDistance_of. now rewrite Hr, Hr0.
  - intros Hr. unfold maxDistance, maxDistance_of. now rewrite Hr.
  - intros Hnear. rewrite scan_qr_unmarked, Hgeo, Hnear.
    unfold mark_attendance. eexists _, _. split; [reflexivity|]. simpl. auto.
  - unfold Number.eqb, Number.leb, SFeqb, SFleb.
    now destruct (SFcompare d _) as [[]|].
  - exact Hfar.
  - intros Hnan. rewrite Hfar; [now rewrite Hnan | now rewrite Hnan].
Qed.

End PastTheChecks.

Lemma attendance_of_marked (db : Db) (a : Attendance) :
  attendance_of (set_attendance db (attendance db ++ [a]))
    (att_sessionId a) (att_studentId a) <> [].
Proof.
  intros H. apply attendance_of_nil with (a := a) in H.
  - apply H. split; reflexivity.
  - simpl. apply elem_of_app. right. apply list_elem_of_here.
Qed.

Lemma scan_qr_late {M : Math} (QR_SECRET : option string) (db : Db) (userId : string)
    (req : ScanRequest) (now : Z) (payload : QRPayload) :
  req_qrData req = Some payload ->
  verifyQRSignature QR_SECRET payload = true ->
  qr_expiresAt payload < now ->
  scan_qr QR_SECRET db userId req now = (Failure Expired, db).
Proof.
  intros Hparse Hsigned Hlate. unfold scan_qr. rewrite Hparse, Hsigned. simpl.
  destruct (Z.gtb_spec now (qr_expiresAt payload)); [reflexivity | lia].
Qed.

(** C1, as the code has it.  For a request that passes the parse, signature,
    expiry, session and enrollment checks, the scan fails with
    [AlreadyMarked] exactly when the [attendance] collection holds a document
    for the (session, student) pair, whatever its status; and after a
    successful scan, every further scan of the same token by the same student
    fails and leaves the database, hence the documents and the counter, as
    the first scan left them: with [AlreadyMarked] as long as the token has
    not expired. *)
Theorem duplicate_scan_is_rejected {M : Math} (QR_SECRET : option string) (db : Db)
    (userId : string) (req : ScanRequest) (now : Z) (payload : QRPayload)
    (session : Session) :
  req_qrData req = Some payload ->
  verifyQRSignature QR_SECRET payload = true ->
  now <= qr_expiresAt payload ->
  sessions db !! qr_sessionId payload = Some session ->
  active_enrollments db userId (qr_courseId payload) <> [] ->
  (fst (scan_qr QR_SECRET db userId req now) = Failure AlreadyMarked <->
   exists a, a ∈ attendance db /\ att_sessionId a = qr_sessionId payload
             /\ att_studentId a = userId) /\
  (forall ok db',
     scan_qr QR_SECRET db userId req now = (Success ok, db') ->
     forall req' now',
       req_qrData req' = Some payload ->
       exists e,
         scan_qr QR_SECRET db' userId req' now' = (Failure e, db') /\
         (now' <= qr_expiresAt payload -> e = AlreadyMarked)).
Proof.
  intros Hparse Hsigned Hlive Hsession Henrolled.
  pose proof (scan_qr_enrolled QR_SECRET db userId req now payload session
                Hparse Hsigned Hlive Hsession Henrolled) as Hscan.
  split.
  - rewrite Hscan.
    destruct (attendance_of db (qr_sessionId payload) userId) eqn:E; simpl.
    + pose proof (proj1 (attendance_of_nil _ _ _) E) as E'. split.
      * intros H. exfalso.
        destruct (verify_geolocation _ _ _) as [e|[lv d]] eqn:G.
        -- apply verify_geolocation_error in G as (z & q & ->). discriminate.
        -- discriminate.
      * intros (a & Ha & H1 & H2). exfalso. now apply (E' a Ha).
    + split; [|reflexivity]. intros _.
      apply limit_1_filter_cons in E as [Ha Hf].
      apply andb_true_iff in Hf as [H1 H2].
      apply String.eqb_eq in H1, H2. exists a. auto.
  - intros ok db' Hok req' now' Hparse'.
    destruct (Z.le_gt_cases now' (qr_expiresAt payload)) as [Hlive'|Hlate];
      [|exists Expired; split;
         [now apply (scan_qr_late _ _ _ _ _ payload) | lia]].
    exists AlreadyMarked. split; [|reflexivity].
    rewrite Hscan in Hok.
    destruct (attendance_of db (qr_sessionId payload) userId) eqn:E;
      simpl in Hok; [|discriminate].
    destruct (verify_geolocation _ _ _) as [e|[lv d]]; [discriminate|].
    unfold mark_attendance in Hok. injection Hok as _ <-.
    rewrite (scan_qr_enrolled QR_SECRET _ userId req' now' payload
               (increment_presentCount 1 session) Hparse' Hsigned Hlive').
    + simpl.
      pose proof (attendance_of_marked db
                    (attendanceData_of payload userId req now lv d)) as N.
      unfold attendance_of in *. simpl in *.
      destruct (take 1 (List.filter _ (attendance db ++ _)));
        [contradiction | reflexivity].
    + simpl. rewrite lookup_alter_eq, Hsession. reflexivity.
    + exact Henrolled.
Qed.

Lemma scan_qr_expired_iff {M : Math} (QR_SECRET : option string) (db : Db)
    (userId : string) (req : ScanRequest) (now : Z) (payload : QRPayload) :
  req_qrData req = Some payload ->
  verifyQRSignature QR_SECRET payload = true ->
  fst (scan_qr QR_SECRET db userId req now) = Failure Expired <->
  qr_expiresAt payload < now.
Proof.
  intros Hparse Hsigned. unfold scan_qr. rewrite Hparse, Hsigned. simpl.
  destruct (Z.gtb_spec now (qr_expiresAt payload)) as [Hgt|Hle]; simpl.
  - split; [lia | reflexivity].
  - split; [|lia]. intros H. exfalso. unfold mark_attendance in H.
    repeat case_match; simpl in H; try discriminate.
    match goal with
    | G : verify_geolocation _ _ _ = inl _ |- _ =>
        apply verify_geolocation_error in G as (z & q & ->)
    end.
    discriminate.
Qed.

(** C2, as the code has it.  For a token issued by [generateQRPayload], the
    scan path answers [Expired] exactly when the current time is strictly
    greater than [expiresAt]; at the instant [expiresAt] itself the token is
    not yet expired; and once a scan is answered [Expired], so is every
    later one. *)
Theorem expiry_check_is_strict {M : Math} (QR_SECRET : option string) (issuedAt : Z)
    (sid cid fid : string) (loc : option Location) (expiresIn : option Z)
    (db : Db) (userId : string) (req : ScanRequest) :
  let token := generateQRPayload QR_SECRET issuedAt sid cid fid loc expiresIn in
  req_qrData req = Some token ->
  (forall now,
     fst (scan_qr QR_SECRET db userId req now) = Failure Expired <->
     qr_expiresAt token < now) /\
  fst (scan_qr QR_SECRET db userId req (qr_expiresAt token))
    <> Failure Expired /\
  (forall now now', now <= now' ->
     fst (scan_qr QR_SECRET db userId req now) = Failure Expired ->
     fst (scan_qr QR_SECRET db userId req now') = Failure Expired).
Proof.
  intros token Hparse.
  assert (Hiff : forall now,
            fst (scan_qr QR_SECRET db userId req now) = Failure Expired <->
            qr_expiresAt token < now).
  { intros now. apply scan_qr_expired_iff; [exact Hparse|].
    apply verify_issued. }
  split; [exact Hiff | split].
  - rewrite Hiff. lia.
  - intros now now' Hle. rewrite !Hiff. lia.
Qed.

(** C4 on the code.  The stop handler neither compares the caller with the
    session's faculty nor answers 404: a caller who does not own the session
    stops it and deletes its token, and a session id that does not exist
    gets the handler's 500 response. *)
Theorem stop_session_has_no_owner_check :
  let db' := snd (stop_session Scenario.db0 "mallory" "sess1" 1700000060000) in
  ses_facultyId Scenario.session0 <> "mallory"%string /\
  fst (stop_session Scenario.db0 "mallory" "sess1" 1700000060000)
    = Success tt /\
  ses_isActive <$> (sessions db' !! "sess1"%string) = Some false /\
  ses_endedAt <$> (sessions db' !! "sess1"%string)
    = Some (Some 1700000060000) /\
  activeQRs db' !! "sess1"%string = None /\
  stop_session Scenario.db0 "fac1" "sess9" 1700000060000
    = (Failure InternalError, Scenario.db0).
Proof. vm_compute. repeat split; congruence. Qed.

(** The caller is not an input of the stop handler's outcome at all. *)
Lemma stop_session_ignores_caller (db : Db) (u v sessionId : string) (now : Z) :
  stop_session db u sessionId now = stop_session db v sessionId now.
Proof. reflexivity. Qed.

(** ** Manual reconciliation *)

Lemma Status_eqb_eq (a b : Status) : Status_eqb a b = true <-> a = b.
Proof. destruct a, b; simpl; split; congruence. Qed.

Lemma Set_add_all_elem (l : list string) : forall (acc : list string) (x : string),
  x ∈ foldl Set_add acc l <-> x ∈ acc \/ x ∈ l.
Proof.
  induction l as [|y l IH]; intros acc x; simpl.
  - rewrite elem_of_nil. tauto.
  - rewrite IH, elem_of_cons. unfold Set_add.
    destruct (bool_decide_reflect (y ∈ acc)) as [Hy|Hy].
    + split; [tauto|]. intros [H|[->|H]]; tauto.
    + rewrite elem_of_app, list_elem_of_singleton. tauto.
Qed.

Lemma new_Set_elem (l : list string) (x : string) : x ∈ new_Set l <-> x ∈ l.
Proof.
  unfold new_Set. rewrite Set_add_all_elem, elem_of_nil. tauto.
Qed.

Lemma filter_elem {A : Type} (f : A -> bool) (l : list A) (x : A) :
  x ∈ List.filter f l <-> x ∈ l /\ f x = true.
Proof. rewrite !list_elem_of_In. apply filter_In. Qed.

Lemma filter_nil {A : Type} (f : A -> bool) (l : list A) :
  (forall x, x ∈ l -> f x = false) -> List.filter f l = [].
Proof.
  induction l as [|y l IH]; intros H; simpl; [reflexivity|].
  rewrite (H y (list_elem_of_here _ _)). apply IH.
  intros x Hx. apply H. now apply list_elem_of_further.
Qed.

Lemma session_attendance_elem (db : Db) (sessionId : string) i a :
  (i, a) ∈ session_attendance db sessionId <->
  attendance db !! i = Some a /\ att_sessionId a = sessionId.
Proof.
  unfold session_attendance. rewrite filter_elem, elem_of_lookup_imap. simpl.
  rewrite String.eqb_eq. split.
  - intros [(j & b & [= -> ->] & H) Hs]. auto.
  - intros [H Hs]. split; [exists i, a; auto | exact Hs].
Qed.

Section Reconciliation.

Variables (db : Db) (sessionId : string).

Lemma currentPresentIds_elem (x : string) :
  x ∈ currentPresentIds_of db sessionId
  <-> present_in (attendance db) sessionId x.
Proof.
  unfold currentPresentIds_of.
  rewrite new_Set_elem, list_elem_of_In, in_map_iff.
  unfold present_in. split.
  - intros ([i a] & Hx & Hin). simpl in Hx.
    apply list_elem_of_In, filter_elem in Hin as [Hin Hp]. simpl in Hp.
    apply session_attendance_elem in Hin as [Hi Hs].
    apply Status_eqb_eq in Hp. exists i, a. auto.
  - intros (i & a & Hi & Hs & Hx & Hp). exists (i, a). simpl.
    split; [exact Hx|]. apply list_elem_of_In, filter_elem. simpl. split.
    + apply session_attendance_elem. auto.
    + now apply Status_eqb_eq.
Qed.

Lemma find_present_Some (x : string) existing :
  List.find (is_present_of x) (session_attendance db sessionId)
    = Some existing ->
  attendance db !! fst existing = Some (snd existing)
  /\ att_sessionId (snd existing) = sessionId
  /\ att_studentId (snd existing) = x
  /\ att_status (snd existing) = present.
Proof.
  intros H. apply find_some in H as [Hin Hp]. destruct existing as [i a].
  apply list_elem_of_In, session_attendance_elem in Hin as [Hi Hs].
  unfold is_present_of in Hp. simpl in *.
  apply andb_true_iff in Hp as [Hx Hp].
  apply String.eqb_eq in Hx. apply Status_eqb_eq in Hp. auto.
Qed.

Lemma find_present_is_Some (x : string) :
  present_in (attendance db) sessionId x ->
  is_Some (List.find (is_present_of x) (session_attendance db sessionId)).
Proof.
  intros (i & a & Hi & Hs & Hx & Hp).
  destruct (List.find _ _) eqn:E; [eauto|].
  exfalso. apply find_none with (x := (i, a)) in E.
  - unfold is_present_of in E. simpl in E. rewrite Hx, Hp in E.
    now rewrite String.eqb_refl in E.
  - apply list_elem_of_In, session_attendance_elem. auto.
Qed.

Lemma removal_hits_true (xs : list string) (j : nat) :
  removal_hits (session_attendance db sessionId) xs j = true <->
  exists x a, x ∈ xs /\
    List.find (is_present_of x) (session_attendance db sessionId)
      = Some (j, a).
Proof.
  unfold removal_hits. rewrite existsb_exists. split.
  - intros (x & Hx & H). destruct (List.find _ _) as [[i a]|] eqn:E;
      [|discriminate].
    simpl in H. apply Nat.eqb_eq in H as ->.
    exists x, a. split; [now apply list_elem_of_In | exact E].
  - intros (x & a & Hx & E). exists x.
    split; [now apply list_elem_of_In|]. rewrite E. simpl.
    apply Nat.eqb_refl.
Qed.

End Reconciliation.

Lemma foldl_add_docs (f : string -> Attendance) (xs : list string) :
  forall docs : list Attendance,
  foldl (fun docs x => docs ++ [f x]) docs xs = docs ++ map f xs.
Proof.
  induction xs as [|x xs IH]; intros docs; simpl.
  - now rewrite app_nil_r.
  - rewrite IH, <- app_assoc. reflexivity.
Qed.

Lemma foldl_remove_one_lookup (snapshot : list (nat * Attendance)) (now : Z)
    (xs : list string) : forall (docs : list Attendance) (j : nat),
  foldl (remove_one snapshot now) docs xs !! j =
  if removal_hits snapshot xs j then mark_absent now <$> docs !! j
  else docs !! j.
Proof.
  induction xs as [|x xs IH]; intros docs j; [reflexivity|].
  cbn [foldl]. rewrite IH. unfold removal_hits. cbn [existsb].
  fold (removal_hits snapshot xs j). unfold remove_one.
  destruct (List.find (is_present_of x) snapshot) as [[i a]|]; simpl;
    [|reflexivity].
  destruct (Nat.eqb_spec i j) as [->|Hne]; simpl.
  - rewrite list_lookup_alter_eq.
    destruct (removal_hits snapshot xs j); [|reflexivity].
    now destruct (docs !! j).
  - now rewrite list_lookup_alter_ne.
Qed.

Lemma manual_attendance_owner (db : Db) (userId sessionId : string)
    (ids : list string) (now : Z) (session : Session) :
  sessions db !! sessionId = Some session ->
  ses_facultyId session = userId ->
  manual_attendance db userId sessionId ids now =
  (Success {| added := length (toAdd_of db sessionId ids);
              removed := length (toRemove_of db sessionId ids) |},
   let db1 := set_attendance db (reconciled_docs db sessionId session ids now) in
   let delta := Z.of_nat (length (toAdd_of db sessionId ids))
                - Z.of_nat (length (toRemove_of db sessionId ids)) in
   if negb (delta =? 0)
   then set_sessions db1
          (alter (increment_presentCount delta) sessionId (sessions db1))
   else db1).
Proof.
  intros Hs Hf. unfold manual_attendance. rewrite Hs, Hf, String.eqb_refl.
  reflexivity.
Qed.

Lemma manual_attendance_Success (db : Db) (userId sessionId : string)
    (ids : list string) (now : Z) r db' :
  manual_attendance db userId sessionId ids now = (Success r, db') ->
  exists session, sessions db !! sessionId = Some session
                  /\ ses_facultyId session = userId.
Proof.
  unfold manual_attendance. intros H.
  destruct (sessions db !! sessionId) as [session|]; [|discriminate].
  destruct (String.eqb_spec (ses_facultyId session) userId) as [E|E];
    [|discriminate].
  eauto.
Qed.

Lemma reconciled_present (db : Db) (sessionId : string) (session : Session)
    (ids : list string) (now : Z) :
  one_present_each (attendance db) sessionId ->
  forall x, present_in (reconciled_docs db sessionId session ids now)
              sessionId x <-> x ∈ ids.
Proof.
  intros Hone x. unfold reconciled_docs, present_in.
  rewrite foldl_add_docs.
  assert (Hadd : forall y, y ∈ toAdd_of db sessionId ids <->
            y ∈ ids /\ ~ present_in (attendance db) sessionId y).
  { intros y. unfold toAdd_of, Set_has. rewrite filter_elem.
    rewrite negb_true_iff, bool_decide_eq_false, currentPresentIds_elem.
    reflexivity. }
  assert (Hrem : forall y, y ∈ toRemove_of db sessionId ids <->
            present_in (attendance db) sessionId y /\ ~ y ∈ ids).
  { intros y. unfold toRemove_of, Set_has. rewrite filter_elem.
    rewrite negb_true_iff, bool_decide_eq_false, currentPresentIds_elem,
      new_Set_elem.
    reflexivity. }
  split.
  - intros (j & b & Hj & Hs & Hx & Hp).
    rewrite foldl_remove_one_lookup in Hj.
    destruct (removal_hits _ _ j) eqn:Hhit.
    { destruct (_ !! j) as [c|]; [|discriminate].
      injection Hj as <-. discriminate. }
    destruct (decide (j < length (attendance db))%nat) as [Hlt|Hge].
    + rewrite lookup_app_l in Hj by exact Hlt.
      destruct (decide (x ∈ ids)) as [Hin|Hnin]; [exact Hin|].
      exfalso.
      assert (Hpx : present_in (attendance db) sessionId x)
        by (exists j, b; auto).
      destruct (find_present_is_Some db sessionId x Hpx) as [[i a] E].
      destruct (find_present_Some db sessionId x _ E) as (Hi & Hsa & Hxa & Hpa).
      simpl in *.
      assert (i = j) by (apply (Hone i j a b); congruence). subst i.
      assert (Hhit' : removal_hits (session_attendance db sessionId)
                        (toRemove_of db sessionId ids) j = true).
      { apply removal_hits_true. exists x, a. split; [|exact E].
        apply Hrem. auto. }
      congruence.
    + rewrite lookup_app_r in Hj by lia.
      apply list_elem_of_lookup_2 in Hj.
      apply list_elem_of_In, in_map_iff in Hj as (y & <- & Hy).
      apply list_elem_of_In, Hadd in Hy as [Hy _]. simpl in Hx. now subst.
  - intros Hin.
    destruct (decide (x ∈ currentPresentIds_of db sessionId)) as [Hp|Hp].
    + apply currentPresentIds_elem in Hp as (i & a & Hi & Hs & Hx & Hp).
      exists i, a. split; [|auto].
      rewrite foldl_remove_one_lookup.
      destruct (removal_hits _ _ i) eqn:Hhit.
      * exfalso. apply removal_hits_true in Hhit as (y & c & Hy & E).
        destruct (find_present_Some db sessionId y _ E) as (Hi' & _ & Hy' & _).
        simpl in *. apply Hrem in Hy as [_ Hy]. apply Hy.
        rewrite Hi in Hi'. injection Hi' as <-. now subst.
      * now apply lookup_app_l_Some.
    + assert (Hx : x ∈ toAdd_of db sessionId ids).
      { apply Hadd. split; [exact Hin|].
        now rewrite <- currentPresentIds_elem. }
      apply list_elem_of_In, (in_map (fun y => manual_record sessionId session y now))
        in Hx.
      apply list_elem_of_In, list_elem_of_lookup_1 in Hx as [k Hk].
      exists (length (attendance db) + k)%nat, (manual_record sessionId session x now).
      split; [|auto].
      rewrite foldl_remove_one_lookup.
      destruct (removal_hits _ _ _) eqn:Hhit.
      * exfalso. apply removal_hits_true in Hhit as (y & c & Hy & E).
        destruct (find_present_Some db sessionId y _ E) as (Hi' & _).
        simpl in Hi'. apply lookup_lt_Some in Hi'. lia.
      * rewrite lookup_app_r by lia.
        now replace (length (attendance db) + k - length (attendance db))%nat
          with k by lia.
Qed.

Lemma toAdd_of_nil (db : Db) (sessionId : string) (ids : list string) :
  (forall x, x ∈ ids -> present_in (attendance db) sessionId x) ->
  toAdd_of db sessionId ids = [].
Proof.
  intros H. apply filter_nil. intros x Hx. unfold Set_has.
  rewrite negb_false_iff, bool_decide_eq_true, currentPresentIds_elem. auto.
Qed.

Lemma toRemove_of_nil (db : Db) (sessionId : string) (ids : list string) :
  (forall x, present_in (attendance db) sessionId x -> x ∈ ids) ->
  toRemove_of db sessionId ids = [].
Proof.
  intros H. apply filter_nil. intros x Hx. unfold Set_has.
  rewrite negb_false_iff, bool_decide_eq_true, new_Set_elem.
  apply H. now apply currentPresentIds_elem.
Qed.

Lemma set_attendance_same (db : Db) : set_attendance db (attendance db) = db.
Proof. now destruct db. Qed.

(** X15.  On a state that has at most one [present] document per student of
    the session, the manual handler is a reconciliation: after it the students
    marked present are those of the request, and the same request again adds
    nothing, removes nothing and changes nothing. *)
Theorem manual_attendance_idempotent (db : Db) (userId sessionId : string)
    (ids : list string) (now now' : Z) (r : ManualSuccess) (db' : Db) :
  one_present_each (attendance db) sessionId ->
  manual_attendance db userId sessionId ids now = (Success r, db') ->
  (forall x, present_in (attendance db') sessionId x <-> x ∈ ids) /\
  manual_attendance db' userId sessionId ids now'
  = (Success {| added := 0; removed := 0 |}, db').
Proof.
  intros Hone H.
  destruct (manual_attendance_Success _ _ _ _ _ _ _ H) as (session & Hs & Hf).
  rewrite (manual_attendance_owner _ _ _ _ _ session Hs Hf) in H.
  injection H as _ Hdb'. cbv zeta in Hdb'.
  pose proof (reconciled_present db sessionId session ids now Hone) as Hpres.
  assert (Hatt : attendance db' = reconciled_docs db sessionId session ids now)
    by (subst db'; now destruct (negb _)).
  assert (Hses : exists session', sessions db' !! sessionId = Some session'
                                  /\ ses_facultyId session' = userId).
  { subst db'. destruct (negb _); simpl.
    - rewrite lookup_alter_eq, Hs. simpl. eauto.
    - eauto. }
  destruct Hses as (session' & Hs' & Hf').
  rewrite <- Hatt in Hpres. split; [exact Hpres|].
  rewrite (manual_attendance_owner _ _ _ _ _ session' Hs' Hf').
  unfold reconciled_docs.
  rewrite toAdd_of_nil by (intros x; apply Hpres).
  rewrite toRemove_of_nil by (intros x; apply Hpres).
  simpl. now rewrite set_attendance_same.
Qed.

(** ** The one-present-document invariant *)

Lemma scan_qr_Success {M : Math} (QR_SECRET : option string) (db : Db) (userId : string)
    (req : ScanRequest) (now : Z) (ok : ScanSuccess) (db' : Db) :
  scan_qr QR_SECRET db userId req now = (Success ok, db') ->
  exists payload lv d,
    req_qrData req = Some payload
    /\ attendance_of db (qr_sessionId payload) userId = []
    /\ attendance db'
       = attendance db ++ [attendanceData_of payload userId req now lv d].
Proof.
  unfold scan_qr, mark_attendance. intros H.
  repeat case_match; simplify_eq.
  eexists _, _, _. split; [reflexivity|]. split; [|reflexivity].
  match goal with
  | E : negb (snapshot_empty ?l) = false |- ?l = [] =>
      destruct l; [reflexivity | discriminate]
  end.
Qed.

(** X9.  A scan keeps the invariant that a (session, student) pair has at
    most one [present] document. *)
Lemma scan_qr_keeps_one_present {M : Math} (QR_SECRET : option string) (db : Db)
    (userId : string) (req : ScanRequest) (now : Z) (ok : ScanSuccess)
    (db' : Db) (sessionId : string) :
  one_present_each (attendance db) sessionId ->
  scan_qr QR_SECRET db userId req now = (Success ok, db') ->
  one_present_each (attendance db') sessionId.
Proof.
  intros Hone H.
  apply scan_qr_Success in H as (payload & lv & d & _ & Hnew & ->).
  pose proof (proj1 (attendance_of_nil _ _ _) Hnew) as Hnone.
  intros i j a b Hi Hj Hsa Hsb Hx Hpa Hpb.
  apply lookup_app_Some in Hi as [Hi|[Hli Hi]];
    apply lookup_app_Some in Hj as [Hj|[Hlj Hj]].
  - exact (Hone i j a b Hi Hj Hsa Hsb Hx Hpa Hpb).
  - exfalso. apply list_lookup_singleton_Some in Hj as [_ <-].
    apply list_elem_of_lookup_2 in Hi. apply (Hnone a Hi).
    simpl in *. split; congruence.
  - exfalso. apply list_lookup_singleton_Some in Hi as [_ <-].
    apply list_elem_of_lookup_2 in Hj. apply (Hnone b Hj).
    simpl in *. split; congruence.
  - apply list_lookup_singleton_Some in Hi as [Hi _].
    apply list_lookup_singleton_Some in Hj as [Hj _]. lia.
Qed.

Lemma reconciled_docs_lookup (db : Db) (sessionId : string) (session : Session)
    (ids : list string) (now : Z) (j : nat) (b : Attendance) :
  reconciled_docs db sessionId session ids now !! j = Some b ->
  (exists a, attendance db !! j = Some a /\ (b = a \/ b = mark_absent now a))
  \/ (exists k y, j = (length (attendance db) + k)%nat
                  /\ toAdd_of db sessionId ids !! k = Some y
                  /\ b = manual_record sessionId session y now).
Proof.
  unfold reconciled_docs. rewrite foldl_add_docs, foldl_remove_one_lookup.
  intros H.
  destruct (decide (j < length (attendance db))%nat) as [Hlt|Hge].
  - left. rewrite lookup_app_l in H by exact Hlt.
    destruct (attendance db !! j) as [a|] eqn:E.
    + exists a. split; [reflexivity|].
      destruct (removal_hits _ _ j); simpl in H; injection H as <-; auto.
    + destruct (removal_hits _ _ j); discriminate.
  - right. rewrite lookup_app_r in H by lia.
    exists (j - length (attendance db))%nat.
    destruct (map _ _ !! _) as [c|] eqn:E;
      [|destruct (removal_hits _ _ j); discriminate].
    assert (Hb : b = c).
    { destruct (removal_hits _ _ j) eqn:Hhit; simpl in H; [|congruence].
      exfalso. apply removal_hits_true in Hhit as (y & a & _ & F).
      apply find_present_Some in F as (F & _). simpl in F.
      apply lookup_lt_Some in F. lia. }
    subst c. change (map ?f ?l) with (f <$> l) in E.
    rewrite list_lookup_fmap in E.
    destruct (toAdd_of db sessionId ids !! _) as [y|] eqn:F; [|discriminate].
    injection E as <-. exists y. split; [lia | auto].
Qed.

(** X14.  A manual reconciliation whose request names no student twice keeps
    the invariant that a (session, student) pair has at most one [present]
    document. *)
Lemma manual_attendance_keeps_one_present (db : Db) (userId sessionId : string)
    (ids : list string) (now : Z) (r : ManualSuccess) (db' : Db)
    (sessionId' : string) :
  List.NoDup ids ->
  one_present_each (attendance db) sessionId' ->
  manual_attendance db userId sessionId ids now = (Success r, db') ->
  one_present_each (attendance db') sessionId'.
Proof.
  intros Hnodup Hone H.
  destruct (manual_attendance_Success _ _ _ _ _ _ _ H) as (session & Hs & Hf).
  rewrite (manual_attendance_owner _ _ _ _ _ session Hs Hf) in H.
  injection H as _ Hdb'. cbv zeta in Hdb'.
  assert (Hatt : attendance db' = reconciled_docs db sessionId session ids now)
    by (subst db'; now destruct (negb _)).
  rewrite Hatt. clear Hdb' Hatt.
  assert (Hnew : forall k y, toAdd_of db sessionId ids !! k = Some y ->
            ~ present_in (attendance db) sessionId y).
  { intros k y Hk. apply list_elem_of_lookup_2 in Hk.
    unfold toAdd_of, Set_has in Hk. apply filter_elem in Hk as [_ Hk].
    now rewrite negb_true_iff, bool_decide_eq_false, currentPresentIds_elem
      in Hk. }
  assert (Hdistinct : List.NoDup (toAdd_of db sessionId ids))
    by (apply List.NoDup_filter; exact Hnodup).
  intros i j a b Hi Hj Hsa Hsb Hx Hpa Hpb.
  apply reconciled_docs_lookup in Hi as [(a0 & Hi & Ha) | (k & y & -> & Hk & ->)];
    apply reconciled_docs_lookup in Hj
      as [(b0 & Hj & Hb) | (k' & y' & -> & Hk' & ->)].
  - destruct Ha as [-> | ->]; [|discriminate].
    destruct Hb as [-> | ->]; [|discriminate].
    exact (Hone i j a0 b0 Hi Hj Hsa Hsb Hx Hpa Hpb).
  - exfalso. destruct Ha as [-> | ->]; [|discriminate]. simpl in *.
    apply (Hnew k' y' Hk'). exists i, a0. subst. auto.
  - exfalso. destruct Hb as [-> | ->]; [|discriminate]. simpl in *.
    apply (Hnew k y Hk). exists j, b0. subst. auto.
  - simpl in Hx. subst y'. f_equal.
    apply NoDup_ListNoDup in Hdistinct.
    exact (NoDup_lookup _ _ _ _ Hdistinct Hk Hk').
Qed.

(** C6 on the code.  A request that names a student twice writes two
    [present] documents for that student and adds 2 to the counter; from
    then on a request with an empty list marks one of them absent each time,
    so that the same request, repeated, again reports one removal and again
    lowers the counter. *)
Theorem manual_attendance_duplicate_ids :
  let presentCount (db : Db) :=
    ses_presentCount <$> (sessions db !! "sess1"%string) in
  let call1 :=
    manual_attendance Scenario.db0 "fac1" "sess1" ["stu1"; "stu1"]%string 10 in
  let call2 := manual_attendance (snd call1) "fac1" "sess1" [] 20 in
  let call3 := manual_attendance (snd call2) "fac1" "sess1" [] 30 in
  fst call1 = Success {| added := 2; removed := 0 |} /\
  map (fun a => (att_studentId a, att_status a)) (attendance (snd call1))
    = [("stu1"%string, present); ("stu1"%string, present)] /\
  presentCount (snd call1) = Some 2 /\
  fst call2 = Success {| added := 0; removed := 1 |} /\
  presentCount (snd call2) = Some 1 /\
  fst call3 = Success {| added := 0; removed := 1 |} /\
  map (fun a => (att_studentId a, att_status a)) (attendance (snd call3))
    = [("stu1"%string, absent); ("stu1"%string, absent)] /\
  presentCount (snd call3) = Some 0.
Proof. vm_compute. repeat split; reflexivity. Qed.

(** ** Join codes *)

Lemma list_ascii_of_string_append (s t : string) :
  list_ascii_of_string (s +:+ t)
  = list_ascii_of_string s ++ list_ascii_of_string t.
Proof. induction s as [|c s IH]; simpl; [reflexivity | now rewrite IH]. Qed.

Lemma courses_with_joinCode_nil (db : Db) (joinCode : string) :
  courses_with_joinCode db joinCode = [] <-> ~ joinCode_taken db joinCode.
Proof.
  unfold courses_with_joinCode, joinCode_taken. rewrite limit_1_filter_nil.
  split.
  - intros H (c & Hc & Hj). specialize (H c Hc). rewrite Hj in H.
    now rewrite String.eqb_refl in H.
  - intros H c Hc. destruct (crs_joinCode c) as [j|] eqn:Hj; [|reflexivity].
    apply String.eqb_neq. intros ->. apply H. now exists c.
Qed.

Lemma courses_with_joinCode_cons (db : Db) (joinCode : string) c l :
  courses_with_joinCode db joinCode = c :: l -> joinCode_taken db joinCode.
Proof.
  unfold courses_with_joinCode. intros H.
  apply limit_1_filter_cons in H as [Hc Hj]. exists c. split; [exact Hc|].
  destruct (crs_joinCode c) as [j|]; [|discriminate].
  apply String.eqb_eq in Hj. now subst.
Qed.

Lemma charAt_chars (k : Z) :
  0 <= k <= 31 ->
  exists c, charAt chars k = String c EmptyString
            /\ c ∈ list_ascii_of_string chars.
Proof.
  intros Hk. unfold charAt.
  destruct (Z.ltb_spec k 0) as [Hneg|_]; [lia|].
  assert (Hn : (Z.to_nat k < 32)%nat) by lia.
  clear Hk. revert Hn. generalize (Z.to_nat k). intros n Hn.
  do 32 (destruct n as [|n];
         [eexists; split; [reflexivity |];
          simpl; repeat first [apply list_elem_of_here
                              | apply list_elem_of_further] |]).
  lia.
Qed.

Section JoinCodeFacts.

Variable random : nat -> Q.

(** [Math.random ()] returns a number in the interval [0, 1). *)
Hypothesis random_range : forall n, (0 <= random n /\ random n < 1)%Q.

Lemma random_index (n : nat) :
  0 <= Qfloor (random n * inject_Z (Z.of_nat (String.length chars))) <= 31.
Proof.
  destruct (random_range n) as [H0 H1].
  change (inject_Z (Z.of_nat (String.length chars))) with (32 # 1)%Q.
  split.
  - change 0 with (Qfloor 0). apply Qfloor_resp_le.
    apply Qmult_le_0_compat; [exact H0 | discriminate].
  - assert (H : (inject_Z (Qfloor (random n * (32 # 1))) < inject_Z 32)%Q).
    { eapply Qle_lt_trans; [apply Qfloor_le|].
      change (inject_Z 32) with (1 * (32 # 1))%Q.
      apply Qmult_lt_compat_r; [reflexivity | exact H1]. }
    rewrite <- Zlt_Qlt in H. lia.
Qed.

Lemma generateJoinCode_loop_spec (i : nat) : forall (n : nat) (code : string),
  over_chars code ->
  String.length (generateJoinCode_loop random i n code)
    = (String.length code + i)%nat
  /\ over_chars (generateJoinCode_loop random i n code).
Proof.
  induction i as [|i IH]; intros n code Hcode; cbn [generateJoinCode_loop].
  - split; [lia | exact Hcode].
  - destruct (charAt_chars _ (random_index n)) as (c & Hc & Hin).
    rewrite Hc.
    destruct (IH (S n) (code +:+ String c EmptyString)) as [Hlen Hover].
    + unfold over_chars. rewrite list_ascii_of_string_append.
      apply Forall_app. split; [exact Hcode|]. simpl. now constructor.
    + split; [|exact Hover]. rewrite Hlen, append_length. simpl. lia.
Qed.

Lemma generateJoinCode_spec (n : nat) :
  String.length (generateJoinCode random n) = 6%nat
  /\ over_chars (generateJoinCode random n).
Proof.
  unfold generateJoinCode.
  destruct (generateJoinCode_loop_spec 6 n EmptyString) as [H1 H2].
  - constructor.
  - split; [exact H1 | exact H2].
Qed.

Lemma unique_joinCode_result (db : Db) (fuel : nat) :
  forall (n : nat) (joinCode : string),
  unique_joinCode random fuel db n = Some joinCode ->
  exists k, (k < fuel)%nat
    /\ joinCode = generateJoinCode random (n + 6 * k)
    /\ ~ joinCode_taken db joinCode
    /\ forall j, (j < k)%nat ->
         joinCode_taken db (generateJoinCode random (n + 6 * j)).
Proof.
  induction fuel as [|fuel IH]; intros n joinCode H; simpl in H;
    [discriminate|].
  destruct (courses_with_joinCode db (generateJoinCode random n)) eqn:E;
    simpl in H.
  - injection H as <-. exists 0%nat.
    rewrite Nat.mul_0_r, Nat.add_0_r.
    split; [lia | split; [reflexivity | split]].
    + now apply courses_with_joinCode_nil.
    + intros j Hj. lia.
  - apply courses_with_joinCode_cons in E.
    destruct (IH _ _ H) as (k & Hk & Hcode & Hfree & Hbefore).
    exists (S k).
    replace (n + 6 * S k)%nat with (n + 6 + 6 * k)%nat by lia.
    split; [lia | split; [exact Hcode | split; [exact Hfree|]]].
    intros [|j] Hj.
    + now rewrite Nat.mul_0_r, Nat.add_0_r.
    + replace (n + 6 * S j)%nat with (n + 6 + 6 * j)%nat by lia.
      apply Hbefore. lia.
Qed.

Lemma unique_joinCode_returns (db : Db) (k : nat) :
  forall (n fuel : nat),
  ~ joinCode_taken db (generateJoinCode random (n + 6 * k)) ->
  (k < fuel)%nat ->
  is_Some (unique_joinCode random fuel db n).
Proof.
  induction k as [|k IH]; intros n [|fuel] Hfree Hfuel; try lia; simpl.
  - rewrite Nat.mul_0_r, Nat.add_0_r in Hfree.
    apply courses_with_joinCode_nil in Hfree. rewrite Hfree. simpl. eauto.
  - destruct (courses_with_joinCode db (generateJoinCode random n)); simpl;
      [eauto|].
    apply IH; [|lia].
    now replace (n + 6 + 6 * k)%nat with (n + 6 * S k)%nat by lia.
Qed.

End JoinCodeFacts.

(** C8.  With [Math.random ()] in [0, 1), [generateJoinCode] returns six
    characters of the alphabet; the uniqueness loop returns the first
    generated code that no course carries (so none of the active courses
    either), having generated again after each code that some course
    carries; and it does return as soon as one generated code is free. *)
Theorem joinCode_is_six_chars_and_unique (random : nat -> Q) (db : Db) :
  (forall n, (0 <= random n /\ random n < 1)%Q) ->
  (forall n, String.length (generateJoinCode random n) = 6%nat
             /\ over_chars (generateJoinCode random n)) /\
  (forall fuel n joinCode,
     unique_joinCode random fuel db n = Some joinCode ->
     String.length joinCode = 6%nat /\ over_chars joinCode /\
     (forall c, c ∈ courses db -> crs_isActive c = true ->
                crs_joinCode c <> Some joinCode) /\
     exists k, (k < fuel)%nat
       /\ joinCode = generateJoinCode random (n + 6 * k)
       /\ ~ joinCode_taken db joinCode
       /\ forall j, (j < k)%nat ->
            joinCode_taken db (generateJoinCode random (n + 6 * j))) /\
  (forall n k fuel,
     ~ joinCode_taken db (generateJoinCode random (n + 6 * k)) ->
     (k < fuel)%nat ->
     is_Some (unique_joinCode random fuel db n)).
Proof.
  intros Hrange. split; [|split].
  - intros n. now apply generateJoinCode_spec.
  - intros fuel n joinCode H.
    destruct (unique_joinCode_result random db fuel n joinCode H)
      as (k & Hk & Hcode & Hfree & Hbefore).
    destruct (generateJoinCode_spec random Hrange (n + 6 * k)) as [Hlen Hover].
    rewrite <- Hcode in Hlen, Hover.
    split; [exact Hlen | split; [exact Hover | split]].
    + intros c Hc _ Hj. apply Hfree. now exists c.
    + exists k. auto.
  - intros n k fuel Hfree Hfuel.
    now apply (unique_joinCode_returns random db k).
Qed.

(** ** The running example, step by step *)

Module ScenarioFacts.
Import Scenario.

Lemma token_signed : verifyQRSignature QR_SECRET token = true.
Proof. vm_compute. reflexivity. Qed.

Lemma token_expiry : qr_expiresAt token = 1700000300000.
Proof. reflexivity. Qed.

Lemma session_found : sessions db0 !! qr_sessionId token = Some session0.
Proof. vm_compute. reflexivity. Qed.

Lemma student_enrolled :
  active_enrollments db0 "stu1" (qr_courseId token) <> [].
Proof. vm_compute. discriminate. Qed.

Lemma student_unmarked : attendance_of db0 (qr_sessionId token) "stu1" = [].
Proof. reflexivity. Qed.

(** Until the token expires, a first scan without coordinates is accepted. *)
Lemma blind_scan_accepted (now : Z) :
  now <= qr_expiresAt token ->
  exists ok db',
    scan_qr QR_SECRET db0 "stu1" scan_blind now = (Success ok, db').
Proof.
  intros Hlive.
  rewrite (scan_qr_unmarked QR_SECRET db0 "stu1" scan_blind now token session0
             eq_refl token_signed Hlive session_found student_enrolled
             student_unmarked).
  rewrite verify_geolocation_skipped by (left; reflexivity).
  unfold mark_attendance. eexists _, _. reflexivity.
Qed.

(** With the [Math] of the examples, the scan from (12.0005, 77.0000) is
    7824647346914629 * 2^-47 = 55.5974633223473 meters away from the class,
    which is more than 50 and rounds to 56. *)
Lemma far_distance :
  let d := calculateDistance (Number.of_Q (120005 # 10000)) (Number.of_Q 77)
             (Number.of_Q (loc_latitude geofence))
             (Number.of_Q (loc_longitude geofence)) in
  d = S754_finite false 7824647346914629 (-47) /\
  Number.leb d (Number.of_Q 50) = false /\
  Math_round d = Some 56.
Proof. vm_compute. repeat split; reflexivity. Qed.

(** The scan from (12.0003, 77.0000) is 4694788408132100 * 2^-47, about
    33.358478, meters away: at most 50, and rounded to 33. *)
Lemma near_distance :
  let d := calculateDistance (Number.of_Q (120003 # 10000)) (Number.of_Q 77)
             (Number.of_Q (loc_latitude geofence))
             (Number.of_Q (loc_longitude geofence)) in
  d = S754_finite false 4694788408132100 (-47) /\
  Number.leb d (Number.of_Q 50) = true /\
  Math_round d = Some 33.
Proof. vm_compute. repeat split; reflexivity. Qed.

End ScenarioFacts.

(** ** Instances on the running example *)

(** The claim C1 as stated fails: after the faculty has marked the student
    present and then absent by hand, no [present] document exists for the
    pair, and the student's scan is still answered [AlreadyMarked]. *)
Lemma scan_after_manual_removal_is_AlreadyMarked :
  let db1 :=
    snd (manual_attendance Scenario.db0 "fac1" "sess1" ["stu1"%string] 10) in
  let db2 := snd (manual_attendance db1 "fac1" "sess1" [] 20) in
  map (fun a => (att_sessionId a, att_studentId a, att_status a))
      (attendance db2)
    = [("sess1"%string, "stu1"%string, absent)] /\
  scan_qr Scenario.QR_SECRET db2 "stu1" Scenario.scan_blind 1700000001000
    = (Failure AlreadyMarked, db2).
Proof. vm_compute. split; reflexivity. Qed.

Lemma duplicate_scan_is_rejected_witness :
  let now := 1700000001000 in
  let later := 1700000002000 in
  exists ok db',
    scan_qr Scenario.QR_SECRET Scenario.db0 "stu1" Scenario.scan_blind now
      = (Success ok, db') /\
    scan_qr Scenario.QR_SECRET db' "stu1" Scenario.scan_near later
      = (Failure AlreadyMarked, db').
Proof.
  cbv zeta.
  destruct (duplicate_scan_is_rejected Scenario.QR_SECRET Scenario.db0 "stu1"
              Scenario.scan_blind 1700000001000 Scenario.token
              Scenario.session0
              eq_refl ScenarioFacts.token_signed
              ltac:(vm_compute; discriminate)
              ScenarioFacts.session_found ScenarioFacts.student_enrolled)
    as [_ Hsecond].
  destruct (ScenarioFacts.blind_scan_accepted 1700000001000
              ltac:(vm_compute; discriminate)) as (ok & db' & Hfirst).
  destruct (Hsecond ok db' Hfirst Scenario.scan_near 1700000002000 eq_refl)
    as (e & Hfail & He).
  exists ok, db'. split; [exact Hfirst|].
  rewrite <- (He ltac:(vm_compute; discriminate)). exact Hfail.
Defined.

(** The claim C2 as stated fails: at the instant [now = expiresAt] the scan
    is not answered [Expired]; it is accepted. *)
Lemma scan_at_expiry_instant_is_accepted :
  qr_expiresAt Scenario.token = 1700000300000 /\
  exists ok db',
    scan_qr Scenario.QR_SECRET Scenario.db0 "stu1" Scenario.scan_blind
      1700000300000 = (Success ok, db').
Proof.
  split; [reflexivity|].
  apply ScenarioFacts.blind_scan_accepted. vm_compute. discriminate.
Qed.

Lemma expiry_check_is_strict_witness :
  req_qrData Scenario.scan_blind = Some Scenario.token /\
  (forall now,
     fst (scan_qr Scenario.QR_SECRET Scenario.db0 "stu1" Scenario.scan_blind now)
       = Failure Expired <->
     qr_expiresAt Scenario.token < now) /\
  fst (scan_qr Scenario.QR_SECRET Scenario.db0 "stu1" Scenario.scan_blind
         (qr_expiresAt Scenario.token)) <> Failure Expired /\
  (forall now now', now <= now' ->
     fst (scan_qr Scenario.QR_SECRET Scenario.db0 "stu1" Scenario.scan_blind now)
       = Failure Expired ->
     fst (scan_qr Scenario.QR_SECRET Scenario.db0 "stu1" Scenario.scan_blind now')
       = Failure Expired).
Proof.
  split; [reflexivity|].
  apply (expiry_check_is_strict Scenario.QR_SECRET Scenario.issuedAt
           "sess1" "course1" "fac1" (Some Scenario.geofence) (Some 300000)
           Scenario.db0 "stu1" Scenario.scan_blind).
  reflexivity.
Defined.

(** The claim C3 as stated fails.  The class is at (12, 77) and the token
    carries the radius 0.  The scan from (12.0005, 77.0000), at a distance of
    55.5974633223473 meters, is rejected with a reported distance of 56,
    which is not the distance the distance function computed, and with an
    allowed distance of 50, which is not the radius of the token.  The scan
    from (12.0003, 77.0000), about 33.36 meters away and so beyond the
    radius of the token, is accepted. *)
Lemma far_scan_reports_rounded_distance :
  let far := calculateDistance (Number.of_Q (120005 # 10000))
               (Number.of_Q 77) (Number.of_Q 12) (Number.of_Q 77) in
  let near := calculateDistance (Number.of_Q (120003 # 10000))
                (Number.of_Q 77) (Number.of_Q 12) (Number.of_Q 77) in
  qr_location Scenario.token0 = Some Scenario.geofence0 /\
  loc_radius Scenario.geofence0 = Some 0%Q /\
  far = S754_finite false 7824647346914629 (-47) /\
  Number.eqb far (Number.of_Z 56) = false /\
  scan_qr Scenario.QR_SECRET Scenario.db0 "stu1" Scenario.scan_far0
    1700000001000 = (Failure (OutOfRange (Some 56) 50), Scenario.db0) /\
  Number.ltb (Number.of_Q 0) near = true /\
  exists ok db',
    scan_qr Scenario.QR_SECRET Scenario.db0 "stu1" Scenario.scan_near0
      1700000001000 = (Success ok, db') /\
    att_distanceFromClass (scan_attendance ok) = Some 33.
Proof.
  cbv zeta. repeat split; try (vm_compute; reflexivity).
  eexists _, _. split; vm_compute; reflexivity.
Qed.

Lemma scan_geofence_decision_witness :
  let d := calculateDistance (Number.of_Q (120003 # 10000)) (Number.of_Q 77)
             (Number.of_Q 12) (Number.of_Q 77) in
  Number.leb d (Number.of_Q (maxDistance_of Scenario.geofence)) = true /\
  exists ok db',
    scan_qr Scenario.QR_SECRET Scenario.db0 "stu1" Scenario.scan_near
      1700000001000 = (Success ok, db') /\
    attendance db' = attendance Scenario.db0 ++ [scan_attendance ok] /\
    att_locationVerified (scan_attendance ok) = true /\
    att_distanceFromClass (scan_attendance ok) = Math_round d.
Proof.
  cbv zeta.
  assert (Hnear :
    Number.leb
      (calculateDistance (Number.of_Q (120003 # 10000)) (Number.of_Q 77)
         (Number.of_Q 12) (Number.of_Q 77))
      (Number.of_Q (maxDistance_of Scenario.geofence)) = true)
    by (vm_compute; reflexivity).
  split; [exact Hnear|].
  destruct (scan_geofence_decision Scenario.QR_SECRET Scenario.db0 "stu1"
              Scenario.scan_near 1700000001000 Scenario.token
              Scenario.session0
              eq_refl ScenarioFacts.token_signed
              ltac:(vm_compute; discriminate)
              ScenarioFacts.session_found ScenarioFacts.student_enrolled
              ScenarioFacts.student_unmarked
              Scenario.geofence (120003 # 10000) 77
              eq_refl eq_refl ltac:(vm_compute; reflexivity)
              eq_refl ltac:(vm_compute; reflexivity))
    as (_ & _ & _ & Haccept & _).
  exact (Haccept Hnear).
Defined.

(** A distance that is NaN: the scan whose latitude is [Infinity] is
    rejected, and the response carries [null] for the distance. *)
Example scan_beyond_doubles_is_rejected :
  Number.of_Q (10 ^ 400 # 1) = S754_infinity false /\
  calculateDistance (Number.of_Q (10 ^ 400 # 1)) (Number.of_Q 77)
    (Number.of_Q 12) (Number.of_Q 77) = S754_nan /\
  scan_qr Scenario.QR_SECRET Scenario.db0 "stu1" Scenario.scan_beyond
    1700000001000 = (Failure (OutOfRange None 50), Scenario.db0).
Proof. vm_compute. repeat split; reflexivity. Qed.

Lemma scan_failure_leaves_db_unchanged_witness :
  let outcome :=
    scan_qr Scenario.QR_SECRET Scenario.db0 "stu1" Scenario.scan_blind
      1700000300001 in
  outcome = (Failure Expired, snd outcome) /\ snd outcome = Scenario.db0.
Proof.
  cbv zeta.
  assert (H : scan_qr Scenario.QR_SECRET Scenario.db0 "stu1"
                Scenario.scan_blind 1700000300001
              = (Failure Expired,
                 snd (scan_qr Scenario.QR_SECRET Scenario.db0 "stu1"
                        Scenario.scan_blind 1700000300001)))
    by (vm_compute; reflexivity).
  split; [exact H|].
  exact (scan_failure_leaves_db_unchanged _ _ _ _ _ _ _ H).
Defined.

Lemma tampered_token_is_rejected_witness :
  "sess2"%string <> "sess1"%string /\
  verifyQRSignature Scenario.QR_SECRET
    (set_qr_sessionId Scenario.token "sess2") = false /\
  1700000000001 <> Scenario.issuedAt /\
  verifyQRSignature Scenario.QR_SECRET
    (set_qr_timestamp Scenario.token 1700000000001) = false /\
  has_dash "sess1" = false /\ 0 <= Scenario.issuedAt /\
  verifyQRSignature Scenario.QR_SECRET
    (set_qr_timestamp (set_qr_sessionId Scenario.token "sess2")
       1700000000001) = false.
Proof.
  destruct (tampered_token_is_rejected Scenario.QR_SECRET Scenario.issuedAt
              "sess1" "course1" "fac1" (Some Scenario.geofence) (Some 300000))
    as (Hsid & Hts & Hboth).
  assert (H1 : "sess2"%string <> "sess1"%string) by discriminate.
  assert (H2 : 1700000000001 <> Scenario.issuedAt) by discriminate.
  assert (H3 : has_dash "sess1" = false) by reflexivity.
  assert (H4 : 0 <= Scenario.issuedAt) by discriminate.
  split; [exact H1 | split; [exact (Hsid _ H1) | split]];
    [exact H2 | split; [exact (Hts _ H2) | split; [exact H3 | split]]];
    [exact H4 | exact (Hboth H3 H4 _ _ (or_introl H1))].
Defined.

Lemma verify_ignores_unsigned_fields_witness :
  let forged :=
    set_qr_unsigned_fields Scenario.token "course9" "fac9" 9999999999999 None in
  verifyQRSignature Scenario.QR_SECRET forged
    = verifyQRSignature Scenario.QR_SECRET Scenario.token /\
  verifyQRSignature Scenario.QR_SECRET forged = true.
Proof.
  cbv zeta.
  destruct (verify_ignores_unsigned_fields Scenario.QR_SECRET) as [Hsame Hok].
  split.
  - apply Hsame; reflexivity.
  - apply (Hok Scenario.issuedAt "sess1"%string "course1"%string
             "fac1"%string (Some Scenario.geofence) (Some 300000)).
Defined.

Lemma scan_without_coordinates_bypasses_geofence_witness :
  qr_location Scenario.token = Some Scenario.geofence /\
  truthy (req_latitude Scenario.scan_equator) = false /\
  exists ok db',
    scan_qr Scenario.QR_SECRET Scenario.db0 "stu1" Scenario.scan_equator
      1700000001000 = (Success ok, db') /\
    attendance db' = attendance Scenario.db0 ++ [scan_attendance ok] /\
    att_status (scan_attendance ok) = present /\
    att_locationVerified (scan_attendance ok) = true /\
    att_distanceFromClass (scan_attendance ok) = Some 0.
Proof.
  split; [reflexivity | split; [reflexivity|]].
  apply (scan_without_coordinates_bypasses_geofence Scenario.QR_SECRET
           Scenario.db0 "stu1" Scenario.scan_equator 1700000001000
           Scenario.token Scenario.session0
           eq_refl ScenarioFacts.token_signed
           ltac:(vm_compute; discriminate)
           ScenarioFacts.session_found ScenarioFacts.student_enrolled
           ScenarioFacts.student_unmarked
           Scenario.geofence eq_refl (or_introl eq_refl)).
Defined.

Lemma scenario_random_range (n : nat) :
  (0 <= Scenario.random n /\ Scenario.random n < 1)%Q.
Proof.
  unfold Scenario.random, Qle, Qlt. simpl.
  pose proof (Nat.mod_upper_bound n 32). lia.
Qed.

Example scenario_joinCode :
  generateJoinCode Scenario.random 0 = "ABCDEF"%string /\
  unique_joinCode Scenario.random 2 Scenario.db0 0 = Some "GHJKLM"%string.
Proof. vm_compute. split; reflexivity. Qed.

Lemma joinCode_is_six_chars_and_unique_witness :
  String.length (generateJoinCode Scenario.random 0) = 6%nat /\
  over_chars (generateJoinCode Scenario.random 0) /\
  (forall c, c ∈ courses Scenario.db0 -> crs_isActive c = true ->
             crs_joinCode c <> Some "GHJKLM"%string) /\
  is_Some (unique_joinCode Scenario.random 2 Scenario.db0 0).
Proof.
  destruct (joinCode_is_six_chars_and_unique Scenario.random Scenario.db0
              scenario_random_range) as (Hgen & Hloop & Hreturns).
  destruct (Hgen 0%nat) as [Hlen Hover].
  destruct (Hloop 2%nat 0%nat "GHJKLM"%string
              ltac:(vm_compute; reflexivity)) as (_ & _ & Hunique & _).
  split; [exact Hlen | split; [exact Hover | split; [exact Hunique|]]].
  apply (Hreturns 0%nat 1%nat 2%nat); [|lia].
  apply courses_with_joinCode_nil. vm_compute. reflexivity.
Defined.

(** ** The scenario end to end

    A scan from about 33 m is accepted and brings the counter to 1; the same
    student's second scan is answered [AlreadyMarked]; a student who is not
    enrolled is answered [Forbidden]; a scan nine minutes after the issue is
    answered [Expired]. *)
Example scenario_end_to_end :
  (exists ok db',
     scan_qr Scenario.QR_SECRET Scenario.db0 "stu1" Scenario.scan_near
       1700000001000 = (Success ok, db') /\
     scan_distance ok = Some 33 /\
     ses_presentCount <$> (sessions db' !! "sess1"%string) = Some 1 /\
     scan_qr Scenario.QR_SECRET db' "stu1" Scenario.scan_near 1700000002000
       = (Failure AlreadyMarked, db')) /\
  scan_qr Scenario.QR_SECRET Scenario.db0 "stu2" Scenario.scan_near
    1700000001000 = (Failure Forbidden, Scenario.db0) /\
  scan_qr Scenario.QR_SECRET Scenario.db0 "stu1" Scenario.scan_near
    1700000540000 = (Failure Expired, Scenario.db0).
Proof.
  split; [|split; vm_compute; reflexivity].
  eexists _, _. split; [vm_compute; reflexivity|].
  repeat split; vm_compute; reflexivity.
Qed.

(** * Further properties of the handlers *)

(** X1.  On a platform whose sine is odd, the distance computed in doubles
    does not depend on the order of the two points: both orders perform the
    same operations on the same doubles. *)
Theorem calculateDistance_symmetric {M : Math}
    (lat1 lon1 lat2 lon2 : number) :
  sin_is_odd ->
  calculateDistance lat1 lon1 lat2 lon2 = calculateDistance lat2 lon2 lat1 lon1.
Proof. intros Hodd. now apply calculateDistance_swap. Qed.

Lemma calculateDistance_symmetric_witness :
  sin_is_odd /\
  calculateDistance (Number.of_Q 12) (Number.of_Q 77)
    (Number.of_Q 13) (Number.of_Q (771 # 10))
  = calculateDistance (Number.of_Q 13) (Number.of_Q (771 # 10))
      (Number.of_Q 12) (Number.of_Q 77).
Proof.
  split; [exact example_sin_is_odd|].
  exact (calculateDistance_symmetric _ _ _ _ example_sin_is_odd).
Defined.

(** X2.  Between a point and itself the distance computed in doubles is
    exactly 0, when the coordinates are finite and stay so in radians, on a
    platform where the sine of 0 is 0, a cosine lies between -1 and 1 and
    the arc tangent of 0 over 1 is 0. *)
Theorem calculateDistance_of_a_point_to_itself {M : Math}
    (lat lon : number) :
  sin_keeps_zero -> cos_in_unit_range -> atan2_keeps_zero ->
  Number.is_finite (radians lat) = true -> Number.is_finite lon = true ->
  calculateDistance lat lon lat lon = Number.zero.
Proof. apply calculateDistance_same. Qed.

Lemma calculateDistance_of_a_point_to_itself_witness :
  Number.is_finite (radians (Number.of_Q 12)) = true /\
  Number.is_finite (Number.of_Q 77) = true /\
  calculateDistance (Number.of_Q 12) (Number.of_Q 77)
    (Number.of_Q 12) (Number.of_Q 77) = Number.zero.
Proof.
  split; [reflexivity | split; [reflexivity|]].
  exact (calculateDistance_of_a_point_to_itself
           (Number.of_Q 12) (Number.of_Q 77)
           example_sin_keeps_zero example_cos_in_unit_range
           example_atan2_keeps_zero eq_refl eq_refl).
Defined.

(** X3.  Between two points of the same longitude, with finite coordinates
    that stay finite in radians, on a platform where the sine of 0 is 0 and
    a cosine lies between -1 and 1: the term of the longitudes vanishes, so
    the distance computed in doubles is
    [6371000 * (2 * atan2 (sqrt (s * s), sqrt (1 - s * s)))] for [s] the
    sine of half the difference of the latitudes in radians, and it is the
    same on every meridian. *)
Theorem distance_along_meridian {M : Math} (lat1 lat2 lon lon' : number) :
  sin_keeps_zero -> cos_in_unit_range ->
  Number.is_finite (radians lat1) = true ->
  Number.is_finite (radians lat2) = true ->
  Number.is_finite lon = true -> Number.is_finite lon' = true ->
  calculateDistance lat1 lon lat2 lon
  = (let s := Math_sin (radians (lat2 - lat1) / Number.of_Z 2) in
     Number.of_Z 6371000 *
     (Number.of_Z 2 *
      Math_atan2 (Math_sqrt (s * s))
        (Math_sqrt (Number.of_Z 1 - s * s))))%number
  /\ calculateDistance lat1 lon lat2 lon
     = calculateDistance lat1 lon' lat2 lon'.
Proof.
  intros Hsin Hcos Hlat1 Hlat2 Hlon Hlon'.
  split; [now apply calculateDistance_meridian|].
  now rewrite !calculateDistance_meridian.
Qed.

Lemma distance_along_meridian_witness :
  calculateDistance (Number.of_Q 12) (Number.of_Q 77)
    (Number.of_Q 13) (Number.of_Q 77)
  = calculateDistance (Number.of_Q 12) (Number.of_Q (-30))
      (Number.of_Q 13) (Number.of_Q (-30)).
Proof.
  exact (proj2 (distance_along_meridian (Number.of_Q 12) (Number.of_Q 13)
                  (Number.of_Q 77) (Number.of_Q (-30))
                  example_sin_keeps_zero example_cos_in_unit_range
                  eq_refl eq_refl eq_refl eq_refl)).
Defined.

(** X4.  A token signed under one secret does not verify under another; an
    empty [QR_SECRET] is the fallback secret. *)
Theorem token_of_another_secret_is_rejected (S1 S2 : option string) (now : Z)
    (sid cid fid : string) (loc : option Location) (expiresIn : option Z) :
  (secret S1 <> secret S2 ->
   verifyQRSignature S1 (generateQRPayload S2 now sid cid fid loc expiresIn)
   = false) /\
  verifyQRSignature (Some EmptyString)
    (generateQRPayload None now sid cid fid loc expiresIn) = true.
Proof.
  split.
  - intros Hne. apply not_true_is_false. intros H.
    apply verify_spec in H. simpl in H. unfold sign in H.
    apply Base64Facts.encode_inj in H.
    do 4 apply append_inv_head in H. congruence.
  - unfold verifyQRSignature. simpl. apply String.eqb_refl.
Qed.

(** X5.  A successful scan appends exactly one document, a [present] one of
    the token's session and course for the caller, marked by the student at
    the time of the request, whose id is the one returned; it adds 1 to the
    counter of that session and changes nothing else. *)
Theorem scan_success_frame {M : Math} (QR_SECRET : option string) (db : Db)
    (userId : string) (req : ScanRequest) (now : Z) (ok : ScanSuccess)
    (db' : Db) :
  scan_qr QR_SECRET db userId req now = (Success ok, db') ->
  exists payload session,
    req_qrData req = Some payload
    /\ sessions db !! qr_sessionId payload = Some session
    /\ attendance db' = attendance db ++ [scan_attendance ok]
    /\ scan_id ok = length (attendance db)
    /\ att_sessionId (scan_attendance ok) = qr_sessionId payload
    /\ att_courseId (scan_attendance ok) = qr_courseId payload
    /\ att_studentId (scan_attendance ok) = userId
    /\ att_status (scan_attendance ok) = present
    /\ att_markedBy (scan_attendance ok) = student
    /\ att_markedAt (scan_attendance ok) = now
    /\ sessions db' !! qr_sessionId payload
       = Some (increment_presentCount 1 session)
    /\ (forall k, k <> qr_sessionId payload ->
          sessions db' !! k = sessions db !! k)
    /\ activeQRs db' = activeQRs db
    /\ enrollments db' = enrollments db
    /\ courses db' = courses db
    /\ students db' = students db.
Proof.
  unfold scan_qr, mark_attendance. intros H.
  repeat case_match; simplify_eq.
  eexists _, _. split; [reflexivity|]. split; [eassumption|]. simpl.
  repeat split; try reflexivity.
  - rewrite lookup_alter_eq.
    match goal with E : sessions db !! _ = Some _ |- _ => now rewrite E end.
  - intros k Hk. now rewrite lookup_alter_ne.
Qed.

(** X6.  The scan handler reads neither [isActive] nor [activeQRs]: after a
    session has been stopped, every scan is answered as it would have been
    before. *)
Theorem scan_ignores_stop {M : Math} (QR_SECRET : option string) (db : Db)
    (caller sessionId : string) (stoppedAt : Z) (db1 : Db)
    (userId : string) (req : ScanRequest) (now : Z) :
  stop_session db caller sessionId stoppedAt = (Success tt, db1) ->
  fst (scan_qr QR_SECRET db1 userId req now)
  = fst (scan_qr QR_SECRET db userId req now).
Proof.
  unfold stop_session. intros H.
  destruct (sessions db !! sessionId) as [s|] eqn:Hs; [|discriminate].
  injection H as <-.
  unfold scan_qr. destruct (req_qrData req) as [payload|]; [|reflexivity].
  destruct (negb (verifyQRSignature QR_SECRET payload)); [reflexivity|].
  destruct (now >? qr_expiresAt payload); [reflexivity|].
  cbn [sessions set_activeQRs set_sessions].
  destruct (decide (qr_sessionId payload = sessionId)) as [->|Hne].
  - rewrite lookup_insert_eq, Hs.
    unfold active_enrollments, attendance_of, mark_attendance. simpl.
    repeat case_match; reflexivity.
  - rewrite lookup_insert_ne by congruence.
    destruct (sessions db !! qr_sessionId payload); [|reflexivity].
    unfold active_enrollments, attendance_of, mark_attendance. simpl.
    repeat case_match; reflexivity.
Qed.

Lemma count_present_snoc (docs : list Attendance) (a : Attendance)
    (sessionId : string) :
  count_present (docs ++ [a]) sessionId
  = (count_present docs sessionId
     + if String.eqb (att_sessionId a) sessionId
          && Status_eqb (att_status a) present
       then 1 else 0)%nat.
Proof.
  unfold count_present. rewrite List.filter_app, length_app. simpl.
  now destruct (_ && _).
Qed.

Lemma scan_qr_outcome {M : Math} (QR_SECRET : option string) (db : Db) (userId : string)
    (req : ScanRequest) (now : Z) (r : result ScanSuccess) (db' : Db) :
  scan_qr QR_SECRET db userId req now = (r, db') ->
  db' = db \/
  exists payload session a,
    sessions db !! qr_sessionId payload = Some session
    /\ att_sessionId a = qr_sessionId payload
    /\ att_status a = present
    /\ db' = set_sessions (set_attendance db (attendance db ++ [a]))
               (alter (increment_presentCount 1) (qr_sessionId payload)
                  (sessions db)).
Proof.
  unfold scan_qr, mark_attendance. intros H.
  repeat case_match; simplify_eq; auto.
  right. eexists _, _, _. split; [eassumption|].
  split; [|split; [|reflexivity]]; reflexivity.
Qed.

(** X8.  If every session's counter is the number of its [present] documents,
    this is still so after a scan, accepted or not. *)
Theorem scan_qr_keeps_counters {M : Math} (QR_SECRET : option string) (db : Db)
    (userId : string) (req : ScanRequest) (now : Z)
    (r : result ScanSuccess) (db' : Db) :
  counters_ok db ->
  scan_qr QR_SECRET db userId req now = (r, db') ->
  counters_ok db'.
Proof.
  intros Hok H.
  apply scan_qr_outcome in H
    as [-> | (payload & session & a & Hs & Ha & Hp & ->)]; [exact Hok|].
  intros k s' Hk. simpl in *. rewrite count_present_snoc, Ha, Hp. simpl.
  destruct (decide (k = qr_sessionId payload)) as [->|Hne].
  - rewrite lookup_alter_eq, Hs in Hk. injection Hk as <-. simpl.
    rewrite (Hok _ _ Hs), String.eqb_refl. simpl. lia.
  - rewrite lookup_alter_ne in Hk by congruence.
    rewrite (Hok _ _ Hk).
    destruct (String.eqb_spec (qr_sessionId payload) k); [congruence|].
    simpl. lia.
Qed.

Lemma count_present_app (l1 l2 : list Attendance) (k : string) :
  count_present (l1 ++ l2) k = (count_present l1 k + count_present l2 k)%nat.
Proof. unfold count_present. now rewrite List.filter_app, length_app. Qed.

Lemma count_present_manual (sessionId : string) (session : Session) (now : Z)
    (xs : list string) (k : string) :
  count_present (map (fun x => manual_record sessionId session x now) xs) k
  = if String.eqb sessionId k then length xs else 0%nat.
Proof.
  unfold count_present.
  induction xs as [|x xs IH]; simpl; [now destruct (String.eqb _ _)|].
  destruct (String.eqb sessionId k); simpl; [now rewrite IH | exact IH].
Qed.

Lemma count_present_alter_absent (now : Z) (k : string) (docs : list Attendance) :
  forall (i : nat) (a : Attendance),
  docs !! i = Some a ->
  (count_present (alter (mark_absent now) i docs) k
   + (if String.eqb (att_sessionId a) k && Status_eqb (att_status a) present
      then 1 else 0))%nat
  = count_present docs k.
Proof.
  unfold count_present.
  induction docs as [|d docs IH]; intros [|i] a Hi; simpl in Hi;
    try discriminate.
  - injection Hi as ->. simpl. rewrite andb_false_r. simpl.
    destruct (_ && _); simpl; lia.
  - specialize (IH i a Hi). cbn [alter list_alter List.filter].
    destruct (String.eqb (att_sessionId a) k && Status_eqb (att_status a) present);
      destruct (String.eqb (att_sessionId d) k
                && Status_eqb (att_status d) present);
      cbn [length]; lia.
Qed.

Lemma new_Set_NoDup (l : list string) : NoDup (new_Set l).
Proof.
  unfold new_Set.
  assert (H : forall acc, NoDup acc -> NoDup (foldl Set_add acc l)).
  { induction l as [|x l IH]; intros acc Hacc; simpl; [exact Hacc|].
    apply IH. unfold Set_add.
    destruct (bool_decide_reflect (x ∈ acc)) as [Hx|Hx]; [exact Hacc|].
    apply NoDup_app. split; [exact Hacc|]. split.
    - intros y Hy Hy'. apply list_elem_of_singleton in Hy'. now subst.
    - apply NoDup_singleton. }
  apply H. constructor.
Qed.

Lemma toRemove_of_NoDup (db : Db) (sessionId : string) (ids : list string) :
  NoDup (toRemove_of db sessionId ids).
Proof.
  unfold toRemove_of. apply NoDup_ListNoDup, List.NoDup_filter.
  apply NoDup_ListNoDup, new_Set_NoDup.
Qed.

Lemma toRemove_of_elem (db : Db) (sessionId : string) (ids : list string) x :
  x ∈ toRemove_of db sessionId ids <->
  present_in (attendance db) sessionId x /\ ~ x ∈ ids.
Proof.
  unfold toRemove_of, Set_has. rewrite filter_elem.
  now rewrite negb_true_iff, bool_decide_eq_false, currentPresentIds_elem,
    new_Set_elem.
Qed.

Lemma toAdd_of_elem (db : Db) (sessionId : string) (ids : list string) x :
  x ∈ toAdd_of db sessionId ids <->
  x ∈ ids /\ ~ present_in (attendance db) sessionId x.
Proof.
  unfold toAdd_of, Set_has. rewrite filter_elem.
  now rewrite negb_true_iff, bool_decide_eq_false, currentPresentIds_elem.
Qed.

(** The removal loop lowers the number of [present] documents of the session
    by one per student removed. *)
Lemma foldl_remove_one_count (db : Db) (sessionId : string) (now : Z)
    (k : string) (xs : list string) : forall docs : list Attendance,
  NoDup xs ->
  (forall x, x ∈ xs ->
     exists i a,
       List.find (is_present_of x) (session_attendance db sessionId)
         = Some (i, a)
       /\ docs !! i = Some a) ->
  (count_present
     (foldl (remove_one (session_attendance db sessionId) now) docs xs) k
   + (if String.eqb sessionId k then length xs else 0))%nat
  = count_present docs k.
Proof.
  induction xs as [|x xs IH]; intros docs Hnd Hfind; simpl.
  - destruct (String.eqb sessionId k); lia.
  - apply NoDup_cons in Hnd as [Hx Hnd].
    destruct (Hfind x (list_elem_of_here _ _)) as (i & a & E & Hi).
    destruct (find_present_Some db sessionId x _ E) as (_ & Hs & Hst & Hp).
    simpl in Hs, Hst, Hp.
    unfold remove_one at 2. rewrite E. simpl.
    rewrite <- (count_present_alter_absent now k docs i a Hi).
    rewrite <- (IH (alter (mark_absent now) i docs) Hnd).
    + rewrite Hs, Hp. simpl. rewrite andb_true_r.
      destruct (String.eqb sessionId k); lia.
    + intros y Hy.
      destruct (Hfind y (list_elem_of_further _ _ _ Hy)) as (j & b & F & Hj).
      exists j, b. split; [exact F|].
      destruct (find_present_Some db sessionId y _ F) as (_ & _ & Hyb & _).
      simpl in Hyb.
      rewrite list_lookup_alter_ne; [exact Hj|].
      intros ->. rewrite Hi in Hj. injection Hj as ->.
      apply Hx. congruence.
Qed.

Lemma reconciled_docs_count (db : Db) (sessionId : string) (session : Session)
    (ids : list string) (now : Z) (k : string) :
  (count_present (reconciled_docs db sessionId session ids now) k
   + (if String.eqb sessionId k
      then length (toRemove_of db sessionId ids) else 0))%nat
  = (count_present (attendance db) k
     + (if String.eqb sessionId k
        then length (toAdd_of db sessionId ids) else 0))%nat.
Proof.
  unfold reconciled_docs. rewrite foldl_add_docs.
  rewrite foldl_remove_one_count.
  - now rewrite count_present_app, count_present_manual.
  - apply toRemove_of_NoDup.
  - intros x Hx. apply toRemove_of_elem in Hx as [Hx _].
    destruct (find_present_is_Some db sessionId x Hx) as [[i a] E].
    exists i, a. split; [exact E|].
    destruct (find_present_Some db sessionId x _ E) as (Hi & _).
    now apply lookup_app_l_Some.
Qed.

(** X13.  If every session's counter is the number of its [present] documents,
    this is still so after a manual reconciliation, whatever the request. *)
Theorem manual_attendance_keeps_counters (db : Db) (userId sessionId : string)
    (ids : list string) (now : Z) (r : result ManualSuccess) (db' : Db) :
  counters_ok db ->
  manual_attendance db userId sessionId ids now = (r, db') ->
  counters_ok db'.
Proof.
  intros Hok H. unfold manual_attendance in H.
  destruct (sessions db !! sessionId) as [session|] eqn:Hs;
    [|now injection H as _ <-].
  destruct (negb (String.eqb (ses_facultyId session) userId));
    [now injection H as _ <-|].
  injection H as _ <-.
  fold (currentPresentIds_of db sessionId).
  fold (toAdd_of db sessionId ids). fold (toRemove_of db sessionId ids).
  fold (reconciled_docs db sessionId session ids now).
  pose proof (reconciled_docs_count db sessionId session ids now) as Hcount.
  set (delta := Z.of_nat (length (toAdd_of db sessionId ids))
                - Z.of_nat (length (toRemove_of db sessionId ids))).
  intros k s Hk.
  assert (Hatt : forall b : bool,
            attendance (if b
              then set_sessions
                     (set_attendance db
                        (reconciled_docs db sessionId session ids now))
                     (alter (increment_presentCount delta) sessionId
                        (sessions db))
              else set_attendance db
                     (reconciled_docs db sessionId session ids now))
            = reconciled_docs db sessionId session ids now)
    by (now intros []).
  rewrite Hatt. specialize (Hcount k).
  destruct (Z.eqb_spec delta 0) as [Hd|Hd]; simpl in Hk.
  - pose proof (Hok _ _ Hk) as Hc.
    destruct (String.eqb_spec sessionId k) as [->|Hne]; lia.
  - destruct (decide (k = sessionId)) as [->|Hne].
    + rewrite lookup_alter_eq, Hs in Hk. injection Hk as <-. simpl.
      rewrite (Hok _ _ Hs). rewrite String.eqb_refl in Hcount. lia.
    + rewrite lookup_alter_ne in Hk by congruence.
      rewrite (Hok _ _ Hk).
      destruct (String.eqb_spec sessionId k); [congruence | lia].
Qed.

Lemma foldl_remove_one_length (snapshot : list (nat * Attendance)) (now : Z)
    (xs : list string) : forall docs : list Attendance,
  length (foldl (remove_one snapshot now) docs xs) = length docs.
Proof.
  induction xs as [|x xs IH]; intros docs; simpl; [reflexivity|].
  rewrite IH. unfold remove_one.
  destruct (List.find _ _); [apply length_alter | reflexivity].
Qed.

(** X11.  Manual attendance answers 404 for a session that does not exist and
    403 for a caller who is not the session's faculty, changing nothing in
    either case; for the session's faculty it succeeds. *)
Theorem manual_attendance_authorization (db : Db) (userId sessionId : string)
    (ids : list string) (now : Z) :
  (sessions db !! sessionId = None ->
   manual_attendance db userId sessionId ids now = (Failure NotFound, db)) /\
  (forall session, sessions db !! sessionId = Some session ->
     ses_facultyId session <> userId ->
     manual_attendance db userId sessionId ids now = (Failure Forbidden, db)) /\
  (forall session, sessions db !! sessionId = Some session ->
     ses_facultyId session = userId ->
     exists r db', manual_attendance db userId sessionId ids now
                   = (Success r, db')) /\
  (forall e db', manual_attendance db userId sessionId ids now
                 = (Failure e, db') -> db' = db).
Proof.
  unfold manual_attendance. repeat split.
  - intros ->. reflexivity.
  - intros session -> Hne.
    destruct (String.eqb_spec (ses_facultyId session) userId);
      [contradiction | reflexivity].
  - intros session -> <-. rewrite String.eqb_refl. simpl. eauto.
  - intros e db' H.
    destruct (sessions db !! sessionId); [|congruence].
    destruct (negb _); [congruence | discriminate].
Qed.

(** X12.  A successful manual reconciliation deletes and reorders nothing:
    an existing document is left as it is, or, only if it is a [present]
    document of this session for a student outside the request, marked
    absent; the documents appended, as many as the answer's [added], are
    [present] manual ones of this session for requested students that had
    none; the session's counter moves by [added - removed]; nothing else
    changes. *)
Theorem manual_attendance_frame (db : Db) (userId sessionId : string)
    (ids : list string) (now : Z) (r : ManualSuccess) (db' : Db) :
  manual_attendance db userId sessionId ids now = (Success r, db') ->
  length (attendance db') = (length (attendance db) + added r)%nat
  /\ (forall j a, attendance db !! j = Some a ->
        attendance db' !! j = Some a
        \/ (attendance db' !! j = Some (mark_absent now a)
            /\ att_sessionId a = sessionId /\ att_status a = present
            /\ ~ att_studentId a ∈ ids))
  /\ (forall j b, (length (attendance db) <= j)%nat ->
        attendance db' !! j = Some b ->
        att_studentId b ∈ ids
        /\ ~ present_in (attendance db) sessionId (att_studentId b)
        /\ att_sessionId b = sessionId /\ att_status b = present
        /\ att_markedBy b = faculty /\ att_manual b = true
        /\ att_markedAt b = now)
  /\ (forall k, k <> sessionId -> sessions db' !! k = sessions db !! k)
  /\ (exists session,
        sessions db !! sessionId = Some session
        /\ sessions db' !! sessionId
           = Some (increment_presentCount
                     (Z.of_nat (added r) - Z.of_nat (removed r)) session))
  /\ activeQRs db' = activeQRs db
  /\ enrollments db' = enrollments db
  /\ courses db' = courses db
  /\ students db' = students db.
Proof.
  intros H.
  destruct (manual_attendance_Success _ _ _ _ _ _ _ H) as (session & Hs & Hf).
  rewrite (manual_attendance_owner _ _ _ _ _ session Hs Hf) in H.
  injection H as Hr Hdb. cbv zeta in Hdb.
  set (docs' := reconciled_docs db sessionId session ids now) in *.
  set (delta := Z.of_nat (length (toAdd_of db sessionId ids))
                - Z.of_nat (length (toRemove_of db sessionId ids))) in *.
  assert (Hatt : attendance db' = docs') by (subst db'; now destruct (negb _)).
  assert (Hses : sessions db'
                 = if negb (delta =? 0)
                   then alter (increment_presentCount delta) sessionId
                          (sessions db)
                   else sessions db)
    by (subst db'; now destruct (negb _)).
  assert (Hrest : activeQRs db' = activeQRs db
                  /\ enrollments db' = enrollments db
                  /\ courses db' = courses db /\ students db' = students db)
    by (subst db'; now destruct (negb _)).
  clear Hdb. subst r. cbn [added removed]. fold delta. rewrite Hatt, Hses.
  split; [|split; [|split; [|split; [|split]]]]; [| | | | |exact Hrest].
  - unfold docs', reconciled_docs.
    rewrite foldl_remove_one_length, foldl_add_docs, length_app, length_map.
    reflexivity.
  - intros j a Hj. unfold docs', reconciled_docs.
    rewrite foldl_remove_one_lookup, foldl_add_docs.
    rewrite (lookup_app_l_Some _ _ _ _ Hj).
    destruct (removal_hits _ _ j) eqn:Hhit; [|now left].
    right. split; [reflexivity|].
    apply removal_hits_true in Hhit as (x & a' & Hx & E).
    destruct (find_present_Some db sessionId x _ E) as (Hj' & Hsa & Hxa & Hpa).
    simpl in *. rewrite Hj in Hj'. injection Hj' as <-.
    apply toRemove_of_elem in Hx as [_ Hx]. subst x. auto.
  - intros j b Hge Hj.
    apply reconciled_docs_lookup in Hj
      as [(a & Ha & _) | (k & y & -> & Hk & ->)].
    + apply lookup_lt_Some in Ha. lia.
    + apply list_elem_of_lookup_2, toAdd_of_elem in Hk as [Hy Hn].
      simpl. repeat split; assumption || reflexivity.
  - intros k Hk. destruct (negb _); [|reflexivity].
    now rewrite lookup_alter_ne.
  - exists session. split; [exact Hs|].
    destruct (Z.eqb_spec delta 0) as [Hd|Hd]; simpl.
    + rewrite Hs, Hd. f_equal. destruct session; unfold increment_presentCount;
        simpl; f_equal; lia.
    + now rewrite lookup_alter_eq, Hs.
Qed.

(** X10.  Stopping a session that exists succeeds for any caller: it clears
    [isActive], stamps [endedAt], deletes the session's token and changes
    nothing else, so that the counters stay right; for an id that does not
    exist the answer is the 500 response and nothing changes. *)
Theorem stop_session_effect (db : Db) (userId sessionId : string) (now : Z) :
  (sessions db !! sessionId = None ->
   stop_session db userId sessionId now = (Failure InternalError, db)) /\
  (forall session, sessions db !! sessionId = Some session ->
     exists db',
       stop_session db userId sessionId now = (Success tt, db')
       /\ sessions db' !! sessionId
          = Some {| ses_courseId := ses_courseId session;
                    ses_courseName := ses_courseName session;
                    ses_facultyId := ses_facultyId session;
                    ses_presentCount := ses_presentCount session;
                    ses_isActive := false;
                    ses_endedAt := Some now |}
       /\ activeQRs db' !! sessionId = None
       /\ (forall k, k <> sessionId ->
             sessions db' !! k = sessions db !! k
             /\ activeQRs db' !! k = activeQRs db !! k)
       /\ attendance db' = attendance db
       /\ enrollments db' = enrollments db
       /\ courses db' = courses db
       /\ students db' = students db
       /\ (counters_ok db -> counters_ok db')).
Proof.
  unfold stop_session. split.
  - intros ->. reflexivity.
  - intros session Hs. rewrite Hs. eexists. split; [reflexivity|]. simpl.
    split; [apply lookup_insert_eq|]. split; [apply lookup_delete_eq|].
    split; [|repeat split].
    + intros k Hk.
      split; [apply lookup_insert_ne | apply lookup_delete_ne]; congruence.
    + intros Hok k s Hk. simpl in *.
      destruct (decide (k = sessionId)) as [->|Hne].
      * rewrite lookup_insert_eq in Hk. injection Hk as <-. simpl.
        exact (Hok _ _ Hs).
      * rewrite lookup_insert_ne in Hk by congruence. now apply Hok.
Qed.

Lemma verify_geolocation_no_location {M : Math} payload latitude longitude :
  qr_location payload = None ->
  verify_geolocation payload latitude longitude = inr (true, Number.zero).
Proof. unfold verify_geolocation. now intros ->. Qed.

(** X7.  The scan handler takes the course, the expiry and the geofence from
    the presented token, which the signature does not cover: an issued token
    whose course, expiry and location have been replaced is accepted for any
    student with an active enrollment in the replaced course, until the
    replaced expiry, wherever the student is. *)
Theorem scan_trusts_unsigned_fields {M : Math} (QR_SECRET : option string) (db : Db)
    (userId : string) (issuedAt : Z) (sid cid fid : string)
    (loc : option Location) (expiresIn : option Z)
    (cid' fid' : string) (expiresAt' : Z)
    (req : ScanRequest) (now : Z) (session : Session) :
  let token := generateQRPayload QR_SECRET issuedAt sid cid fid loc expiresIn in
  let forged := set_qr_unsigned_fields token cid' fid' expiresAt' None in
  req_qrData req = Some forged ->
  now <= expiresAt' ->
  sessions db !! sid = Some session ->
  active_enrollments db userId cid' <> [] ->
  attendance_of db sid userId = [] ->
  exists ok db',
    scan_qr QR_SECRET db userId req now = (Success ok, db')
    /\ att_sessionId (scan_attendance ok) = sid
    /\ att_courseId (scan_attendance ok) = cid'
    /\ att_locationVerified (scan_attendance ok) = true
    /\ attendance db' = attendance db ++ [scan_attendance ok].
Proof.
  intros token forged Hparse Hlive Hs Henr Hun.
  assert (Hsig : verifyQRSignature QR_SECRET forged = true)
    by (unfold verifyQRSignature; simpl; apply String.eqb_refl).
  rewrite (scan_qr_unmarked QR_SECRET db userId req now forged session
             Hparse Hsig Hlive Hs Henr Hun).
  rewrite verify_geolocation_no_location by reflexivity.
  unfold mark_attendance. eexists _, _. split; [reflexivity|]. simpl. auto.
Qed.

Lemma scenario_counters_ok : counters_ok Scenario.db0.
Proof.
  intros k s Hk. change (sessions Scenario.db0) with
    ({[ "sess1"%string := Scenario.session0 ]} : gmap string Session) in Hk.
  apply lookup_singleton_Some in Hk as [<- <-]. reflexivity.
Qed.

Lemma scenario_one_present (sessionId : string) :
  one_present_each (attendance Scenario.db0) sessionId.
Proof. intros i j a b Hi. discriminate. Qed.

Lemma scan_success_frame_witness :
  exists ok db',
    scan_qr Scenario.QR_SECRET Scenario.db0 "stu1" Scenario.scan_blind
      1700000001000 = (Success ok, db')
    /\ attendance db' = attendance Scenario.db0 ++ [scan_attendance ok]
    /\ scan_id ok = 0%nat
    /\ activeQRs db' = activeQRs Scenario.db0
    /\ enrollments db' = enrollments Scenario.db0.
Proof.
  destruct (ScenarioFacts.blind_scan_accepted 1700000001000
              ltac:(vm_compute; discriminate)) as (ok & db' & H).
  destruct (scan_success_frame _ _ _ _ _ _ _ H)
    as (p & s & _ & _ & Hatt & Hid & _ & _ & _ & _ & _ & _ & _ & _ & Hqr
        & Henr & _).
  exists ok, db'. auto.
Defined.

Lemma scan_ignores_stop_witness :
  stop_session Scenario.db0 "fac1" "sess1" 1700000000500
  = (Success tt,
     snd (stop_session Scenario.db0 "fac1" "sess1" 1700000000500)) /\
  exists ok,
    fst (scan_qr Scenario.QR_SECRET
           (snd (stop_session Scenario.db0 "fac1" "sess1" 1700000000500))
           "stu1" Scenario.scan_blind 1700000001000) = Success ok.
Proof.
  assert (H : stop_session Scenario.db0 "fac1" "sess1" 1700000000500
              = (Success tt,
                 snd (stop_session Scenario.db0 "fac1" "sess1" 1700000000500)))
    by (vm_compute; reflexivity).
  split; [exact H|].
  rewrite (scan_ignores_stop Scenario.QR_SECRET _ _ _ _ _ "stu1"
             Scenario.scan_blind 1700000001000 H).
  destruct (ScenarioFacts.blind_scan_accepted 1700000001000
              ltac:(vm_compute; discriminate)) as (ok & db' & E).
  exists ok. now rewrite E.
Defined.

Lemma scan_trusts_unsigned_fields_witness :
  let forged :=
    set_qr_unsigned_fields Scenario.token "course1" "nobody"
      1900000000000 None in
  let req :=
    {| req_qrData := Some forged;
       req_latitude := Some (4885 # 100); req_longitude := Some (235 # 100);
       req_accuracy := None; req_deviceId := None |} in
  qr_expiresAt Scenario.token < 1800000000000 /\
  exists ok db',
    scan_qr Scenario.QR_SECRET Scenario.db0 "stu1" req 1800000000000
      = (Success ok, db')
    /\ att_locationVerified (scan_attendance ok) = true.
Proof.
  cbv zeta. split; [reflexivity|].
  destruct (scan_trusts_unsigned_fields Scenario.QR_SECRET Scenario.db0 "stu1"
              Scenario.issuedAt "sess1" "course1" "fac1"
              (Some Scenario.geofence) (Some 300000)
              "course1" "nobody" 1900000000000
              {| req_qrData :=
                   Some (set_qr_unsigned_fields Scenario.token "course1"
                           "nobody" 1900000000000 None);
                 req_latitude := Some (4885 # 100);
                 req_longitude := Some (235 # 100);
                 req_accuracy := None; req_deviceId := None |}
              1800000000000 Scenario.session0
              eq_refl ltac:(vm_compute; discriminate)
              ScenarioFacts.session_found ScenarioFacts.student_enrolled
              ScenarioFacts.student_unmarked)
    as (ok & db' & H & _ & _ & Hv & _).
  exists ok, db'. auto.
Defined.

Lemma scan_qr_keeps_counters_witness :
  counters_ok Scenario.db0 /\
  counters_ok
    (snd (scan_qr Scenario.QR_SECRET Scenario.db0 "stu1" Scenario.scan_blind
            1700000001000)).
Proof.
  split; [exact scenario_counters_ok|].
  exact (scan_qr_keeps_counters Scenario.QR_SECRET Scenario.db0 "stu1"
           Scenario.scan_blind 1700000001000 _ _ scenario_counters_ok
           (surjective_pairing _)).
Defined.

Lemma scan_qr_keeps_one_present_witness :
  one_present_each (attendance Scenario.db0) "sess1" /\
  exists ok db',
    scan_qr Scenario.QR_SECRET Scenario.db0 "stu1" Scenario.scan_blind
      1700000001000 = (Success ok, db')
    /\ one_present_each (attendance db') "sess1".
Proof.
  split; [apply scenario_one_present|].
  destruct (ScenarioFacts.blind_scan_accepted 1700000001000
              ltac:(vm_compute; discriminate)) as (ok & db' & H).
  exists ok, db'. split; [exact H|].
  exact (scan_qr_keeps_one_present _ _ _ _ _ _ _ "sess1"
           (scenario_one_present "sess1") H).
Defined.

Lemma scenario_manual_call :
  manual_attendance Scenario.db0 "fac1" "sess1" ["stu1"; "stu2"]%string 10
  = (Success {| added := 2; removed := 0 |},
     snd (manual_attendance Scenario.db0 "fac1" "sess1"
            ["stu1"; "stu2"]%string 10)).
Proof. vm_compute. reflexivity. Qed.

Lemma manual_attendance_frame_witness :
  let db1 :=
    snd (manual_attendance Scenario.db0 "fac1" "sess1"
           ["stu1"; "stu2"]%string 10) in
  length (attendance db1) = 2%nat /\
  enrollments db1 = enrollments Scenario.db0.
Proof.
  cbv zeta.
  destruct (manual_attendance_frame _ _ _ _ _ _ _ scenario_manual_call)
    as (Hlen & _ & _ & _ & _ & _ & Henr & _).
  split; [exact Hlen | exact Henr].
Defined.

Lemma manual_attendance_keeps_counters_witness :
  counters_ok Scenario.db0 /\
  counters_ok
    (snd (manual_attendance Scenario.db0 "fac1" "sess1"
            ["stu1"; "stu2"]%string 10)).
Proof.
  split; [exact scenario_counters_ok|].
  exact (manual_attendance_keeps_counters _ _ _ _ _ _ _ scenario_counters_ok
           scenario_manual_call).
Defined.

Lemma manual_attendance_keeps_one_present_witness :
  List.NoDup ["stu1"; "stu2"]%string /\
  one_present_each
    (attendance (snd (manual_attendance Scenario.db0 "fac1" "sess1"
                        ["stu1"; "stu2"]%string 10))) "sess1".
Proof.
  assert (Hnd : List.NoDup ["stu1"; "stu2"]%string).
  { apply NoDup_ListNoDup. apply NoDup_cons. split.
    - intros H. apply list_elem_of_singleton in H. discriminate.
    - apply NoDup_singleton. }
  split; [exact Hnd|].
  exact (manual_attendance_keeps_one_present _ _ _ _ _ _ _ "sess1" Hnd
           (scenario_one_present "sess1") scenario_manual_call).
Defined.

Lemma manual_attendance_idempotent_witness :
  let db1 :=
    snd (manual_attendance Scenario.db0 "fac1" "sess1"
           ["stu1"; "stu2"]%string 10) in
  manual_attendance db1 "fac1" "sess1" ["stu1"; "stu2"]%string 20
  = (Success {| added := 0; removed := 0 |}, db1).
Proof.
  cbv zeta.
  exact (proj2 (manual_attendance_idempotent _ _ _ _ 10 20 _ _
                  (scenario_one_present "sess1") scenario_manual_call)).
Defined.

(** * The other handlers *)

(** ** Issuing a token *)

Lemma generate_qr_Json (QR_SECRET : option string)
    (courseDocs : gmap string CourseDoc) (db : Db) (userId : string)
    (body : QrBody) (now : Z) (sessionRef : string) out db' :
  generate_qr QR_SECRET courseDocs db userId body now sessionRef
  = (Json out, db') ->
  exists courseId course lat lon,
    qb_courseId body = Some courseId /\ courseId <> EmptyString
    /\ qr_latitude body = Some lat /\ qr_longitude body = Some lon
    /\ courseDocs !! courseId = Some course
    /\ cd_facultyId course = userId
    /\ out = {| qi_sessionId := sessionRef;
                qi_qrPayload :=
                  generateQRPayload QR_SECRET now sessionRef courseId userId
                    (Some {| loc_latitude := lat; loc_longitude := lon;
                             loc_radius := Some (qr_radius body) |})
                    (Some (qr_validitySeconds body * 1000));
                qi_expiresIn := qr_validitySeconds body;
                qi_session :=
                  {| ses_courseId := courseId; ses_courseName := cd_name course;
                     ses_facultyId := userId; ses_presentCount := 0;
                     ses_isActive := true; ses_endedAt := None |} |}
    /\ db' = set_activeQRs
               (set_sessions db (<[sessionRef := qi_session out]> (sessions db)))
               (<[sessionRef := qi_qrPayload out]> (activeQRs db)).
Proof.
  unfold generate_qr. intros H.
  destruct (qb_courseId body) as [courseId|]; [|discriminate].
  destruct (String.eqb_spec courseId EmptyString) as [|Hne]; [discriminate|].
  destruct (qr_latitude body) as [lat|]; [|discriminate].
  destruct (qr_longitude body) as [lon|]; [|discriminate].
  destruct (courseDocs !! courseId) as [course|] eqn:Hd; [|discriminate].
  destruct (String.eqb_spec (cd_facultyId course) userId) as [Hf|];
    [|discriminate].
  simpl in H. injection H as <- <-.
  exists courseId, course, lat, lon. simpl. repeat split; auto.
Qed.

(** X16.  generate-qr refuses without changing the store, with status 400,
    404 or 403: when the course id and the coordinates are given, 404 is the
    answer for a course that does not exist and 403 the answer for a caller
    who is not the faculty of the course.  A token is issued only to the
    faculty of the course, whom the new session and the token then name. *)
Theorem generate_qr_refusals (QR_SECRET : option string)
    (courseDocs : gmap string CourseDoc) (db : Db) (userId : string)
    (body : QrBody) (now : Z) (sessionRef : string) :
  (forall status error db',
     generate_qr QR_SECRET courseDocs db userId body now sessionRef
     = (Refused status error, db') ->
     db' = db /\ (status = 400 \/ status = 404 \/ status = 403)) /\
  (forall courseId, qb_courseId body = Some courseId ->
     courseId <> EmptyString ->
     is_Some (qr_latitude body) -> is_Some (qr_longitude body) ->
     (courseDocs !! courseId = None ->
      fst (generate_qr QR_SECRET courseDocs db userId body now sessionRef)
      = Refused 404 "Course not found") /\
     (forall course, courseDocs !! courseId = Some course ->
        cd_facultyId course <> userId ->
        fst (generate_qr QR_SECRET courseDocs db userId body now sessionRef)
        = Refused 403
            "You are not authorized to create sessions for this course")) /\
  (forall out db',
     generate_qr QR_SECRET courseDocs db userId body now sessionRef
     = (Json out, db') ->
     exists courseId course,
       qb_courseId body = Some courseId
       /\ courseDocs !! courseId = Some course
       /\ cd_facultyId course = userId
       /\ ses_facultyId (qi_session out) = userId
       /\ qr_facultyId (qi_qrPayload out) = userId).
Proof.
  split; [|split].
  - unfold generate_qr. intros status error db' H.
    repeat case_match; simplify_eq; auto.
  - intros courseId Hc Hne [lat Hlat] [lon Hlon]. unfold generate_qr.
    rewrite Hc, Hlat, Hlon.
    destruct (String.eqb_spec courseId EmptyString); [contradiction|].
    split.
    + intros ->. reflexivity.
    + intros course -> Hf.
      destruct (String.eqb_spec (cd_facultyId course) userId);
        [contradiction | reflexivity].
  - intros out db' H.
    apply generate_qr_Json in H
      as (courseId & course & lat & lon & Hc & _ & _ & _ & Hd & Hf & -> & _).
    exists courseId, course. simpl. auto.
Qed.

(** X17.  A successful generate-qr stores, under the id of the new session,
    an active session of the requested course with nobody present, owned by
    the caller, and the token of the response.  The token verifies, carries
    the coordinates and the radius of the request, and expires
    [validitySeconds * 1000] ms after the request.  No other session or token
    changes, and no other collection. *)
Theorem generate_qr_effect (QR_SECRET : option string)
    (courseDocs : gmap string CourseDoc) (db : Db) (userId : string)
    (body : QrBody) (now : Z) (sessionRef : string) (out : QrIssued)
    (db' : Db) :
  generate_qr QR_SECRET courseDocs db userId body now sessionRef
  = (Json out, db') ->
  qi_sessionId out = sessionRef
  /\ qi_expiresIn out = qr_validitySeconds body
  /\ sessions db' !! sessionRef = Some (qi_session out)
  /\ ses_isActive (qi_session out) = true
  /\ ses_presentCount (qi_session out) = 0
  /\ ses_endedAt (qi_session out) = None
  /\ ses_facultyId (qi_session out) = userId
  /\ qb_courseId body = Some (ses_courseId (qi_session out))
  /\ activeQRs db' !! sessionRef = Some (qi_qrPayload out)
  /\ verifyQRSignature QR_SECRET (qi_qrPayload out) = true
  /\ qr_sessionId (qi_qrPayload out) = sessionRef
  /\ qr_courseId (qi_qrPayload out) = ses_courseId (qi_session out)
  /\ qr_timestamp (qi_qrPayload out) = now
  /\ qr_expiresAt (qi_qrPayload out) = now + qr_validitySeconds body * 1000
  /\ (exists loc, qr_location (qi_qrPayload out) = Some loc
        /\ qr_latitude body = Some (loc_latitude loc)
        /\ qr_longitude body = Some (loc_longitude loc)
        /\ loc_radius loc = Some (qr_radius body))
  /\ (forall k, k <> sessionRef ->
        sessions db' !! k = sessions db !! k
        /\ activeQRs db' !! k = activeQRs db !! k)
  /\ attendance db' = attendance db
  /\ enrollments db' = enrollments db
  /\ courses db' = courses db
  /\ students db' = students db.
Proof.
  intros H.
  apply generate_qr_Json in H
    as (courseId & course & lat & lon & Hc & _ & Hlat & Hlon & _ & _ & -> & ->).
  cbn [qi_sessionId qi_expiresIn qi_session qi_qrPayload ses_isActive
       ses_presentCount ses_endedAt ses_facultyId ses_courseId].
  repeat match goal with |- _ /\ _ => split end;
    try reflexivity; try assumption.
  - simpl. apply lookup_insert_eq.
  - simpl. apply lookup_insert_eq.
  - apply verify_issued.
  - eexists. split; [reflexivity|]. simpl. auto.
  - intros k Hk. simpl.
    split; apply lookup_insert_ne; congruence.
Qed.

Lemma maxDistance_of_nonneg (loc : Location) (r : Q) :
  loc_radius loc = Some r -> (0 <= r)%Q ->
  Number.leb Number.zero (Number.of_Q (maxDistance_of loc)) = true.
Proof.
  intros Hr H0. unfold maxDistance_of. rewrite Hr.
  destruct (truthy (Some r)); apply of_Q_nonneg; [exact H0 | discriminate].
Qed.

Lemma verify_geolocation_at_class {M : Math} (payload : QRPayload)
    (loc : Location) (r : Q) :
  sin_keeps_zero -> cos_in_unit_range -> atan2_keeps_zero ->
  Number.is_finite (radians (Number.of_Q (loc_latitude loc))) = true ->
  Number.is_finite (Number.of_Q (loc_longitude loc)) = true ->
  qr_location payload = Some loc -> loc_radius loc = Some r -> (0 <= r)%Q ->
  verify_geolocation payload (Some (loc_latitude loc))
    (Some (loc_longitude loc)) = inr (true, Number.zero).
Proof.
  intros Hsin Hcos Hatan Hlat Hlon Hloc Hr H0.
  unfold verify_geolocation. rewrite Hloc.
  destruct (truthy _ && truthy _); [|reflexivity].
  cbv zeta. rewrite calculateDistance_same by assumption.
  now rewrite (maxDistance_of_nonneg loc r).
Qed.

(** X18.  An issued token can be used.  A student with an active enrollment
    in the course and no attendance document for the session, who presents
    the token of the response no later than its expiry, is marked present
    with distance 0 and the counter of the session becomes 1, if the request
    has no latitude or longitude (or a zero one), or if it comes from the
    coordinates of the class and the radius is not negative.  In the second
    case the coordinates are finite doubles that stay finite in radians, and
    the platform gives 0 for the sine of 0 and for the arc tangent of 0 over
    1, and a cosine between -1 and 1: the distance is then exactly 0. *)
Theorem issued_token_is_accepted {M : Math} (QR_SECRET : option string)
    (courseDocs : gmap string CourseDoc) (db : Db) (facultyId : string)
    (body : QrBody) (now : Z) (sessionRef : string) (out : QrIssued)
    (db1 : Db) (studentId : string) (req : ScanRequest) (now' : Z) :
  generate_qr QR_SECRET courseDocs db facultyId body now sessionRef
  = (Json out, db1) ->
  req_qrData req = Some (qi_qrPayload out) ->
  now' <= now + qr_validitySeconds body * 1000 ->
  active_enrollments db studentId (ses_courseId (qi_session out)) <> [] ->
  attendance_of db sessionRef studentId = [] ->
  truthy (req_latitude req) = false \/ truthy (req_longitude req) = false \/
  (req_latitude req = qr_latitude body /\ req_longitude req = qr_longitude body
   /\ (0 <= qr_radius body)%Q
   /\ sin_keeps_zero /\ cos_in_unit_range /\ atan2_keeps_zero
   /\ (forall lat, qr_latitude body = Some lat ->
         Number.is_finite (radians (Number.of_Q lat)) = true)
   /\ (forall lon, qr_longitude body = Some lon ->
         Number.is_finite (Number.of_Q lon) = true)) ->
  exists ok db2,
    scan_qr QR_SECRET db1 studentId req now' = (Success ok, db2)
    /\ scan_distance ok = Some 0
    /\ att_locationVerified (scan_attendance ok) = true
    /\ present_in (attendance db2) sessionRef studentId
    /\ sessions db2 !! sessionRef
       = Some (increment_presentCount 1 (qi_session out)).
Proof.
  intros Hgen Hparse Hlive Henr Hatt Hgeo.
  apply generate_qr_Json in Hgen
    as (courseId & course & lat & lon & Hc & _ & Hlat & Hlon & _ & _ & -> & ->).
  cbn [qi_session qi_qrPayload ses_courseId] in *.
  set (payload := generateQRPayload _ _ _ _ _ _ _) in *.
  set (session := mkSession _ _ _ _ _ _) in *.
  assert (Hv : verify_geolocation payload (req_latitude req) (req_longitude req)
               = inr (true, Number.zero)).
  { destruct Hgeo
      as [Hg|[Hg|(H1 & H2 & H3 & Hsin & Hcos & Hatan & Hflat & Hflon)]].
    - apply verify_geolocation_skipped; auto.
    - apply verify_geolocation_skipped; auto.
    - rewrite H1, H2, Hlat, Hlon.
      apply (verify_geolocation_at_class payload
               {| loc_latitude := lat; loc_longitude := lon;
                  loc_radius := Some (qr_radius body) |} (qr_radius body));
        auto. }
  unfold scan_qr. rewrite Hparse.
  replace (verifyQRSignature QR_SECRET payload) with true
    by (symmetry; apply verify_issued).
  cbn [negb].
  destruct (Z.gtb_spec now' (qr_expiresAt payload)) as [Hlate|_];
    [simpl in Hlate; lia|].
  change (qr_sessionId payload) with sessionRef.
  change (qr_courseId payload) with courseId.
  cbn [sessions set_activeQRs set_sessions].
  rewrite lookup_insert_eq.
  change (active_enrollments (set_activeQRs _ _) studentId courseId)
    with (active_enrollments db studentId courseId).
  change (attendance_of (set_activeQRs _ _) sessionRef studentId)
    with (attendance_of db sessionRef studentId).
  destruct (active_enrollments db studentId courseId) as [|e es] eqn:E;
    [contradiction|].
  rewrite Hatt. cbn [snapshot_empty negb]. rewrite Hv.
  unfold mark_attendance. eexists _, _. split; [reflexivity|].
  cbn [scan_distance scan_attendance attendanceData_of att_locationVerified].
  split; [apply Math_round_0|]. split; [reflexivity|]. split.
  - exists (length (attendance db)),
      (attendanceData_of payload studentId req now' true Number.zero).
    simpl. split; [|auto].
    rewrite lookup_app_r by lia. now rewrite Nat.sub_diag.
  - simpl. rewrite lookup_alter_eq, lookup_insert_eq. reflexivity.
Qed.

Lemma count_present_refers (db : Db) (sessionId : string) :
  attendance_refers db -> sessions db !! sessionId = None ->
  count_present (attendance db) sessionId = 0%nat.
Proof.
  intros Href Hnone. unfold count_present.
  rewrite filter_nil; [reflexivity|].
  intros a Ha. apply Href in Ha as [s Hs].
  destruct (String.eqb_spec (att_sessionId a) sessionId) as [E|_];
    [|reflexivity].
  rewrite E in Hs. congruence.
Qed.

(** X19.  If every attendance document belongs to a session that exists,
    this is still so after a scan, a manual reconciliation, a stop or a
    generate-qr, whatever their outcome; and a generate-qr whose new session
    id is not yet in use keeps every counter equal to the number of [present]
    documents of its session. *)
Theorem handlers_keep_attendance_refers {M : Math} (db : Db) :
  attendance_refers db ->
  (forall QR_SECRET userId req now r db',
     scan_qr QR_SECRET db userId req now = (r, db') ->
     attendance_refers db') /\
  (forall userId sessionId ids now r db',
     manual_attendance db userId sessionId ids now = (r, db') ->
     attendance_refers db') /\
  (forall userId sessionId now r db',
     stop_session db userId sessionId now = (r, db') ->
     attendance_refers db') /\
  (forall QR_SECRET courseDocs userId body now sessionRef r db',
     generate_qr QR_SECRET courseDocs db userId body now sessionRef = (r, db') ->
     attendance_refers db'
     /\ (sessions db !! sessionRef = None -> counters_ok db ->
         counters_ok db')).
Proof.
  intros Href. repeat split.
  - intros QR_SECRET userId req now r db' H.
    apply scan_qr_outcome in H as [->|(payload & session & a & Hs & Ha & _ & ->)];
      [exact Href|].
    intros b Hb. simpl in Hb. simpl.
    apply elem_of_app in Hb as [Hb|Hb].
    + apply Href in Hb as [s Hb].
      destruct (decide (qr_sessionId payload = att_sessionId b)) as [E|E].
      * rewrite <- E, lookup_alter_eq, Hs. eauto.
      * rewrite lookup_alter_ne by exact E. eauto.
    + apply list_elem_of_singleton in Hb as ->.
      rewrite Ha, lookup_alter_eq, Hs. eauto.
  - intros userId sessionId ids now r db' H.
    destruct r as [ok|e].
    + destruct (manual_attendance_Success _ _ _ _ _ _ _ H) as (session & Hs & Hf).
      rewrite (manual_attendance_owner _ _ _ _ _ _ Hs Hf) in H.
      injection H as _ Hdb. cbv zeta in Hdb.
      assert (Hdocs : forall b, b ∈ reconciled_docs db sessionId session ids now ->
                is_Some (sessions db !! att_sessionId b)).
      { intros b Hb. apply list_elem_of_lookup in Hb as [j Hj].
        apply reconciled_docs_lookup in Hj
          as [(a & Ha & [-> | ->])|(k & y & _ & _ & ->)].
        - apply Href. eapply list_elem_of_lookup_2; eauto.
        - simpl. apply Href. eapply list_elem_of_lookup_2; eauto.
        - simpl. rewrite Hs. eauto. }
      intros b Hb. subst db'.
      destruct (negb _); simpl in Hb |- *.
      * apply Hdocs in Hb as [s Hb].
        destruct (decide (sessionId = att_sessionId b)) as [E|E].
        -- rewrite <- E, lookup_alter_eq, Hs. eauto.
        -- rewrite lookup_alter_ne by exact E. eauto.
      * now apply Hdocs.
    + unfold manual_attendance in H.
      repeat case_match; simplify_eq; exact Href.
  - intros userId sessionId now r db' H. unfold stop_session in H.
    destruct (sessions db !! sessionId) as [s|] eqn:Hs; simplify_eq;
      [|exact Href].
    intros b Hb. simpl in Hb |- *. apply Href in Hb as [s' Hb].
    destruct (decide (sessionId = att_sessionId b)) as [E|E].
    + rewrite <- E, lookup_insert_eq. eauto.
    + rewrite lookup_insert_ne by exact E. eauto.
  - destruct r as [out|status error].
    + apply generate_qr_Json in H
        as (courseId & course & lat & lon & _ & _ & _ & _ & _ & _ & -> & ->).
      intros b Hb. simpl in Hb |- *. apply Href in Hb as [s' Hb].
      destruct (decide (sessionRef = att_sessionId b)) as [E|E].
      * rewrite <- E, lookup_insert_eq. eauto.
      * rewrite lookup_insert_ne by exact E. eauto.
    + unfold generate_qr in H. repeat case_match; simplify_eq; exact Href.
  - intros Hfresh Hok. destruct r as [out|status error].
    + apply generate_qr_Json in H
        as (courseId & course & lat & lon & _ & _ & _ & _ & _ & _ & -> & ->).
      intros k s. simpl.
      destruct (decide (sessionRef = k)) as [<-|E].
      * rewrite lookup_insert_eq. intros [= <-]. simpl.
        now rewrite count_present_refers.
      * rewrite lookup_insert_ne by exact E. apply Hok.
    + unfold generate_qr in H. repeat case_match; simplify_eq; exact Hok.
Qed.

(** ** Courses and enrollments *)

Lemma course_docs_elem (courseDocs : gmap string CourseDoc) i c :
  (i, c) ∈ course_docs courseDocs <-> courseDocs !! i = Some c.
Proof.
  unfold course_docs. rewrite merge_sort_Permutation.
  apply elem_of_map_to_list.
Qed.

Lemma courseDocs_with_joinCode_cons (courseDocs : gmap string CourseDoc)
    (joinCode : string) d l :
  courseDocs_with_joinCode courseDocs joinCode = d :: l ->
  courseDocs !! fst d = Some (snd d) /\ cd_joinCode (snd d) = Some joinCode.
Proof.
  unfold courseDocs_with_joinCode. intros H.
  apply limit_1_filter_cons in H as [Hd Hj]. destruct d as [i c].
  apply course_docs_elem in Hd. split; [exact Hd|]. simpl in Hj |- *.
  destruct (cd_joinCode c) as [j|]; [|discriminate].
  apply String.eqb_eq in Hj. now subst.
Qed.

Lemma courseDocs_with_joinCode_nil (courseDocs : gmap string CourseDoc)
    (joinCode : string) :
  courseDocs_with_joinCode courseDocs joinCode = [] <->
  forall i c, courseDocs !! i = Some c -> cd_joinCode c <> Some joinCode.
Proof.
  unfold courseDocs_with_joinCode. rewrite limit_1_filter_nil. split.
  - intros H i c Hc Hj. apply course_docs_elem in Hc.
    specialize (H _ Hc). simpl in H. rewrite Hj, String.eqb_refl in H.
    discriminate.
  - intros H [i c] Hc. apply course_docs_elem in Hc. simpl.
    destruct (cd_joinCode c) as [j|] eqn:Hj; [|reflexivity].
    apply String.eqb_neq. intros ->. now apply (H i c).
Qed.

Lemma enrollments_of_nil (db : Db) (studentId courseId : string) :
  enrollments_of db studentId courseId = [] <->
  forall e, e ∈ enrollments db ->
    ~ (enr_studentId e = studentId /\ enr_courseId e = courseId).
Proof.
  unfold enrollments_of. rewrite limit_1_filter_nil.
  split; intros H e He.
  - intros [H1 H2]. specialize (H e He).
    apply andb_false_iff in H as [H|H]; apply String.eqb_neq in H; congruence.
  - specialize (H e He). apply not_true_is_false. intros E.
    apply andb_true_iff in E as [E1 E2].
    apply String.eqb_eq in E1, E2. tauto.
Qed.

Lemma active_enrollments_cons (db : Db) (studentId courseId : string) e l :
  active_enrollments db studentId courseId = e :: l ->
  e ∈ enrollments db /\ enr_studentId e = studentId
  /\ enr_courseId e = courseId /\ enr_isActive e = true.
Proof.
  unfold active_enrollments. intros H.
  apply limit_1_filter_cons in H as [He Hf]. split; [exact He|].
  apply andb_true_iff in Hf as [Hf H3]. apply andb_true_iff in Hf as [H1 H2].
  apply String.eqb_eq in H1, H2. auto.
Qed.

Lemma active_enrollments_joined (db : Db) (studentId courseId : string) :
  active_enrollments
    (set_enrollments db
       (enrollments db ++ [{| enr_studentId := studentId;
                              enr_courseId := courseId;
                              enr_isActive := true |}]))
    studentId courseId <> [].
Proof.
  unfold active_enrollments. intros H.
  pose proof (proj1 (limit_1_filter_nil _ _) H) as H'.
  specialize (H' {| enr_studentId := studentId; enr_courseId := courseId;
                    enr_isActive := true |}).
  simpl in H'. rewrite !String.eqb_refl in H'.
  enough (true = false) by discriminate. apply H'.
  apply elem_of_app. right. apply list_elem_of_here.
Qed.

Section JoinCourseFacts.

Variable toUpperCase : string -> string.

Lemma join_course_Json (courseDocs : gmap string CourseDoc) (db : Db)
    (userId : string) (joinCode : option string) (enrRef : string) out cd' db' :
  join_course toUpperCase courseDocs db userId joinCode enrRef
  = (Json out, cd', db') ->
  exists code,
    joinCode = Some code /\ code <> EmptyString
    /\ courseDocs !! jo_courseId out = Some (jo_course out)
    /\ cd_joinCode (jo_course out) = Some (toUpperCase code)
    /\ enrollments_of db userId (jo_courseId out) = []
    /\ jo_enrollmentId out = enrRef
    /\ cd' = alter (increment_enrolledCount 1) (jo_courseId out) courseDocs
    /\ db' = set_enrollments db
               (enrollments db ++ [{| enr_studentId := userId;
                                      enr_courseId := jo_courseId out;
                                      enr_isActive := true |}]).
Proof.
  unfold join_course. intros H.
  destruct joinCode as [code|]; [|discriminate].
  destruct (String.eqb_spec code EmptyString) as [|Hne]; [discriminate|].
  destruct (courseDocs_with_joinCode courseDocs (toUpperCase code))
    as [|d l] eqn:Hq; [discriminate|].
  apply courseDocs_with_joinCode_cons in Hq as [Hd Hj].
  destruct (enrollments_of db userId (fst d)) as [|e es] eqn:He;
    [|discriminate].
  simpl in H. injection H as <- <- <-.
  exists code. simpl. repeat split; auto.
Qed.

Lemma join_course_Refused (courseDocs : gmap string CourseDoc) (db : Db)
    (userId : string) (joinCode : option string) (enrRef : string)
    status error cd' db' :
  join_course toUpperCase courseDocs db userId joinCode enrRef
  = (Refused status error, cd', db') ->
  cd' = courseDocs /\ db' = db /\ (status = 400 \/ status = 404).
Proof.
  unfold join_course. intros H. repeat case_match; simplify_eq; auto.
Qed.

End JoinCourseFacts.

(** X20.  join-course refuses with status 400 or 404 without changing
    anything, 404 being the answer when no course carries the upper-cased
    code.  When it succeeds, the course of the response carries the
    upper-cased code, the caller had no enrollment in it (active or not),
    one active enrollment of the caller in it is appended (which the
    enrollment query of the scan handler then finds), the [enrolledCount] of
    the course grows by 1, and nothing else changes. *)
Theorem join_course_outcomes (toUpperCase : string -> string)
    (courseDocs : gmap string CourseDoc) (db : Db) (userId : string)
    (joinCode : option string) (enrRef : string) :
  (forall status error cd' db',
     join_course toUpperCase courseDocs db userId joinCode enrRef
     = (Refused status error, cd', db') ->
     cd' = courseDocs /\ db' = db /\ (status = 400 \/ status = 404)) /\
  (forall code, joinCode = Some code -> code <> EmptyString ->
     (forall i c, courseDocs !! i = Some c ->
                  cd_joinCode c <> Some (toUpperCase code)) ->
     fst (fst (join_course toUpperCase courseDocs db userId joinCode enrRef))
     = Refused 404 "Invalid join code") /\
  (forall out cd' db',
     join_course toUpperCase courseDocs db userId joinCode enrRef
     = (Json out, cd', db') ->
     exists code,
       joinCode = Some code
       /\ courseDocs !! jo_courseId out = Some (jo_course out)
       /\ cd_joinCode (jo_course out) = Some (toUpperCase code)
       /\ (forall e, e ∈ enrollments db ->
             ~ (enr_studentId e = userId /\ enr_courseId e = jo_courseId out))
       /\ enrollments db'
          = enrollments db ++ [{| enr_studentId := userId;
                                  enr_courseId := jo_courseId out;
                                  enr_isActive := true |}]
       /\ active_enrollments db' userId (jo_courseId out) <> []
       /\ cd' !! jo_courseId out
          = Some (increment_enrolledCount 1 (jo_course out))
       /\ (forall k, k <> jo_courseId out -> cd' !! k = courseDocs !! k)
       /\ sessions db' = sessions db /\ activeQRs db' = activeQRs db
       /\ attendance db' = attendance db /\ courses db' = courses db
       /\ students db' = students db).
Proof.
  split; [|split].
  - intros status error cd' db'. apply join_course_Refused.
  - intros code -> Hne Hnone. unfold join_course.
    destruct (String.eqb_spec code EmptyString); [contradiction|].
    now rewrite (proj2 (courseDocs_with_joinCode_nil _ _) Hnone).
  - intros out cd' db' H.
    apply join_course_Json in H
      as (code & -> & _ & Hd & Hj & He & _ & -> & ->).
    exists code. split; [reflexivity|]. split; [exact Hd|].
    split; [exact Hj|]. split; [now apply enrollments_of_nil|].
    split; [reflexivity|]. split; [apply active_enrollments_joined|].
    split; [now rewrite lookup_alter_eq, Hd|].
    split; [intros k Hk; apply lookup_alter_ne; congruence|].
    simpl. auto.
Qed.

(** X21.  When a single course carries the code, joining it a second time,
    with the code in any letter case, is refused as already enrolled and
    changes nothing: the [enrolledCount] has grown by 1 only. *)
Theorem join_course_twice (toUpperCase : string -> string)
    (courseDocs : gmap string CourseDoc) (db : Db) (userId : string)
    (code : string) (enrRef : string) (out : Joined)
    (cd1 : gmap string CourseDoc) (db1 : Db) (code' enrRef' : string) :
  joinCode_unique courseDocs (toUpperCase code) ->
  join_course toUpperCase courseDocs db userId (Some code) enrRef
  = (Json out, cd1, db1) ->
  code' <> EmptyString ->
  toUpperCase code' = toUpperCase code ->
  join_course toUpperCase cd1 db1 userId (Some code') enrRef'
  = (Refused 400 "Already enrolled in this course", cd1, db1)
  /\ cd_enrolledCount <$> cd1 !! jo_courseId out
     = Some (Some (default 0 (cd_enrolledCount (jo_course out)) + 1)).
Proof.
  intros Huniq H Hne Hup.
  apply join_course_Json in H
    as (code0 & [= <-] & _ & Hd & Hj & He & _ & -> & ->).
  split; [|now rewrite lookup_alter_eq, Hd].
  unfold join_course.
  destruct (String.eqb_spec code' EmptyString); [contradiction|].
  rewrite Hup.
  destruct (courseDocs_with_joinCode _ (toUpperCase code)) as [|d l] eqn:Hq.
  - exfalso.
    pose proof (proj1 (courseDocs_with_joinCode_nil _ _) Hq) as Hnone.
    apply (Hnone (jo_courseId out)
             (increment_enrolledCount 1 (jo_course out))).
    + now rewrite lookup_alter_eq, Hd.
    + exact Hj.
  - apply courseDocs_with_joinCode_cons in Hq as [Hd' Hj'].
    assert (Hid : fst d = jo_courseId out).
    { destruct (decide (fst d = jo_courseId out)) as [E|E]; [exact E|].
      rewrite lookup_alter_ne in Hd' by congruence.
      exact (Huniq _ _ _ _ Hd' Hd Hj' Hj). }
    rewrite Hid. clear He.
    destruct (enrollments_of _ userId (jo_courseId out)) as [|e es] eqn:He';
      [|reflexivity].
    exfalso.
    pose proof (proj1 (enrollments_of_nil _ _ _) He') as Hno.
    apply (Hno {| enr_studentId := userId; enr_courseId := jo_courseId out;
                  enr_isActive := true |}).
    + simpl. apply elem_of_app. right. apply list_elem_of_here.
    + split; reflexivity.
Qed.

Lemma enroll_student_Json (students_by_email : string -> list string)
    (db : Db) (userId : string) (body : EnrollBody) (u : unit) (db' : Db) :
  enroll_student students_by_email db userId body = (Json u, db') ->
  exists courseId email studentId rest,
    eb_courseId body = Some courseId /\ courseId <> EmptyString
    /\ or_else (or_else (eb_studentEmail body) (eb_studentId body))
         (eb_email body) = Some email
    /\ email <> EmptyString
    /\ students_by_email email = studentId :: rest
    /\ enrollments_of db studentId courseId = []
    /\ db' = set_enrollments db
               (enrollments db ++ [{| enr_studentId := studentId;
                                      enr_courseId := courseId;
                                      enr_isActive := true |}]).
Proof.
  unfold enroll_student. intros H.
  destruct (eb_courseId body) as [courseId|]; [|discriminate].
  destruct (or_else _ (eb_email body)) as [email|]; simpl in H;
    [|rewrite orb_true_r in H; discriminate].
  destruct (String.eqb_spec courseId EmptyString) as [|Hc]; [discriminate|].
  destruct (String.eqb_spec email EmptyString) as [|He]; [discriminate|].
  simpl in H.
  destruct (students_by_email email) as [|studentId rest] eqn:Hs;
    [discriminate|].
  destruct (enrollments_of db studentId courseId) as [|e es] eqn:Hx;
    [|discriminate].
  simpl in H. injection H as <-.
  exists courseId, email, studentId, rest. auto 10.
Qed.

(** X22.  enroll-student refuses with status 400 or 404 without changing
    anything.  When it succeeds, the student is the first one found for the
    first non-empty of [studentEmail], [studentId] and [email]; the student
    had no enrollment in the course, one active enrollment is appended
    (which the enrollment query of the scan handler then finds), and nothing
    else changes.  The outcome does not depend on who the caller is. *)
Theorem enroll_student_outcomes (students_by_email : string -> list string)
    (db : Db) (userId : string) (body : EnrollBody) :
  (forall status error db',
     enroll_student students_by_email db userId body
     = (Refused status error, db') ->
     db' = db /\ (status = 400 \/ status = 404)) /\
  (forall u db',
     enroll_student students_by_email db userId body = (Json u, db') ->
     exists courseId email studentId rest,
       eb_courseId body = Some courseId
       /\ or_else (or_else (eb_studentEmail body) (eb_studentId body))
            (eb_email body) = Some email
       /\ students_by_email email = studentId :: rest
       /\ (forall e, e ∈ enrollments db ->
             ~ (enr_studentId e = studentId /\ enr_courseId e = courseId))
       /\ enrollments db'
          = enrollments db ++ [{| enr_studentId := studentId;
                                  enr_courseId := courseId;
                                  enr_isActive := true |}]
       /\ active_enrollments db' studentId courseId <> []
       /\ sessions db' = sessions db /\ activeQRs db' = activeQRs db
       /\ attendance db' = attendance db /\ courses db' = courses db
       /\ students db' = students db) /\
  (forall userId',
     enroll_student students_by_email db userId' body
     = enroll_student students_by_email db userId body).
Proof.
  split; [|split].
  - unfold enroll_student. intros status error db' H.
    repeat case_match; simplify_eq; auto.
  - intros u db' H.
    apply enroll_student_Json in H
      as (courseId & email & studentId & rest & Hc & _ & He & _ & Hs & Hx & ->).
    exists courseId, email, studentId, rest.
    split; [exact Hc|]. split; [exact He|]. split; [exact Hs|].
    split; [now apply enrollments_of_nil|]. split; [reflexivity|].
    split; [apply active_enrollments_joined|]. simpl. auto.
  - reflexivity.
Qed.

Lemma one_enrollment_each_NoDup (db : Db) :
  one_enrollment_each db <-> NoDup (enrollment_key <$> enrollments db).
Proof.
  unfold one_enrollment_each. rewrite NoDup_alt. split.
  - intros H i j x Hi Hj. rewrite list_lookup_fmap in Hi, Hj.
    destruct (enrollments db !! i) as [a|] eqn:Ea; [|discriminate].
    destruct (enrollments db !! j) as [b|] eqn:Eb; [|discriminate].
    simpl in Hi, Hj. unfold enrollment_key in Hi, Hj.
    apply (H i j a b); auto; congruence.
  - intros H i j a b Hi Hj H1 H2.
    apply (H i j (enrollment_key a)); rewrite list_lookup_fmap.
    + now rewrite Hi.
    + rewrite Hj. simpl. unfold enrollment_key. now rewrite H1, H2.
Qed.

Lemma one_enrollment_each_snoc (db : Db) (e : Enrollment) :
  one_enrollment_each db ->
  enrollments_of db (enr_studentId e) (enr_courseId e) = [] ->
  one_enrollment_each (set_enrollments db (enrollments db ++ [e])).
Proof.
  rewrite !one_enrollment_each_NoDup. simpl. intros Hnd Hnone.
  rewrite fmap_app. apply NoDup_app. split; [exact Hnd|]. split.
  - intros k Hk Hk'. simpl in Hk'. apply list_elem_of_singleton in Hk'.
    subst k. apply list_elem_of_fmap in Hk as (a & Ha & Hin).
    unfold enrollment_key in Ha. injection Ha as H1 H2.
    apply (proj1 (enrollments_of_nil _ _ _) Hnone a Hin). auto.
  - simpl. apply NoDup_singleton.
Qed.

Lemma one_enrollment_each_filter (db : Db) (f : Enrollment -> bool) :
  one_enrollment_each db ->
  one_enrollment_each (set_enrollments db (List.filter f (enrollments db))).
Proof.
  rewrite !one_enrollment_each_NoDup. simpl.
  induction (enrollments db) as [|e l IH]; simpl; [auto|].
  intros Hnd. apply NoDup_cons in Hnd as [Hnot Hnd].
  destruct (f e); [|now apply IH].
  simpl. apply NoDup_cons. split; [|now apply IH].
  intros Hin. apply Hnot.
  apply list_elem_of_fmap in Hin as (a & Ha & Hin).
  apply filter_elem in Hin as [Hin _].
  apply list_elem_of_fmap. eauto.
Qed.

(** X23.  If no (student, course) pair has two enrollment documents, this
    is still so after a join-course, an enroll-student or a delete of a
    course, whatever their outcome. *)
Theorem handlers_keep_one_enrollment_each (db : Db) :
  one_enrollment_each db ->
  (forall toUpperCase courseDocs userId joinCode enrRef r cd' db',
     join_course toUpperCase courseDocs db userId joinCode enrRef
     = (r, cd', db') ->
     one_enrollment_each db') /\
  (forall students_by_email userId body r db',
     enroll_student students_by_email db userId body = (r, db') ->
     one_enrollment_each db') /\
  (forall courseDocs userId courseId r cd' db',
     delete_course courseDocs db userId courseId = (r, cd', db') ->
     one_enrollment_each db').
Proof.
  intros Hone. repeat split.
  - intros toUpperCase courseDocs userId joinCode enrRef r cd' db' H.
    destruct r as [out|status error].
    + apply join_course_Json in H as (code & _ & _ & _ & _ & He & _ & _ & ->).
      now apply one_enrollment_each_snoc.
    + apply join_course_Refused in H as (_ & -> & _). exact Hone.
  - intros students_by_email userId body r db' H.
    destruct r as [u|status error].
    + apply enroll_student_Json in H
        as (courseId & email & studentId & rest & _ & _ & _ & _ & _ & Hx & ->).
      now apply one_enrollment_each_snoc.
    + unfold enroll_student in H. repeat case_match; simplify_eq; exact Hone.
  - intros courseDocs userId courseId r cd' db' H.
    unfold delete_course in H. repeat case_match; simplify_eq; try exact Hone.
    now apply one_enrollment_each_filter.
Qed.

Lemma scan_qr_Success_enrolled {M : Math} (QR_SECRET : option string) (db : Db)
    (userId : string) (req : ScanRequest) (now : Z) (ok : ScanSuccess)
    (db' : Db) :
  scan_qr QR_SECRET db userId req now = (Success ok, db') ->
  exists payload e,
    req_qrData req = Some payload
    /\ e ∈ enrollments db /\ enr_studentId e = userId
    /\ enr_courseId e = qr_courseId payload /\ enr_isActive e = true.
Proof.
  unfold scan_qr. intros H.
  destruct (req_qrData req) as [payload|]; [|discriminate].
  destruct (negb (verifyQRSignature QR_SECRET payload)); [discriminate|].
  destruct (now >? qr_expiresAt payload); [discriminate|].
  destruct (sessions db !! qr_sessionId payload); [|discriminate].
  destruct (active_enrollments db userId (qr_courseId payload))
    as [|e l] eqn:He; [discriminate|].
  apply active_enrollments_cons in He. exists payload, e. tauto.
Qed.

(** The view of the collection holds the documents of the map. *)
Lemma courses_of_elem (courseDocs : gmap string CourseDoc) (c : Course) :
  c ∈ courses_of courseDocs <->
  exists k d, courseDocs !! k = Some d /\ c = course_of d.
Proof.
  unfold courses_of. rewrite list_elem_of_In, in_map_iff. split.
  - intros ([k d] & <- & Hin). apply list_elem_of_In, course_docs_elem in Hin.
    eauto.
  - intros (k & d & Hd & ->). exists (k, d). split; [reflexivity|].
    now apply list_elem_of_In, course_docs_elem.
Qed.

Lemma scan_qr_needs_enrollment {M : Math} (QR_SECRET : option string)
    (db : Db) (userId : string) (req : ScanRequest) (now : Z)
    (payload : QRPayload) (ok : ScanSuccess) (db' : Db) :
  (forall e, e ∈ enrollments db -> enr_isActive e = true ->
             enr_courseId e <> qr_courseId payload) ->
  req_qrData req = Some payload ->
  scan_qr QR_SECRET db userId req now <> (Success ok, db').
Proof.
  intros Hnone Hparse Hscan.
  apply scan_qr_Success_enrolled in Hscan
    as (payload' & e & Hp & He & _ & Hc & Ha).
  rewrite Hparse in Hp. injection Hp as <-.
  exact (Hnone e He Ha Hc).
Qed.

(** X24.  Deleting a course is refused with status 400, 404 or 403 without
    changing anything, 403 being the answer for a caller who is not the
    faculty of the course.  When it succeeds, the caller is the faculty of
    the course, the course document is gone and the others are untouched,
    also for the join-code loop, for which a join code that only the deleted
    course carried is free again; the enrollments left are those of the
    other courses, sessions and attendance are untouched, and no scan of a
    token of that course succeeds in the state the delete leaves, nor in any
    other state without an active enrollment in the course. *)
Theorem delete_course_effect {M : Math} (courseDocs : gmap string CourseDoc)
    (db : Db) (userId courseId : string) :
  (forall status error cd' db',
     delete_course courseDocs db userId courseId
     = (Refused status error, cd', db') ->
     cd' = courseDocs /\ db' = db
     /\ (status = 400 \/ status = 404 \/ status = 403)) /\
  (forall course, courseId <> EmptyString ->
     courseDocs !! courseId = Some course -> cd_facultyId course <> userId ->
     fst (fst (delete_course courseDocs db userId courseId))
     = Refused 403 "Not authorized to delete this course") /\
  (forall u cd' db',
     delete_course courseDocs db userId courseId = (Json u, cd', db') ->
     (exists course, courseDocs !! courseId = Some course
                     /\ cd_facultyId course = userId)
     /\ cd' !! courseId = None
     /\ (forall k, k <> courseId -> cd' !! k = courseDocs !! k)
     /\ (forall e, e ∈ enrollments db' <->
                   e ∈ enrollments db /\ enr_courseId e <> courseId)
     /\ sessions db' = sessions db /\ activeQRs db' = activeQRs db
     /\ attendance db' = attendance db
     /\ courses db' = courses_of cd'
     /\ (forall c, c ∈ courses db' <->
           exists k d, k <> courseId /\ courseDocs !! k = Some d
                       /\ c = course_of d)
     /\ (forall joinCode,
           (forall k d, courseDocs !! k = Some d ->
                        cd_joinCode d = Some joinCode -> k = courseId) ->
           ~ joinCode_taken db' joinCode)
     /\ students db' = students db
     /\ (forall QR_SECRET studentId req now payload ok db'',
           req_qrData req = Some payload -> qr_courseId payload = courseId ->
           scan_qr QR_SECRET db' studentId req now <> (Success ok, db''))
     /\ (forall QR_SECRET db2 studentId req now payload ok db'',
           (forall e, e ∈ enrollments db2 -> enr_isActive e = true ->
                      enr_courseId e <> courseId) ->
           req_qrData req = Some payload -> qr_courseId payload = courseId ->
           scan_qr QR_SECRET db2 studentId req now <> (Success ok, db''))).
Proof.
  split; [|split].
  - unfold delete_course. intros status error cd' db' H.
    repeat case_match; simplify_eq; auto.
  - intros course Hne Hc Hf. unfold delete_course. rewrite Hc.
    destruct (String.eqb_spec courseId EmptyString); [contradiction|].
    destruct (String.eqb_spec (cd_facultyId course) userId);
      [contradiction | reflexivity].
  - unfold delete_course. intros u cd' db' H.
    destruct (String.eqb_spec courseId EmptyString); [discriminate|].
    destruct (courseDocs !! courseId) as [course|] eqn:Hc; [|discriminate].
    destruct (String.eqb_spec (cd_facultyId course) userId) as [Hf|];
      [|discriminate].
    cbn [negb] in H. cbv zeta in H. injection H as _ <- <-.
    cbn [enrollments sessions activeQRs attendance courses students
         set_enrollments set_courses].
    assert (Henr : forall e,
              e ∈ List.filter
                    (fun e => negb (String.eqb (enr_courseId e) courseId))
                    (enrollments db)
              <-> e ∈ enrollments db /\ enr_courseId e <> courseId).
    { intros e. rewrite filter_elem, negb_true_iff, String.eqb_neq.
      reflexivity. }
    assert (Hcourses : forall c,
              c ∈ courses_of (delete courseId courseDocs) <->
              exists k d, k <> courseId /\ courseDocs !! k = Some d
                          /\ c = course_of d).
    { intros c. rewrite courses_of_elem. split.
      - intros (k & d & Hd & ->). apply lookup_delete_Some in Hd as [Hk Hd].
        exists k, d. auto.
      - intros (k & d & Hk & Hd & ->). exists k, d.
        split; [|reflexivity]. apply lookup_delete_Some. auto. }
    split; [eauto|]. split; [apply lookup_delete_eq|].
    split; [intros k Hk; apply lookup_delete_ne; congruence|].
    split; [exact Henr|].
    do 4 (split; [reflexivity|]).
    split; [exact Hcourses|].
    split.
    { intros joinCode Hfree (c & Hin & Hj). unfold courses in Hin.
      apply Hcourses in Hin as (k & d & Hk & Hd & ->).
      apply Hk. exact (Hfree k d Hd Hj). }
    split; [reflexivity|]. split.
    + intros QR_SECRET studentId req now payload ok db'' Hparse Hcid.
      apply scan_qr_needs_enrollment with (payload := payload);
        [|exact Hparse].
      intros e He _. cbn [enrollments set_enrollments set_courses] in He.
      apply Henr in He as [_ He]. congruence.
    + intros QR_SECRET db2 studentId req now payload ok db'' Hnone Hparse Hcid.
      apply scan_qr_needs_enrollment with (payload := payload);
        [|exact Hparse].
      rewrite Hcid. exact Hnone.
Qed.

(** ** The read handlers *)

Lemma filter_length_Permutation {A : Type} (f : A -> bool) (l k : list A) :
  l ≡ₚ k -> length (List.filter f l) = length (List.filter f k).
Proof.
  induction 1 as [|x l k _ IH|x y l|l k m _ IH1 _ IH2]; simpl.
  - reflexivity.
  - destruct (f x); simpl; now rewrite IH.
  - destruct (f x), (f y); reflexivity.
  - now rewrite IH1.
Qed.

Lemma filter_map_length {A B : Type} (g : A -> B) (f : B -> bool)
    (l : list A) :
  length (List.filter f (map g l))
  = length (List.filter (fun x => f (g x)) l).
Proof.
  induction l as [|x l IH]; simpl; [reflexivity|].
  destruct (f (g x)); simpl; now rewrite IH.
Qed.

Lemma filter_filter_length {A : Type} (f g : A -> bool) (l : list A) :
  length (List.filter g (List.filter f l))
  = length (List.filter (fun x => f x && g x) l).
Proof.
  induction l as [|x l IH]; simpl; [reflexivity|].
  destruct (f x); simpl; [|exact IH].
  destruct (g x); simpl; now rewrite IH.
Qed.

Lemma filter_imap_length {A : Type} (f : A -> bool) (l : list A) :
  forall h : nat -> nat,
  length (List.filter (fun d => f (snd d)) (imap (fun i a => (h i, a)) l))
  = length (List.filter f l).
Proof.
  induction l as [|x l IH]; intros h; simpl; [reflexivity|].
  specialize (IH (fun i => h (S i))).
  destruct (f x); simpl; now rewrite <- IH.
Qed.

Lemma count_present_session_attendance (db : Db) (sessionId : string) :
  length (List.filter (fun d => Status_eqb (att_status (snd d)) present)
            (session_attendance db sessionId))
  = count_present (attendance db) sessionId.
Proof.
  unfold session_attendance, count_present.
  rewrite filter_filter_length.
  apply (filter_imap_length
           (fun a => String.eqb (att_sessionId a) sessionId
                     && Status_eqb (att_status a) present)
           (attendance db) (fun i => i)).
Qed.

Lemma NoDup_List_filter {A : Type} (f : A -> bool) (l : list A) :
  NoDup l -> NoDup (List.filter f l).
Proof.
  induction l as [|x l IH]; simpl; [auto|].
  intros Hnd. apply NoDup_cons in Hnd as [Hx Hnd].
  destruct (f x); [|now apply IH].
  apply NoDup_cons. split; [|now apply IH].
  intros Hin. apply filter_elem in Hin as [Hin _]. contradiction.
Qed.

Lemma session_attendance_ids_NoDup (db : Db) (sessionId : string) :
  NoDup (fst <$> session_attendance db sessionId).
Proof.
  apply NoDup_fmap_fst.
  - intros i a b Ha Hb. apply session_attendance_elem in Ha as [Ha _].
    apply session_attendance_elem in Hb as [Hb _]. congruence.
  - unfold session_attendance. apply NoDup_List_filter.
    apply NoDup_alt. intros i j [k a] Hi Hj.
    rewrite list_lookup_imap in Hi, Hj.
    destruct (attendance db !! i); [|discriminate].
    destruct (attendance db !! j); [|discriminate].
    simpl in Hi, Hj. congruence.
Qed.

(** X25.  The attendance list of a session answers 404 for a session that
    does not exist.  Otherwise its attendees are the attendance documents of
    the session, each one once, latest first; [totalAttendees] is their
    number and [presentCount] the number of [present] documents of the
    session, which is the counter stored in the session when the counters
    are consistent. *)
Theorem session_roster_spec (db : Db) (sessionId : string) :
  (sessions db !! sessionId = None ->
   session_roster db sessionId = Refused 404 "Session not found") /\
  (forall session, sessions db !! sessionId = Some session ->
     exists ro,
       session_roster db sessionId = Json ro
       /\ ro_session ro = session
       /\ (forall x, x ∈ ro_attendees ro <->
             exists a, attendance db !! at_id x = Some a
                       /\ att_sessionId a = sessionId
                       /\ x = attendee_of db (at_id x, a))
       /\ NoDup (at_id <$> ro_attendees ro)
       /\ Sorted (fun x y => at_markedAt y <= at_markedAt x) (ro_attendees ro)
       /\ ro_totalAttendees ro = length (ro_attendees ro)
       /\ ro_presentCount ro = count_present (attendance db) sessionId
       /\ (counters_ok db ->
           ses_presentCount session = Z.of_nat (ro_presentCount ro))).
Proof.
  split.
  - unfold session_roster. now intros ->.
  - intros session Hs. unfold session_roster. rewrite Hs.
    eexists. split; [reflexivity|]. cbn [ro_session ro_attendees
      ro_presentCount ro_totalAttendees].
    assert (Hperm : orderBy_markedAt_desc (session_attendance db sessionId)
                    ≡ₚ session_attendance db sessionId)
      by apply merge_sort_Permutation.
    assert (Hcount :
      length (List.filter (fun a => Status_eqb (at_status a) present)
                (map (attendee_of db)
                   (orderBy_markedAt_desc (session_attendance db sessionId))))
      = count_present (attendance db) sessionId).
    { rewrite filter_map_length.
      rewrite (filter_length_Permutation _ _ _ Hperm).
      apply count_present_session_attendance. }
    split; [reflexivity|]. split; [|split; [|split; [|split; [|split]]]].
    + intros x. rewrite list_elem_of_In, in_map_iff. split.
      * intros ([i a] & <- & Hin). apply list_elem_of_In in Hin.
        rewrite Hperm in Hin. apply session_attendance_elem in Hin as [Hi Ha].
        exists a. simpl. auto.
      * intros (a & Hi & Ha & Hx). exists (at_id x, a).
        split; [now symmetry|]. apply list_elem_of_In. rewrite Hperm.
        now apply session_attendance_elem.
    + change (map (attendee_of db)) with (fmap (M := list) (attendee_of db)).
      rewrite <- list_fmap_compose.
      change (at_id ∘ attendee_of db) with (@fst nat Attendance).
      rewrite Hperm. apply session_attendance_ids_NoDup.
    + apply (Sorted_fmap (attendee_of db)
               (fun d1 d2 : nat * Attendance =>
                  Is_true (att_markedAt (snd d2) <=? att_markedAt (snd d1)))).
      * intros d1 d2 H. simpl. apply Is_true_true in H. lia.
      * apply Sorted_merge_sort.
        intros d1 d2.
        destruct (Z.le_ge_cases (att_markedAt (snd d1)) (att_markedAt (snd d2)))
          as [H|H]; [right | left]; apply Is_true_true; lia.
    + reflexivity.
    + exact Hcount.
    + intros Hok. rewrite Hcount. exact (Hok _ _ Hs).
Qed.

Lemma present_ids_elem (db : Db) (sessionId x : string) :
  x ∈ new_Set (map att_studentId
        (List.filter
           (fun a => String.eqb (att_sessionId a) sessionId
                     && Status_eqb (att_status a) present)
           (attendance db)))
  <-> present_in (attendance db) sessionId x.
Proof.
  rewrite new_Set_elem, list_elem_of_In, in_map_iff. unfold present_in. split.
  - intros (a & Hx & Hin). apply list_elem_of_In, filter_elem in Hin as [Hin Hf].
    apply andb_true_iff in Hf as [H1 H2].
    apply String.eqb_eq in H1. apply Status_eqb_eq in H2.
    apply list_elem_of_lookup in Hin as [i Hi]. exists i, a. auto.
  - intros (i & a & Hi & Hs & Hx & Hp). exists a. split; [exact Hx|].
    apply list_elem_of_In, filter_elem. split.
    + eapply list_elem_of_lookup_2; eauto.
    + rewrite Hs, Hp, String.eqb_refl. reflexivity.
Qed.

Lemma course_students_owner (courseDocs : gmap string CourseDoc) (db : Db)
    (userId courseId : string) (sessionId : option string) (course : CourseDoc) :
  courseDocs !! courseId = Some course -> cd_facultyId course = userId ->
  exists l,
    course_students courseDocs db userId courseId sessionId = Json l
    /\ (forall sid, sid ∈ es_id <$> l <->
          (exists e, e ∈ enrollments db /\ enr_studentId e = sid
                     /\ enr_courseId e = courseId /\ enr_isActive e = true)
          /\ is_Some (students db !! sid))
    /\ (forall s, s ∈ l ->
          es_present s = true <->
          exists k, sessionId = Some k /\ k <> EmptyString
                    /\ present_in (attendance db) k (es_id s)).
Proof.
  intros Hc Hf. unfold course_students. rewrite Hc, Hf, String.eqb_refl.
  cbn [negb]. eexists. split; [reflexivity|]. split.
  - intros sid. rewrite list_elem_of_fmap. split.
    + intros (s & -> & Hs). apply list_elem_of_In, in_map_iff in Hs
        as ([i name] & <- & Hin).
      apply list_elem_of_In, list_elem_of_omap in Hin as (sid & Hsid & Hname).
      destruct (students db !! sid) as [name'|] eqn:Hst; [|discriminate].
      injection Hname as <- <-. simpl.
      apply list_elem_of_In, in_map_iff in Hsid as (e & <- & He).
      apply list_elem_of_In, filter_elem in He as [He Hfl].
      apply andb_true_iff in Hfl as [H1 H2]. apply String.eqb_eq in H1.
      split; [exists e; auto | rewrite Hst; eauto].
    + intros [(e & He & <- & H1 & H2) [name Hname]].
      eexists. split; [|apply list_elem_of_In, in_map_iff;
        exists (enr_studentId e, name); split; [reflexivity|]].
      * reflexivity.
      * apply list_elem_of_In, list_elem_of_omap. exists (enr_studentId e).
        split; [|now rewrite Hname].
        apply list_elem_of_In, in_map_iff. exists e. split; [reflexivity|].
        apply list_elem_of_In, filter_elem. split; [exact He|].
        now rewrite H1, H2, String.eqb_refl.
  - intros s Hs. apply list_elem_of_In, in_map_iff in Hs as ([i name] & <- & _).
    cbn [es_present es_id fst]. unfold Set_has.
    rewrite bool_decide_eq_true.
    destruct sessionId as [k|].
    + destruct (String.eqb_spec k EmptyString) as [->|Hk].
      * rewrite new_Set_elem, elem_of_nil. split; [tauto|].
        intros (k & [= <-] & Hk & _). contradiction.
      * rewrite present_ids_elem. split; [eauto|].
        now intros (k' & [= <-] & _ & H).
    + rewrite new_Set_elem, elem_of_nil. split; [tauto|].
      intros (k & Hk & _). discriminate.
Qed.

(** X26.  The list of the students of a course answers 404 for a course that
    does not exist and 403 for a caller who is not its faculty.  For the
    faculty of the course it lists the students that have an active
    enrollment in the course and a profile, and flags as present those with a
    [present] document in the session named by the request; without a
    session nobody is flagged. *)
Theorem course_students_spec (courseDocs : gmap string CourseDoc) (db : Db)
    (userId courseId : string) (sessionId : option string) :
  (courseDocs !! courseId = None ->
   course_students courseDocs db userId courseId sessionId
   = Refused 404 "Course not found") /\
  (forall course, courseDocs !! courseId = Some course ->
     cd_facultyId course <> userId ->
     course_students courseDocs db userId courseId sessionId
     = Refused 403 "Not authorized for this course") /\
  (forall course, courseDocs !! courseId = Some course ->
     cd_facultyId course = userId ->
     exists l,
       course_students courseDocs db userId courseId sessionId = Json l
       /\ (forall sid, sid ∈ es_id <$> l <->
             (exists e, e ∈ enrollments db /\ enr_studentId e = sid
                        /\ enr_courseId e = courseId /\ enr_isActive e = true)
             /\ is_Some (students db !! sid))
       /\ (forall s, s ∈ l ->
             es_present s = true <->
             exists k, sessionId = Some k /\ k <> EmptyString
                       /\ present_in (attendance db) k (es_id s))).
Proof.
  split; [|split].
  - unfold course_students. now intros ->.
  - intros course Hc Hf. unfold course_students. rewrite Hc.
    destruct (String.eqb_spec (cd_facultyId course) userId);
      [contradiction | reflexivity].
  - apply course_students_owner.
Qed.

(** X27.  After a manual reconciliation of a session in which no student
    had two [present] documents, the list of the students of a course, asked
    for that session, flags as present exactly the students of the list that
    was submitted. *)
Theorem manual_attendance_shows_in_course_students
    (courseDocs : gmap string CourseDoc) (db : Db)
    (userId sessionId : string) (ids : list string) (now : Z)
    (r : ManualSuccess) (db' : Db) (courseId : string) (l : list EnrolledStudent) :
  one_present_each (attendance db) sessionId ->
  sessionId <> EmptyString ->
  manual_attendance db userId sessionId ids now = (Success r, db') ->
  course_students courseDocs db' userId courseId (Some sessionId) = Json l ->
  forall s, s ∈ l -> es_present s = true <-> es_id s ∈ ids.
Proof.
  intros Hone Hne Hman Hlist s Hs.
  destruct (manual_attendance_Success _ _ _ _ _ _ _ Hman) as (session & Hses & Hf).
  rewrite (manual_attendance_owner _ _ _ _ _ _ Hses Hf) in Hman.
  injection Hman as _ Hdb. cbv zeta in Hdb.
  assert (Hatt : attendance db'
                 = reconciled_docs db sessionId session ids now)
    by (subst db'; now destruct (negb _)).
  assert (exists course, courseDocs !! courseId = Some course
                         /\ cd_facultyId course = userId)
    as (course & Hc & Hcf).
  { unfold course_students in Hlist.
    destruct (courseDocs !! courseId) as [course|]; [|discriminate].
    destruct (String.eqb_spec (cd_facultyId course) userId); [|discriminate].
    eauto. }
  destruct (course_students_owner courseDocs db' userId courseId
              (Some sessionId) course Hc Hcf) as (l' & Hl' & _ & Hp).
  rewrite Hl' in Hlist. injection Hlist as ->.
  rewrite (Hp s Hs), Hatt. split.
  - intros (k & [= <-] & _ & H).
    now apply (reconciled_present db sessionId session ids now Hone).
  - intros H. exists sessionId. split; [reflexivity|]. split; [exact Hne|].
    now apply (reconciled_present db sessionId session ids now Hone).
Qed.

(** ** The middleware *)

Lemma append_nil_r (s : string) : s +:+ EmptyString = s.
Proof.
  induction s as [|c s IH]; [reflexivity|].
  rewrite append_cons. now rewrite IH.
Qed.

Lemma prefix_append_self (sep b : string) : String.prefix sep (sep +:+ b) = true.
Proof.
  induction sep as [|c sep IH]; [now destruct b|].
  rewrite append_cons. simpl.
  destruct (ascii_dec c c); [exact IH | contradiction].
Qed.

Lemma prefix_append_long (sep : string) : forall x y : string,
  (String.length sep <= String.length x)%nat ->
  String.prefix sep (x +:+ y) = String.prefix sep x.
Proof.
  induction sep as [|c sep IH]; intros x y Hlen.
  - destruct x; [now destruct y | reflexivity].
  - destruct x as [|d x]; simpl in Hlen; [lia|].
    rewrite append_cons. simpl.
    destruct (ascii_dec c d); [|reflexivity]. apply IH. lia.
Qed.

Lemma includes_prefix (sep s : string) :
  includes sep s = false -> String.prefix sep s = false.
Proof. destruct s; simpl; intros H; apply orb_false_iff in H; tauto. Qed.

Lemma includes_tail (sep : string) (c : ascii) (s : string) :
  includes sep (String c s) = false -> includes sep s = false.
Proof. simpl. intros H. apply orb_false_iff in H. tauto. Qed.

Lemma prefix_append_l (sep : string) : forall a b : string,
  String.prefix sep a = true -> String.prefix sep (a +:+ b) = true.
Proof.
  induction sep as [|c sep IH]; intros a b H; [now destruct (a +:+ b)|].
  destruct a as [|d a]; [discriminate|].
  rewrite append_cons. simpl in H |- *.
  destruct (ascii_dec c d); [now apply IH | discriminate].
Qed.

Lemma includes_append_l (sep : string) : forall a b : string,
  includes sep (a +:+ b) = false -> includes sep a = false.
Proof.
  induction a as [|c a IH]; intros b H.
  - cbn [includes]. rewrite orb_false_r. apply not_true_is_false. intros Hp.
    apply (prefix_append_l _ _ b) in Hp.
    apply includes_prefix in H. congruence.
  - rewrite append_cons in H. cbn [includes] in H |- *.
    apply orb_false_iff in H as [H1 H2]. apply orb_false_iff. split.
    + apply not_true_is_false. intros Hp.
      apply (prefix_append_l _ _ b) in Hp. rewrite append_cons in Hp.
      congruence.
    + now apply (IH b).
Qed.

Lemma split_go_skip (sep : string) (x : string) : forall cur b : string,
  split_go sep (String.length x) cur (x +:+ b) = split_go sep 0 cur b.
Proof.
  induction x as [|c x IH]; intros cur b; [now destruct b|].
  rewrite append_cons. simpl. apply IH.
Qed.

Lemma split_go_free (sep : string) : forall s cur : string,
  includes sep s = false -> split_go sep 0 cur s = [cur +:+ s].
Proof.
  induction s as [|c s IH]; intros cur H.
  - now rewrite append_nil_r.
  - cbn [split_go]. rewrite (includes_prefix _ _ H).
    rewrite IH by (eapply includes_tail; exact H).
    now rewrite append_assoc.
Qed.

Section SplitFirst.

(** The separator, with its last character apart. *)
Variables (sep0 : string) (last : ascii).

Let sep : string := sep0 +:+ String last EmptyString.

Lemma sep_length : String.length sep = S (String.length sep0).
Proof. unfold sep. rewrite append_length. simpl. lia. Qed.

Lemma split_go_first (b : string) : forall a cur : string,
  includes sep (a +:+ sep0) = false ->
  split_go sep 0 cur (a +:+ sep +:+ b)
  = (cur +:+ a) :: split_go sep 0 EmptyString b.
Proof.
  induction a as [|c a IH]; intros cur H.
  - rewrite append_nil_l, append_nil_r.
    pose proof (prefix_append_self sep b) as Hp.
    pose proof sep_length as Hlen.
    destruct sep as [|c0 sep'] eqn:Hsep; [discriminate|].
    rewrite append_cons in Hp |- *. cbn [split_go]. rewrite Hp.
    f_equal. simpl in Hlen. injection Hlen as Hlen.
    replace (String.length (String c0 sep') - 1)%nat
      with (String.length sep') by (simpl; lia).
    apply split_go_skip.
  - rewrite append_cons. cbn [split_go].
    assert (Hp : String.prefix sep (String c (a +:+ sep +:+ b)) = false).
    { replace (String c (a +:+ sep +:+ b))
        with ((String c a +:+ sep0) +:+ String last b).
      - rewrite prefix_append_long.
        + now apply includes_prefix.
        + rewrite sep_length, append_length. simpl. lia.
      - unfold sep. rewrite !append_assoc, append_cons.
        rewrite append_cons, append_nil_l. reflexivity. }
    rewrite Hp. rewrite IH.
    + now rewrite append_assoc, append_cons, append_nil_l.
    + rewrite append_cons in H. eapply includes_tail; exact H.
Qed.

End SplitFirst.

Lemma split_Bearer (pre rest : string) :
  includes "Bearer " (pre +:+ "Bearer") = false ->
  split "Bearer " (pre +:+ "Bearer " +:+ rest)
  = pre :: split "Bearer " rest.
Proof.
  intros H. unfold split.
  exact (split_go_first "Bearer" " " rest pre EmptyString H).
Qed.

(** X28.  The middleware refuses with status 401 only.  There is no token
    when the header is missing or has no "Bearer " in it.  The token is what
    stands between the first "Bearer " and the next one: what precedes the
    first "Bearer " is ignored, so that a header with any text before it is
    accepted when its token is, and what follows a second "Bearer " is
    dropped. *)
Theorem verifyToken_reads_the_header
    (verifyIdToken : string -> DecodedToken + option string) :
  (forall authorization status error,
     verifyToken verifyIdToken authorization = Refused status error ->
     status = 401) /\
  verifyToken verifyIdToken None = Refused 401 "No token provided" /\
  (forall header, includes "Bearer " header = false ->
     verifyToken verifyIdToken (Some header)
     = Refused 401 "No token provided") /\
  (forall pre token, includes "Bearer " (pre +:+ "Bearer") = false ->
     includes "Bearer " token = false -> token <> EmptyString ->
     forall decodedToken, verifyIdToken token = inl decodedToken ->
     verifyToken verifyIdToken (Some (pre +:+ "Bearer " +:+ token))
     = Json decodedToken) /\
  (forall pre token rest,
     includes "Bearer " (pre +:+ "Bearer") = false ->
     includes "Bearer " (token +:+ "Bearer") = false ->
     verifyToken verifyIdToken
       (Some (pre +:+ "Bearer " +:+ token +:+ "Bearer " +:+ rest))
     = verifyToken verifyIdToken (Some ("Bearer " +:+ token))).
Proof.
  split; [|split; [|split; [|split]]].
  - intros authorization status error. unfold verifyToken.
    repeat case_match; intros; simplify_eq; reflexivity.
  - reflexivity.
  - intros header H. unfold verifyToken, split.
    rewrite split_go_free by exact H. reflexivity.
  - intros pre token Hpre Htok Hne d Hd. unfold verifyToken.
    rewrite split_Bearer by exact Hpre. unfold split.
    rewrite split_go_free by exact Htok. rewrite append_nil_l.
    change ((pre :: [token]) !! 1%nat) with (Some token).
    unfold truthy_string.
    destruct (String.eqb_spec token EmptyString); [contradiction|].
    simpl. now rewrite Hd.
  - intros pre token rest Hpre Htok.
    assert (Htok' : includes "Bearer " token = false)
      by (eapply includes_append_l; exact Htok).
    unfold verifyToken.
    rewrite split_Bearer by exact Hpre.
    rewrite split_Bearer by exact Htok.
    change ("Bearer " +:+ token)%string
      with (EmptyString +:+ "Bearer " +:+ token)%string.
    rewrite (split_Bearer EmptyString token) by reflexivity.
    unfold split. rewrite (split_go_free _ token) by exact Htok'.
    rewrite append_nil_l. reflexivity.
Qed.

(** ** Profiles *)






(** ** The second example *)

Lemma semester_issue :
  generate_qr Scenario.QR_SECRET Semester.courseDocs0 Scenario.db0 "fac1"
    Semester.qrBody Semester.startedAt "sess2"
  = (Json Semester.issued, Semester.db1).
Proof. vm_compute. reflexivity. Qed.

Lemma semester_join :
  join_course Semester.toUpperCase Semester.courseDocs0 Scenario.db0 "stu2"
    (Some "abcdef"%string) "enr2"
  = (Json Semester.joined, Semester.courseDocs2, Semester.db2).
Proof. vm_compute. reflexivity. Qed.

Lemma semester_joinCode_unique :
  joinCode_unique Semester.courseDocs0 (Semester.toUpperCase "abcdef").
Proof.
  intros i j c d Hi Hj _ _. unfold Semester.courseDocs0 in Hi, Hj.
  apply lookup_singleton_Some in Hi as [<- _].
  apply lookup_singleton_Some in Hj as [<- _]. reflexivity.
Qed.

Lemma scenario_attendance_refers : attendance_refers Scenario.db0.
Proof. intros a Ha. exfalso. exact (proj1 (elem_of_nil a) Ha). Qed.

Lemma scenario_one_enrollment : one_enrollment_each Scenario.db0.
Proof.
  intros i j a b Hi Hj _ _.
  destruct i as [|i], j as [|j]; try reflexivity; discriminate.
Qed.

Lemma generate_qr_effect_witness :
  generate_qr Scenario.QR_SECRET Semester.courseDocs0 Scenario.db0 "fac1"
    Semester.qrBody Semester.startedAt "sess2"
  = (Json Semester.issued, Semester.db1)
  /\ sessions Semester.db1 !! "sess2" = Some Semester.session2
  /\ activeQRs Semester.db1 !! "sess2"
     = Some (qi_qrPayload Semester.issued)
  /\ verifyQRSignature Scenario.QR_SECRET (qi_qrPayload Semester.issued)
     = true
  /\ attendance Semester.db1 = attendance Scenario.db0.
Proof.
  split; [exact semester_issue|].
  destruct (generate_qr_effect _ _ _ _ _ _ _ _ _ semester_issue)
    as (_ & _ & Hs & _ & _ & _ & _ & _ & Hq & Hv & _ & _ & _ & _ & _ & _
        & Ha & _).
  auto.
Defined.

Lemma issued_token_is_accepted_witness :
  exists ok db2,
    scan_qr Scenario.QR_SECRET Semester.db1 "stu1" Semester.scan2
      (Semester.startedAt + 1000) = (Success ok, db2)
    /\ scan_distance ok = Some 0
    /\ present_in (attendance db2) "sess2" "stu1".
Proof.
  destruct (issued_token_is_accepted Scenario.QR_SECRET Semester.courseDocs0
              Scenario.db0 "fac1" Semester.qrBody Semester.startedAt "sess2"
              Semester.issued Semester.db1 "stu1" Semester.scan2
              (Semester.startedAt + 1000) semester_issue eq_refl
              ltac:(vm_compute; discriminate)
              ltac:(vm_compute; discriminate) eq_refl
              (or_introl eq_refl))
    as (ok & db2 & H & Hd & _ & Hp & _).
  exists ok, db2. auto.
Defined.

Lemma handlers_keep_attendance_refers_witness :
  attendance_refers Scenario.db0 /\ attendance_refers Semester.db1
  /\ counters_ok Semester.db1.
Proof.
  destruct (handlers_keep_attendance_refers Scenario.db0
              scenario_attendance_refers) as (_ & _ & _ & H).
  destruct (H _ _ _ _ _ _ _ _ semester_issue) as [H1 H2].
  split; [exact scenario_attendance_refers|]. split; [exact H1|].
  apply H2; [reflexivity | exact scenario_counters_ok].
Defined.

Lemma join_course_twice_witness :
  join_course Semester.toUpperCase Semester.courseDocs2 Semester.db2 "stu2"
    (Some "ABCdef"%string) "enr3"
  = (Refused 400 "Already enrolled in this course", Semester.courseDocs2,
     Semester.db2)
  /\ cd_enrolledCount <$> Semester.courseDocs2 !! "course1"
     = Some (Some 2).
Proof.
  exact (join_course_twice Semester.toUpperCase Semester.courseDocs0
           Scenario.db0 "stu2" "abcdef" "enr2" Semester.joined
           Semester.courseDocs2 Semester.db2 "ABCdef" "enr3"
           semester_joinCode_unique semester_join
           ltac:(discriminate) eq_refl).
Defined.

Lemma handlers_keep_one_enrollment_each_witness :
  one_enrollment_each Scenario.db0 /\ one_enrollment_each Semester.db2.
Proof.
  split; [exact scenario_one_enrollment|].
  destruct (handlers_keep_one_enrollment_each Scenario.db0
              scenario_one_enrollment) as (H & _ & _).
  exact (H _ _ _ _ _ _ _ _ semester_join).
Defined.

Lemma scenario_course_students :
  course_students Semester.courseDocs0
    (snd (manual_attendance Scenario.db0 "fac1" "sess1"
            ["stu1"; "stu2"]%string 10))
    "fac1" "course1" (Some "sess1"%string)
  = Json [ {| es_id := "stu1"; es_name := "Asha"; es_present := true |} ].
Proof. vm_compute. reflexivity. Qed.

Lemma manual_attendance_shows_in_course_students_witness :
  es_present {| es_id := "stu1"; es_name := "Asha"; es_present := true |}
  = true
  <-> "stu1"%string ∈ ["stu1"; "stu2"]%string.
Proof.
  exact (manual_attendance_shows_in_course_students Semester.courseDocs0
           Scenario.db0 "fac1" "sess1" ["stu1"; "stu2"]%string 10 _ _
           "course1" _ (scenario_one_present "sess1") ltac:(discriminate)
           scenario_manual_call scenario_course_students
           {| es_id := "stu1"; es_name := "Asha"; es_present := true |}
           (list_elem_of_here _ _)).
Defined.

(** A deleted course can be enrolled in again, since enroll-student does not
    look the course up: the scan that is refused after the delete succeeds
    after the enrollment. *)
Example scan_after_delete_and_enroll :
  let body :=
    {| eb_courseId := Some "course1"%string;
       eb_studentEmail := Some "asha@example.org"%string;
       eb_studentId := None; eb_email := None |} in
  exists cd' db' db'' ok db3,
    delete_course Semester.courseDocs0 Semester.db1 "fac1" "course1"
    = (Json tt, cd', db')
    /\ cd' !! "course1"%string = None /\ courses db' = []
    /\ scan_qr Scenario.QR_SECRET db' "stu1" Semester.scan2
         (Semester.startedAt + 1000) = (Failure Forbidden, db')
    /\ enroll_student (fun _ => ["stu1"%string]) db' "fac1" body
       = (Json tt, db'')
    /\ scan_qr Scenario.QR_SECRET db'' "stu1" Semester.scan2
         (Semester.startedAt + 1000) = (Success ok, db3).
Proof.
  cbv zeta. eexists _, _, _, _, _.
  split; [vm_compute; reflexivity|].
  split; [vm_compute; reflexivity|].
  split; [vm_compute; reflexivity|].
  split; [vm_compute; reflexivity|].
  split; vm_compute; reflexivity.
Qed.
